(** * POLYNOCTON-sdk: the trading client (order-lifecycle layer)

    A shallow embedding of [TradingClient] (constructor, [placeOrder],
    [cancelOrder], [cancelOrders], [getOpenOrders], [getOrder]) and of the
    JavaScript primitives it relies on: IEEE-754 binary64 numbers,
    truthiness, the [||] default idiom and [parseFloat]. *)

From Stdlib Require Import ZArith List String Ascii Bool Lia.
From Stdlib Require Import SpecFloat.
Import ListNotations.
Local Open Scope string_scope.
Local Open Scope Z_scope.

(* ================================================================== *)
(** ** JavaScript values used by the client *)
(* ================================================================== *)

Module Js.

(** A JavaScript number is an IEEE-754 binary64 value. *)
Definition prec : Z := 53.
Definition emax : Z := 1024.
Definition number : Type := spec_float.

Definition NaN : number := S754_nan.
Definition zero : number := S754_zero false.
Definition ofZ (z : Z) : number := binary_normalize prec emax z 0 false.
Definition one : number := Eval cbv in ofZ 1.

(** [a - b], [a <= b], [a >= b] on numbers. *)
Definition sub (a b : number) : number := SFsub prec emax a b.
Definition le (a b : number) : bool := SFleb a b.
Definition ge (a b : number) : bool := SFleb b a.

(** A number is a JavaScript number when it is a canonical binary64. *)
Definition wellFormed (x : number) : bool := valid_binary prec emax x.

(** Neither NaN nor an infinity. *)
Definition isFinite (x : number) : bool :=
  match x with
  | S754_zero _ | S754_finite _ _ _ => true
  | S754_infinity _ | S754_nan => false
  end.

(** The value of a finite number, counted in units of [2^-1074], the
    least positive binary64 number: every finite binary64 number is a
    whole number of them. 0 for NaN and the infinities. *)
Definition units (x : number) : Z :=
  match x with
  | S754_finite s m e => (if s then -1 else 1) * (Z.pos m * 2 ^ (e + 1074))
  | _ => 0
  end.

(** The unit in the last place of a number, counted the same way: the
    weight of the last bit of its mantissa, and the least unit for 0. *)
Definition ulpUnits (x : number) : Z :=
  match x with
  | S754_finite _ _ e => 2 ^ (e + 1074)
  | _ => 1
  end.

(** ToBoolean. *)
Definition truthyNum (x : number) : bool :=
  match x with
  | S754_nan | S754_zero _ => false
  | _ => true
  end.

Definition truthyStr (s : string) : bool :=
  match s with EmptyString => false | _ => true end.

(** An optional property: [None] is [undefined]. *)
Definition truthyOptStr (o : option string) : bool :=
  match o with Some s => truthyStr s | None => false end.

Definition truthyOptNum (o : option number) : bool :=
  match o with Some x => truthyNum x | None => false end.

(** [a || d] with a string default. *)
Definition orStr (o : option string) (d : string) : string :=
  match o with
  | Some s => if truthyStr s then s else d
  | None => d
  end.

(** [a || b] where both sides may be [undefined]. *)
Definition orOptStr (a b : option string) : option string :=
  if truthyOptStr a then a else b.

(** [a || d] with a number default. *)
Definition orNum (o : option number) (d : number) : number :=
  match o with
  | Some x => if truthyNum x then x else d
  | None => d
  end.

(** ToString of an optional string property. *)
Definition toStringOpt (o : option string) : string :=
  match o with Some s => s | None => "undefined" end.

(** *** parseFloat *)

(** Text is held as its UTF-8 bytes. White space and line terminators
    removed by TrimString: the ones of one byte (TAB, LF, VT, FF, CR,
    SP), *)
Definition isWhiteSpace (c : ascii) : bool :=
  let n := nat_of_ascii c in
  (Nat.eqb n 9 || Nat.eqb n 10 || Nat.eqb n 11 || Nat.eqb n 12
   || Nat.eqb n 13 || Nat.eqb n 32)%bool.

(** of two bytes (U+00A0), *)
Definition isWhiteSpace2 (c1 c2 : ascii) : bool :=
  (Nat.eqb (nat_of_ascii c1) 194 && Nat.eqb (nat_of_ascii c2) 160)%bool.

(** and of three bytes (U+1680, U+2000 to U+200A, U+2028, U+2029,
    U+202F, U+205F, U+3000, U+FEFF). *)
Definition isWhiteSpace3 (c1 c2 c3 : ascii) : bool :=
  let a := nat_of_ascii c1 in
  let b := nat_of_ascii c2 in
  let c := nat_of_ascii c3 in
  ((Nat.eqb a 225 && Nat.eqb b 154 && Nat.eqb c 128)
   || (Nat.eqb a 226 && Nat.eqb b 128
       && ((Nat.leb 128 c && Nat.leb c 138) || Nat.eqb c 168 || Nat.eqb c 169
           || Nat.eqb c 175))
   || (Nat.eqb a 226 && Nat.eqb b 129 && Nat.eqb c 159)
   || (Nat.eqb a 227 && Nat.eqb b 128 && Nat.eqb c 128)
   || (Nat.eqb a 239 && Nat.eqb b 187 && Nat.eqb c 191))%bool.

Fixpoint trimStart (s : string) : string :=
  match s with
  | String c r =>
      if isWhiteSpace c then trimStart r
      else
        match r with
        | String c2 r2 =>
            if isWhiteSpace2 c c2 then trimStart r2
            else
              match r2 with
              | String c3 r3 => if isWhiteSpace3 c c2 c3 then trimStart r3 else s
              | EmptyString => s
              end
        | EmptyString => s
        end
  | EmptyString => s
  end.

Definition digitOf (c : ascii) : option Z :=
  let n := nat_of_ascii c in
  if (Nat.leb 48 n && Nat.leb n 57)%bool then Some (Z.of_nat (n - 48)) else None.

(** Reads the longest run of decimal digits: accumulated value, number of
    digits read, and the rest of the text. *)
Fixpoint scanDigits (s : string) (acc : Z) (cnt : Z) : Z * Z * string :=
  match s with
  | String c r =>
      match digitOf c with
      | Some d => scanDigits r (10 * acc + d) (cnt + 1)
      | None => (acc, cnt, s)
      end
  | EmptyString => (acc, cnt, s)
  end.

(** ExponentPart, when one is there: [e] or [E], an optional sign and at
    least one digit. Otherwise the exponent is 0. *)
Definition scanExponent (s : string) : Z :=
  match s with
  | String c r =>
      if (Ascii.eqb c "e" || Ascii.eqb c "E")%bool then
        match r with
        | String sg r' =>
            if Ascii.eqb sg "-" then
              let '(v, n, _) := scanDigits r' 0 0 in
              if n =? 0 then 0 else - v
            else if Ascii.eqb sg "+" then
              let '(v, n, _) := scanDigits r' 0 0 in
              if n =? 0 then 0 else v
            else
              let '(v, n, _) := scanDigits r 0 0 in
              if n =? 0 then 0 else v
        | EmptyString => 0
        end
      else 0
  | EmptyString => 0
  end.

(** The Number value of [m * 10^e10] for a mantissa [m > 0], rounded to
    nearest, ties to even. *)
Definition roundDecimal (neg : bool) (m : positive) (e10 : Z) : number :=
  if 0 <=? e10 then
    binary_normalize prec emax
      (if neg then Z.neg (m * Z.to_pos (10 ^ e10)) else Z.pos (m * Z.to_pos (10 ^ e10))) 0 false
  else
    SFdiv prec emax (S754_finite neg m 0)
                    (S754_finite false (Z.to_pos (10 ^ (- e10))) 0).

Definition decimalValue (neg : bool) (m : Z) (e10 : Z) : number :=
  match m with
  | Z.pos p => roundDecimal neg p e10
  | _ => S754_zero neg
  end.

(** StrUnsignedDecimalLiteral: the longest prefix that is one. *)
Definition parseUnsigned (neg : bool) (s : string) : number :=
  if String.prefix "Infinity" s then S754_infinity neg
  else
    let '(ip, ni, r1) := scanDigits s 0 0 in
    match r1 with
    | String "." r2 =>
        let '(m, nd, r3) := scanDigits r2 ip ni in
        if nd =? 0 then NaN
        else decimalValue neg m (scanExponent r3 - (nd - ni))
    | _ =>
        if ni =? 0 then NaN
        else decimalValue neg ip (scanExponent r1)
    end.

Definition parseFloat (input : string) : number :=
  match trimStart input with
  | String "+" r => parseUnsigned false r
  | String "-" r => parseUnsigned true r
  | s => parseUnsigned false s
  end.

End Js.

(* ================================================================== *)
(** ** Errors, promises and the world the client runs in *)
(* ================================================================== *)

(** [new Error(message)]. *)
Record JsError : Type := Error { message : string }.

(** How an evaluation ends: with a value, or with a thrown error (a
    rejected promise, for the asynchronous methods). *)
Inductive Completion (A : Type) : Type :=
| Return (a : A)
| Throw (e : JsError).
Arguments Return {A} a.
Arguments Throw {A} e.

(** The request sent to the exchange by [createAndPostOrder]. *)
Inductive Side : Type := BUY | SELL.

Module UserOrder.
Record t : Type := make {
  tokenID : string;
  side : Side;
  price : Js.number;
  size : Js.number;
  expiration : option Js.number;
  nonce : option Js.number
}.
End UserOrder.

(** The response of [createAndPostOrder]. *)
Module OrderResponse.
Record t : Type := make {
  orderID : option string;
  id : option string;
  status : option string
}.
End OrderResponse.

(** An order record as the exchange returns it: numbers are text. *)
Module OpenOrder.
Record t : Type := make {
  id : string;
  asset_id : string;
  side : string;
  price : option string;
  size_matched : option string;
  original_size : option string;
  status : option string;
  created_at : option Js.number
}.
End OpenOrder.

(** Every call that reaches the exchange gateway. *)
Inductive GatewayCall : Type :=
| CallCreateAndPostOrder (o : UserOrder.t)
| CallCancelOrder (orderID : string)
| CallCancelOrders (orderIds : list string)
| CallGetOpenOrders
| CallGetOrder (orderId : string).

(** The world: the gateway calls made so far (latest first) and the
    reading of [Date.now()]. *)
Record World : Type := mkWorld {
  calls : list GatewayCall;
  now : Js.number
}.

(** An asynchronous computation: it transforms the world and completes. *)
Definition Async (A : Type) : Type := World -> World * Completion A.

Definition ret {A} (a : A) : Async A := fun w => (w, Return a).

Definition throw {A} (e : JsError) : Async A := fun w => (w, Throw e).

Definition bind {A B} (c : Async A) (k : A -> Async B) : Async B :=
  fun w =>
    match c w with
    | (w', Return a) => k a w'
    | (w', Throw e) => (w', Throw e)
    end.

(** [try { c } catch (error) { h error }]: the effects of [c] stay. *)
Definition tryCatch {A} (c : Async A) (h : JsError -> Async A) : Async A :=
  fun w =>
    match c w with
    | (w', Return a) => (w', Return a)
    | (w', Throw e) => h e w'
    end.

Notation "x <- c ;; k" := (bind c (fun x => k))
  (at level 61, c at next level, right associativity).
Notation "c ;;; k" := (bind c (fun _ => k))
  (at level 61, right associativity).

(** [await] of a gateway operation: the call is recorded, then the
    gateway's answer is the completion. *)
Definition await {A} (c : GatewayCall) (answer : Completion A) : Async A :=
  fun w => (mkWorld (c :: calls w) (now w), answer).

Definition dateNow : Async Js.number := fun w => (w, Return (now w)).

(** [if (cond) throw new Error(msg)]. *)
Definition throwIf (cond : bool) (msg : string) : Async unit :=
  if cond then throw (Error msg) else ret tt.

(* ================================================================== *)
(** ** Configuration and the external collaborators *)
(* ================================================================== *)

Module BuilderConfig.
Record t : Type := make {
  key : option string;
  secret : option string;
  passphrase : option string;
  signingServerUrl : option string
}.
End BuilderConfig.

(** What [signer.getAddress().then(...)] does: the expression itself
    throws (the call throws, or what it returns has no [then]), or the
    call returns a promise that resolves to an address, or one that
    rejects. *)
Inductive AddressLookup : Type :=
| LookupThrows (e : JsError)
| LookupResolves (address : string)
| LookupRejects (e : JsError).

(** An ethers signer handed in by the caller: its [getAddress] method,
    when it has one. *)
Module Signer.
Record t : Type := make { getAddress : option AddressLookup }.
End Signer.

Module TradingConfig.
Record backend_t : Type := mkBackend { privateKey : string }.
(** [signer] has type [any]: [None] stands for a falsy value. *)
Record frontend_t : Type := mkFrontend { signer : option Signer.t }.
Record t : Type := make {
  host : option string;
  chainId : option Js.number;
  builder : option BuilderConfig.t;
  backend : option backend_t;
  frontend : option frontend_t
}.
End TradingConfig.

(** [{ key, secret, passphrase }]. *)
Record ApiCreds : Type := mkApiCreds {
  creds_key : string;
  creds_secret : string;
  creds_passphrase : string
}.

(** The argument of [new BuilderConfig(...)] of the builder signing SDK. *)
Inductive BuilderSigning : Type :=
| RemoteBuilderConfig (url : string)
| LocalBuilderCreds (creds : ApiCreds).

Inductive SignatureType : Type := EOA | POLY_PROXY | POLY_GNOSIS_SAFE.

(** What signs orders: a wallet built from a private key, or the
    caller's signer. *)
Inductive ClobSigner : Type :=
| WalletSigner (privateKey address : string)
| ExternalSigner (s : Signer.t).

(** The operations of the exchange gateway the client consumes. *)
Module Gateway.
Record t : Type := make {
  createAndPostOrder : UserOrder.t -> Completion OrderResponse.t;
  cancelOrder : string -> Completion unit;
  cancelOrders : list string -> Completion unit;
  getOpenOrders : Completion (list OpenOrder.t);
  getOrder : string -> Completion (option OpenOrder.t)
}.
End Gateway.

(** [new ClobClient(host, chainId, signer, creds, signatureType, funder,
    geoBlockToken, useServerTime, builderConfig)], talking to a gateway. *)
Module ClobClient.
Record t : Type := make {
  host : string;
  chainId : Js.number;
  signer : ClobSigner;
  creds : option ApiCreds;
  signatureType : SignatureType;
  funderAddress : option string;
  geoBlockToken : option string;
  useServerTime : bool;
  builderConfig : option BuilderSigning;
  gateway : Gateway.t
}.
End ClobClient.

(* ================================================================== *)
(** ** The trading client *)
(* ================================================================== *)

Module PlaceOrderParams.
Record t : Type := make {
  tokenId : string;
  side : string;
  price : Js.number;
  size : Js.number;
  expiration : option Js.number;
  nonce : option Js.number
}.
End PlaceOrderParams.

Module Order.
Record t : Type := make {
  orderId : string;
  tokenId : string;
  side : string;
  price : Js.number;
  originalSize : Js.number;
  size : Js.number;
  status : string;
  timestamp : Js.number;
  raw : OpenOrder.t
}.
End Order.

Module PlacedOrder.
Record t : Type := make { orderId : option string; status : string }.
End PlacedOrder.

Module TradingClient.

Record t : Type := make {
  client : ClobClient.t;
  config : TradingConfig.t;
  walletAddress : option string
}.

Definition defaultHost : string := "https://clob.polymarket.com".
Definition polygonMainnet : Js.number := Eval cbv in Js.ofZ 137.

Definition missingModeMessage : string :=
  "Trading configuration must include either 'backend' or 'frontend' mode. "
  ++ "For bots/servers use 'backend' with privateKey. "
  ++ "For web apps use 'frontend' with signer.".

Definition isSome {A} (o : option A) : bool :=
  match o with Some _ => true | None => false end.

(** [config.builder?.key && config.builder?.secret &&
    config.builder?.passphrase ? {...} : undefined]. *)
Definition apiCredsOf (b : option BuilderConfig.t) : option ApiCreds :=
  match b with
  | Some b =>
      match BuilderConfig.key b, BuilderConfig.secret b, BuilderConfig.passphrase b with
      | Some k, Some s, Some p =>
          if (Js.truthyStr k && Js.truthyStr s && Js.truthyStr p)%bool
          then Some (mkApiCreds k s p) else None
      | _, _, _ => None
      end
  | None => None
  end.

(** [config.builder?.signingServerUrl], when truthy. *)
Definition signingServerUrlOf (b : option BuilderConfig.t) : option string :=
  match b with
  | Some b =>
      match BuilderConfig.signingServerUrl b with
      | Some u => if Js.truthyStr u then Some u else None
      | None => None
      end
  | None => None
  end.

(** The builder configuration of the backend branch. *)
Definition backendBuilderConfig (b : option BuilderConfig.t) : option BuilderSigning :=
  match signingServerUrlOf b with
  | Some u => Some (RemoteBuilderConfig u)
  | None =>
      match apiCredsOf b with
      | Some c => Some (LocalBuilderCreds c)
      | None => None
      end
  end.

(** The builder configuration of the frontend branch. *)
Definition frontendBuilderConfig (b : option BuilderConfig.t) : option BuilderSigning :=
  match signingServerUrlOf b with
  | Some u => Some (RemoteBuilderConfig u)
  | None => None
  end.

(** [config.backend?.privateKey], when truthy. *)
Definition backendKeyOf (c : TradingConfig.t) : option string :=
  match TradingConfig.backend c with
  | Some b => if Js.truthyStr (TradingConfig.privateKey b)
              then Some (TradingConfig.privateKey b) else None
  | None => None
  end.

(** [config.frontend?.signer], when truthy. *)
Definition frontendSignerOf (c : TradingConfig.t) : option Signer.t :=
  match TradingConfig.frontend c with
  | Some f => TradingConfig.signer f
  | None => None
  end.

(** [typeof signer.getAddress === "function"], then
    [signer.getAddress().then(...)]: the constructor goes on unless the
    call itself throws. *)
Definition startAddressLookup (signer : Signer.t) : Completion unit :=
  match Signer.getAddress signer with
  | Some (LookupThrows e) => Throw e
  | _ => Return tt
  end.

Section Constructor.
(** [new ethers.Wallet(privateKey)]: the wallet's address, or the
    error ethers throws on a key it rejects. *)
Variable ethersWallet : string -> Completion string.
(** [new BuilderConfig(...)] of the builder signing SDK: it returns, or
    throws on a configuration it rejects. *)
Variable newBuilderConfig : BuilderSigning -> Completion unit.
(** The gateway behind the CLOB client. *)
Variable gateway : Gateway.t.

(** [let builderConfig = undefined; if (...) builderConfig = new
    BuilderConfig(...)], for the configuration the branch has chosen. *)
Definition buildBuilderConfig (chosen : option BuilderSigning)
    : Completion (option BuilderSigning) :=
  match chosen with
  | Some b =>
      match newBuilderConfig b with
      | Return _ => Return (Some b)
      | Throw e => Throw e
      end
  | None => Return None
  end.

Definition constructor (config : TradingConfig.t) : Completion t :=
  if (negb (isSome (TradingConfig.backend config))
      && negb (isSome (TradingConfig.frontend config)))%bool
  then Throw (Error missingModeMessage)
  else
    let host := Js.orStr (TradingConfig.host config) defaultHost in
    let chainId := Js.orNum (TradingConfig.chainId config) polygonMainnet in
    match backendKeyOf config with
    | Some privateKey =>
        match ethersWallet privateKey with
        | Throw e => Throw e
        | Return address =>
            let apiCreds := apiCredsOf (TradingConfig.builder config) in
            match buildBuilderConfig
                    (backendBuilderConfig (TradingConfig.builder config)) with
            | Throw e => Throw e
            | Return builderConfig =>
                Return (make
                  (ClobClient.make host chainId (WalletSigner privateKey address)
                     apiCreds EOA None None false builderConfig gateway)
                  config (Some address))
            end
        end
    | None =>
        match frontendSignerOf config with
        | Some signer =>
            match startAddressLookup signer with
            | Throw e => Throw e
            | Return _ =>
                match buildBuilderConfig
                        (frontendBuilderConfig (TradingConfig.builder config)) with
                | Throw e => Throw e
                | Return builderConfig =>
                    Return (make
                      (ClobClient.make host chainId (ExternalSigner signer)
                         None EOA None None false builderConfig gateway)
                      config None)
                end
            end
        | None => Throw (Error "Invalid trading configuration")
        end
    end.
End Constructor.

(** The [then] callback of the signer's address lookup, which runs some
    time after the constructor has returned, when the promise resolves. *)
Definition addressResolved (this : t) : t :=
  match ClobClient.signer (client this) with
  | ExternalSigner s =>
      match Signer.getAddress s with
      | Some (LookupResolves addr) => make (client this) (config this) (Some addr)
      | _ => this
      end
  | WalletSigner _ _ => this
  end.

Definition getWalletAddress (this : t) : option string := walletAddress this.
Definition getRawClient (this : t) : ClobClient.t := client this.

(** *** placeOrder *)

Definition priceMessage : string :=
  "price must be between 0 and 1 (e.g., 0.65 for 65 cents)".

Definition sideOk (s : string) : bool :=
  (Js.truthyStr s && (String.eqb s "BUY" || String.eqb s "SELL"))%bool.

Definition priceRejected (p : Js.number) : bool :=
  (negb (Js.truthyNum p) || Js.le p Js.zero || Js.ge p Js.one)%bool.

Definition sizeRejected (s : Js.number) : bool :=
  (negb (Js.truthyNum s) || Js.le s Js.zero)%bool.

(** [...(x && { field: x })]: the field is there when [x] is truthy. *)
Definition spreadIfTruthy (x : option Js.number) : option Js.number :=
  if Js.truthyOptNum x then x else None.

Definition wireOrder (params : PlaceOrderParams.t) : UserOrder.t :=
  UserOrder.make
    (PlaceOrderParams.tokenId params)
    (if String.eqb (PlaceOrderParams.side params) "BUY" then BUY else SELL)
    (PlaceOrderParams.price params)
    (PlaceOrderParams.size params)
    (spreadIfTruthy (PlaceOrderParams.expiration params))
    (spreadIfTruthy (PlaceOrderParams.nonce params)).

Definition placeOrder (this : t) (params : PlaceOrderParams.t) : Async PlacedOrder.t :=
  tryCatch
    (throwIf (negb (Js.truthyStr (PlaceOrderParams.tokenId params)))
             "tokenId is required" ;;;
     throwIf (negb (sideOk (PlaceOrderParams.side params)))
             "side must be 'BUY' or 'SELL'" ;;;
     throwIf (priceRejected (PlaceOrderParams.price params)) priceMessage ;;;
     throwIf (sizeRejected (PlaceOrderParams.size params))
             "size must be greater than 0" ;;;
     let order := wireOrder params in
     response <- await (CallCreateAndPostOrder order)
                   (Gateway.createAndPostOrder (ClobClient.gateway (client this)) order) ;;
     ret (PlacedOrder.make
            (Js.orOptStr (OrderResponse.orderID response) (OrderResponse.id response))
            (Js.orStr (OrderResponse.status response) "success")))
    (fun error => throw (Error ("Failed to place order: " ++ message error))).

(** *** cancelOrder, cancelOrders *)

Definition cancelOrder (this : t) (orderId : string) : Async unit :=
  tryCatch
    (throwIf (negb (Js.truthyStr orderId)) "orderId is required" ;;;
     await (CallCancelOrder orderId)
       (Gateway.cancelOrder (ClobClient.gateway (client this)) orderId))
    (fun error => throw (Error ("Failed to cancel order: " ++ message error))).

(** [orderIds] is [None] when the argument is absent. *)
Definition cancelOrders (this : t) (orderIds : option (list string)) : Async unit :=
  tryCatch
    (match orderIds with
     | None | Some [] => throw (Error "orderIds array is required")
     | Some ids =>
         await (CallCancelOrders ids)
           (Gateway.cancelOrders (ClobClient.gateway (client this)) ids)
     end)
    (fun error => throw (Error ("Failed to cancel orders: " ++ message error))).

(** *** getOpenOrders, getOrder *)

(** The body shared by the two normalizations; [defaultStatus] is the
    text used when the record has no status, [t] the clock reading. *)
Definition normalize (defaultStatus : string) (t : Js.number) (order : OpenOrder.t) : Order.t :=
  let sizeMatched := Js.parseFloat (Js.orStr (OpenOrder.size_matched order) "0") in
  let originalSize := Js.parseFloat (Js.orStr (OpenOrder.original_size order) "0") in
  let remainingSize := Js.sub originalSize sizeMatched in
  Order.make
    (OpenOrder.id order)
    (OpenOrder.asset_id order)
    (OpenOrder.side order)
    (Js.parseFloat (Js.toStringOpt (OpenOrder.price order)))
    originalSize
    remainingSize
    (Js.orStr (OpenOrder.status order) defaultStatus)
    (Js.orNum (OpenOrder.created_at order) t)
    order.

Definition getOpenOrders (this : t) (address : option string) : Async (list Order.t) :=
  tryCatch
    (response <- await CallGetOpenOrders
                   (Gateway.getOpenOrders (ClobClient.gateway (client this))) ;;
     t <- dateNow ;;
     ret (map (normalize "open" t) response))
    (fun error => throw (Error ("Failed to get open orders: " ++ message error))).

Definition getOrder (this : t) (orderId : string) : Async (option Order.t) :=
  tryCatch
    (throwIf (negb (Js.truthyStr orderId)) "orderId is required" ;;;
     order <- await (CallGetOrder orderId)
                (Gateway.getOrder (ClobClient.gateway (client this)) orderId) ;;
     match order with
     | None => ret None
     | Some order =>
         t <- dateNow ;;
         ret (Some (normalize "unknown" t order))
     end)
    (fun error => throw (Error ("Failed to get order: " ++ message error))).

End TradingClient.


(* ================================================================== *)
(** ** The specification's reading of the builder attribution *)
(* ================================================================== *)

Module Spec.

(** Follows the specification's words (section 4.1): a configured remote
    signing-server URL gives remote signing, whatever the mode; else
    complete local credentials give local credentials; else none. *)
Definition builderAttribution (b : option BuilderConfig.t) : option BuilderSigning :=
  match b with
  | None => None
  | Some cfg =>
      match BuilderConfig.signingServerUrl cfg with
      | Some (String c u) => Some (RemoteBuilderConfig (String c u))
      | _ =>
          match BuilderConfig.key cfg, BuilderConfig.secret cfg, BuilderConfig.passphrase cfg with
          | Some (String a k), Some (String b s), Some (String c p) =>
              Some (LocalBuilderCreds (mkApiCreds (String a k) (String b s) (String c p)))
          | _, _, _ => None
          end
      end
  end.

(** The text of the two size fields, parsed as the normalization parses
    them. *)
Definition originalSize (raw : OpenOrder.t) : Js.number :=
  Js.parseFloat (Js.orStr (OpenOrder.original_size raw) "0").

Definition matchedSize (raw : OpenOrder.t) : Js.number :=
  Js.parseFloat (Js.orStr (OpenOrder.size_matched raw) "0").

(** "Valid numeric fields where matchedSize <= originalSize": both sizes
    are finite numbers, the matched size is not negative and not above the
    original size. *)
Definition validSizes (raw : OpenOrder.t) : bool :=
  (Js.isFinite (originalSize raw) && Js.isFinite (matchedSize raw)
   && Js.le Js.zero (matchedSize raw) && Js.le (matchedSize raw) (originalSize raw))%bool.

(** The difference of the two sizes as real numbers, in units of
    [2^-1074]. *)
Definition exactDifference (raw : OpenOrder.t) : Z :=
  Js.units (originalSize raw) - Js.units (matchedSize raw).

(** "[size] equals [originalSize - matchedSize] exactly": the value of
    the normalized size is the real difference. *)
Definition sizeExact (raw : OpenOrder.t) (o : Order.t) : Prop :=
  Js.units (Order.size o) = exactDifference raw.

(** The real difference of the two sizes is itself a binary64 number. *)
Definition differenceRepresentable (raw : OpenOrder.t) : Prop :=
  exists f, Js.wellFormed f = true /\ Js.isFinite f = true
            /\ Js.units f = exactDifference raw.

(** What holds of the normalized order [o] of a record [raw] with valid
    sizes: [0 <= size <= originalSize]; [size] is the real difference when
    that is a binary64 number, and in any case less than one unit in the
    last place of [size] away from it. *)
Definition sizeInvariant (raw : OpenOrder.t) (o : Order.t) : Prop :=
  Order.raw o = raw
  /\ Order.originalSize o = originalSize raw
  /\ Js.isFinite (Order.size o) = true
  /\ Js.le Js.zero (Order.size o) = true
  /\ Js.le (Order.size o) (Order.originalSize o) = true
  /\ (differenceRepresentable raw -> sizeExact raw o)
  /\ Z.abs (Js.units (Order.size o) - exactDifference raw) < Js.ulpUnits (Order.size o).

(** A numeric-as-text field that does not parse as a number. *)
Definition unparseable (field : option string) : bool :=
  match Js.parseFloat (Js.toStringOpt field) with
  | S754_nan => true
  | _ => false
  end.

End Spec.

(* ================================================================== *)
(** ** Stubs and sample inputs *)
(* ================================================================== *)

Module Sample.

(** The private key 1, as 32 bytes of hexadecimal text, and the address
    of its wallet. *)
Definition privateKey : string :=
  "0x0000000000000000000000000000000000000000000000000000000000000001".

Definition address : string := "0x7E5F4552091A69125d5DfCb7b8C2659029395Bdf".

(** [new ethers.Wallet] on the keys used here: the key above gives its
    wallet; any other text, such as ["0x01"], which is not 32 bytes long,
    is rejected. *)
Definition wallet (key : string) : Completion string :=
  if String.eqb key privateKey then Return address
  else Throw (Error "invalid private key").

(** Text that is not empty once white space is trimmed. *)
Definition notBlank (text : string) : bool := Js.truthyStr (Js.trimStart text).

(** [new BuilderConfig] as the builder signing SDK checks its argument:
    a remote URL must start with [http://] or [https://]; local
    credentials must have a key, a secret and a passphrase that are not
    blank. *)
Definition builderSdk (b : BuilderSigning) : Completion unit :=
  match b with
  | RemoteBuilderConfig url =>
      if (String.prefix "http://" url || String.prefix "https://" url)%bool
      then Return tt else Throw (Error "invalid remote url!")
  | LocalBuilderCreds c =>
      if (notBlank (creds_key c) && notBlank (creds_secret c)
          && notBlank (creds_passphrase c))%bool
      then Return tt else Throw (Error "invalid local builder credentials!")
  end.

Definition rawOrder : OpenOrder.t :=
  OpenOrder.make "O1" "T1" "BUY" (Some "0.65") (Some "2.5") (Some "10")
    (Some "live") (Some (Js.ofZ 1700000000)).

(** A record whose numeric fields are unparseable or missing, and which
    has no status. *)
Definition malformedOrder : OpenOrder.t :=
  OpenOrder.make "O2" "T1" "SELL" None None (Some "abc") None None.

(** A gateway that echoes [{orderID: "O1", status: "matched"}], lists
    two records and knows the orders ["O1"] and ["O2"]. *)
Definition gateway : Gateway.t :=
  Gateway.make
    (fun _ => Return (OrderResponse.make (Some "O1") None (Some "matched")))
    (fun _ => Return tt)
    (fun _ => Return tt)
    (Return [rawOrder; malformedOrder])
    (fun orderId =>
       if String.eqb orderId "O1" then Return (Some rawOrder)
       else if String.eqb orderId "O2" then Return (Some malformedOrder)
       else Return None).

(** A gateway that answers submissions with [{id: "O7"}] only and whose
    queries fail. *)
Definition bareGateway : Gateway.t :=
  Gateway.make
    (fun _ => Return (OrderResponse.make None (Some "O7") None))
    (fun _ => Throw (Error "network down"))
    (fun _ => Throw (Error "network down"))
    (Throw (Error "network down"))
    (fun _ => Throw (Error "network down")).

(** A signer whose address lookup resolves. *)
Definition signerAddress : string := "0x2B5AD5c4795c026514f8317c7a215E218DcCD6cF".

Definition signer : Signer.t := Signer.make (Some (LookupResolves signerAddress)).

Definition fullBuilder : BuilderConfig.t :=
  BuilderConfig.make (Some "k") (Some "s") (Some "p") (Some "https://sign.example").

Definition localBuilder : BuilderConfig.t :=
  BuilderConfig.make (Some "k") (Some "s") (Some "p") None.

Definition backendConfig (b : option BuilderConfig.t) : TradingConfig.t :=
  TradingConfig.make None None b (Some (TradingConfig.mkBackend privateKey)) None.

Definition frontendConfig (b : option BuilderConfig.t) : TradingConfig.t :=
  TradingConfig.make None None b None (Some (TradingConfig.mkFrontend (Some signer))).

Definition bothConfig : TradingConfig.t :=
  TradingConfig.make None None None
    (Some (TradingConfig.mkBackend privateKey))
    (Some (TradingConfig.mkFrontend (Some signer))).

Definition neitherConfig : TradingConfig.t :=
  TradingConfig.make None None None None None.

Definition client : TradingClient.t :=
  TradingClient.make
    (ClobClient.make TradingClient.defaultHost TradingClient.polygonMainnet
       (WalletSigner privateKey address) None EOA None None false None gateway)
    (backendConfig None) (Some address).

Definition bareClient : TradingClient.t :=
  TradingClient.make
    (ClobClient.make TradingClient.defaultHost TradingClient.polygonMainnet
       (WalletSigner privateKey address) None EOA None None false None bareGateway)
    (backendConfig None) (Some address).

(** [{tokenId: "T1", side: "BUY", price: 0.65, size: 10}]. *)
Definition params : PlaceOrderParams.t :=
  PlaceOrderParams.make "T1" "BUY" (Js.parseFloat "0.65") (Js.parseFloat "10") None None.

Definition world : World := mkWorld [] (Js.ofZ 1700000001).

End Sample.

(** A completion that is a thrown error. *)
Definition rejected {A} (c : Completion A) : Prop := exists e, c = Throw e.

(** The world after one more gateway call. *)
Definition called (c : GatewayCall) (w : World) : World :=
  mkWorld (c :: calls w) (now w).

(* ================================================================== *)
(** ** The factory, more vocabulary and more inputs *)
(* ================================================================== *)

(** [createTradingClient(config)] is [new TradingClient(config)]. *)
Definition createTradingClient (ethersWallet : string -> Completion string)
    (newBuilderConfig : BuilderSigning -> Completion unit)
    (gateway : Gateway.t) (config : TradingConfig.t) : Completion TradingClient.t :=
  TradingClient.constructor ethersWallet newBuilderConfig gateway config.

(** [new BuilderConfig] does not throw on the builder configuration a
    branch has chosen, when it has chosen one. *)
Definition builderConfigBuilt (newBuilderConfig : BuilderSigning -> Completion unit)
    (chosen : option BuilderSigning) : Prop :=
  forall b, chosen = Some b -> newBuilderConfig b = Return tt.

(** [a < b] on numbers. *)
Definition numLt (a b : Js.number) : bool := SFltb a b.

(** What one method call may do to the world: the clock is not touched
    and at most one gateway call is added in front of the earlier ones. *)
Definition atMostOneCall (w w' : World) : Prop :=
  now w' = now w /\ (calls w' = calls w \/ exists c, calls w' = c :: calls w).

(** [o] is the order [getOpenOrders] returns at the place where the
    gateway's list holds the record [raw]. *)
Definition listedFor (this : TradingClient.t) (w : World) (raw : OpenOrder.t)
    (o : Order.t) : Prop :=
  exists address response orders n,
    Gateway.getOpenOrders (ClobClient.gateway (TradingClient.client this)) = Return response
    /\ snd (TradingClient.getOpenOrders this address w) = Return orders
    /\ nth_error response n = Some raw
    /\ nth_error orders n = Some o.

(** [o] is the order [getOrder] returns when the gateway answers the
    lookup with the record [raw]. *)
Definition lookedUpFor (this : TradingClient.t) (w : World) (raw : OpenOrder.t)
    (o : Order.t) : Prop :=
  exists orderId,
    Gateway.getOrder (ClobClient.gateway (TradingClient.client this)) orderId
      = Return (Some raw)
    /\ snd (TradingClient.getOrder this orderId w) = Return (Some o).

(** [o] is returned for [raw] by either of the two read methods. *)
Definition returnedFor (this : TradingClient.t) (w : World) (raw : OpenOrder.t)
    (o : Order.t) : Prop :=
  listedFor this w raw o \/ lookedUpFor this w raw o.

Module Fixture.

(** Both blocks, with a backend key of one byte, which ethers rejects. *)
Definition shortKeyConfig : TradingConfig.t :=
  TradingConfig.make None None None
    (Some (TradingConfig.mkBackend "0x01"))
    (Some (TradingConfig.mkFrontend (Some Sample.signer))).

(** A signing-server URL without a scheme. *)
Definition noSchemeBuilder : BuilderConfig.t :=
  BuilderConfig.make None None None (Some "sign.example").

(** Local credentials whose secret is a single space: truthy, but blank. *)
Definition blankSecretBuilder : BuilderConfig.t :=
  BuilderConfig.make (Some "k") (Some " ") (Some "p") None.

(** A signer whose [getAddress] throws when it is called, and one whose
    lookup promise rejects. *)
Definition throwingSigner : Signer.t :=
  Signer.make (Some (LookupThrows (Error "wallet locked"))).

Definition rejectingSigner : Signer.t :=
  Signer.make (Some (LookupRejects (Error "wallet locked"))).

Definition signerConfig (s : Signer.t) : TradingConfig.t :=
  TradingConfig.make None None None None (Some (TradingConfig.mkFrontend (Some s))).

(** A record whose sizes are 2^53 and one half. *)
Definition roundedOrder : OpenOrder.t :=
  OpenOrder.make "O5" "T2" "BUY" (Some "0.4") (Some "0.5") (Some "9007199254740992")
    (Some "live") (Some (Js.ofZ 1700000000)).

(** A backend block with an empty key and nothing else. *)
Definition emptyKeyConfig : TradingConfig.t :=
  TradingConfig.make None None None (Some (TradingConfig.mkBackend "")) None.

(** An empty host and a chain id of 0, in backend mode with complete
    local credentials and a signing-server URL. *)
Definition falsyDefaultsConfig : TradingConfig.t :=
  TradingConfig.make (Some "") (Some Js.zero) (Some Sample.fullBuilder)
    (Some (TradingConfig.mkBackend Sample.privateKey)) None.

(** [{tokenId: "T1", side: "SELL", price: 0.65, size: 10, expiration: 0,
    nonce: 7}]. *)
Definition sellParams : PlaceOrderParams.t :=
  PlaceOrderParams.make "T1" "SELL" (Js.parseFloat "0.65") (Js.parseFloat "10")
    (Some Js.zero) (Some (Js.ofZ 7)).

(** A record with no status text, no creation time and nothing matched. *)
Definition freshOrder : OpenOrder.t :=
  OpenOrder.make "O3" "T2" "BUY" (Some "0.4") (Some "") (Some "12.5") (Some "") (Some Js.zero).

(** A record that is fully matched. *)
Definition filledOrder : OpenOrder.t :=
  OpenOrder.make "O4" "T2" "SELL" (Some "0.4") (Some "12.5") (Some "12.5")
    (Some "matched") (Some (Js.ofZ 1700000000)).

(** A gateway with one record under each of two ids, listing both. *)
Definition gateway : Gateway.t :=
  Gateway.make
    (fun _ => Throw (Error "insufficient balance"))
    (fun _ => Throw (Error "order not found"))
    (fun _ => Return tt)
    (Return [freshOrder; filledOrder; Sample.rawOrder])
    (fun orderId =>
       if String.eqb orderId "O3" then Return (Some freshOrder)
       else if String.eqb orderId "O4" then Return (Some filledOrder)
       else if String.eqb orderId "O5" then Return (Some roundedOrder)
       else Return None).

Definition client : TradingClient.t :=
  TradingClient.make
    (ClobClient.make TradingClient.defaultHost TradingClient.polygonMainnet
       (ExternalSigner Sample.signer) None EOA None None false None gateway)
    (Sample.frontendConfig None) None.

End Fixture.

(* ================================================================== *)
(** ** Binary64 arithmetic: rounding, order and subtraction *)
(* ================================================================== *)

Lemma fexp_binary64 (e : Z) : fexp Js.prec Js.emax e = Z.max (e - 53) (-1074).
Proof. reflexivity. Qed.

Lemma fexp_monotone (a b : Z) :
  a <= b -> fexp Js.prec Js.emax a <= fexp Js.prec Js.emax b.
Proof. rewrite !fexp_binary64. lia. Qed.

Lemma digits2_pos_size (p : positive) : digits2_pos p = Pos.size p.
Proof. induction p; cbn; now rewrite ?IHp. Qed.

(** [2^(d-1) <= p < 2^d] for the number [d] of binary digits of [p]. *)
Lemma digits2_pos_bounds (p : positive) :
  2 ^ (Z.pos (digits2_pos p) - 1) <= Z.pos p < 2 ^ Z.pos (digits2_pos p).
Proof.
  rewrite digits2_pos_size. split.
  - pose proof (Pos.size_le p) as H.
    assert (H' : 2 ^ Z.pos (Pos.size p) <= 2 * Z.pos p).
    { change (2 * Z.pos p) with (Z.pos p~0). rewrite <- Pos2Z.inj_pow. exact H. }
    replace (Z.pos (Pos.size p)) with (Z.succ (Z.pos (Pos.size p) - 1)) in H' by lia.
    rewrite Z.pow_succ_r in H' by lia. lia.
  - pose proof (Pos.size_gt p) as H.
    rewrite <- Pos2Z.inj_pow. exact H.
Qed.

Lemma iter_pos_iter {A} (f : A -> A) (p : positive) (x : A) :
  iter_pos f p x = Pos.iter f x p.
Proof.
  revert x. induction p as [p IH|p IH|]; intros x; cbn.
  - now rewrite !IH, <- !Pos.iter_swap.
  - now rewrite !IH.
  - reflexivity.
Qed.

Lemma shr_1_nonneg (m : Z) (r s : bool) :
  0 <= m ->
  shr_1 (Build_shr_record m r s) = Build_shr_record (m / 2) (Z.odd m) (r || s).
Proof.
  intros Hm. rewrite <- Z.div2_div.
  destruct m as [|[p|p|]|]; try reflexivity. lia.
Qed.

(** [k] halvings of a mantissa: the quotient by [2^k], with no round or
    sticky bit when the start and the division are exact. *)
Lemma shr_iter_spec (M : Z) (r s : bool) (k : positive) :
  0 <= M ->
  let mrs := iter_pos shr_1 k (Build_shr_record M r s) in
  shr_m mrs = M / 2 ^ Z.pos k
  /\ (r = false -> s = false -> M mod 2 ^ Z.pos k = 0 ->
      shr_r mrs = false /\ shr_s mrs = false).
Proof.
  intros HM. cbv zeta. rewrite iter_pos_iter.
  induction k as [|k IH] using Pos.peano_ind.
  - cbn [Pos.iter]. rewrite shr_1_nonneg by exact HM. cbn [shr_m shr_r shr_s].
    split; [reflexivity|]. intros -> -> H. split; [|reflexivity].
    change (2 ^ 1) with 2 in H. rewrite Zodd_mod, H. reflexivity.
  - rewrite Pos.iter_succ.
    destruct (Pos.iter shr_1 _ k) as [m r' s']. cbn [shr_m shr_r shr_s] in IH.
    destruct IH as [Hm Hrs].
    assert (Hpow : 0 < 2 ^ Z.pos k) by (apply Z.pow_pos_nonneg; lia).
    assert (Hm0 : 0 <= m) by (subst m; apply Z.div_pos; lia).
    rewrite shr_1_nonneg by exact Hm0. cbn [shr_m shr_r shr_s].
    rewrite Pos2Z.inj_succ, Z.pow_succ_r by lia.
    split.
    + subst m. rewrite Z.div_div by lia. f_equal. lia.
    + intros Hr Hs H.
      assert (Hdiv : M = 2 * 2 ^ Z.pos k * (M / (2 * 2 ^ Z.pos k))).
      { apply Z.div_exact; [lia | exact H]. }
      set (c := M / (2 * 2 ^ Z.pos k)) in *.
      assert (Hk : M mod 2 ^ Z.pos k = 0).
      { rewrite Hdiv. replace (2 * 2 ^ Z.pos k * c) with ((2 * c) * 2 ^ Z.pos k) by lia.
        apply Z.mod_mul. lia. }
      destruct (Hrs Hr Hs Hk) as [-> ->]. split; [|reflexivity].
      subst m. rewrite Hdiv.
      replace (2 * 2 ^ Z.pos k * c) with ((2 * c) * 2 ^ Z.pos k) by lia.
      rewrite Z.div_mul by lia. rewrite Z.odd_mul. reflexivity.
Qed.

Lemma shr_record_of_loc_m (m : Z) (l : location) : shr_m (shr_record_of_loc m l) = m.
Proof. now destruct l as [|[| |]]. Qed.

(** One step of rounding, from a mantissa [m >= 0]: the exponent rises to
    [fexp] of the magnitude when that is above [e], and the mantissa is
    divided accordingly. *)
Lemma shr_fexp_spec (m e : Z) (l : location) :
  0 <= m ->
  let n := Z.max 0 (fexp Js.prec Js.emax (Zdigits2 m + e) - e) in
  let mrs := fst (shr_fexp Js.prec Js.emax m e l) in
  snd (shr_fexp Js.prec Js.emax m e l) = e + n
  /\ shr_m mrs = m / 2 ^ n
  /\ (l = loc_Exact -> m mod 2 ^ n = 0 -> loc_of_shr_record mrs = loc_Exact).
Proof.
  intros Hm. cbv zeta. unfold shr_fexp, shr.
  destruct (fexp Js.prec Js.emax (Zdigits2 m + e) - e) as [|k|k] eqn:E.
  - cbn [fst snd]. change (Z.max 0 0) with 0.
    rewrite Z.pow_0_r, Z.div_1_r, shr_record_of_loc_m.
    repeat split; [lia|]. now intros ->.
  - cbn [fst snd]. replace (Z.max 0 (Z.pos k)) with (Z.pos k) by lia.
    assert (Hrec : shr_record_of_loc m l
                   = Build_shr_record m (shr_r (shr_record_of_loc m l))
                       (shr_s (shr_record_of_loc m l))).
    { now destruct l as [|[| |]]. }
    rewrite Hrec.
    destruct (shr_iter_spec m (shr_r (shr_record_of_loc m l))
                (shr_s (shr_record_of_loc m l)) k Hm) as [H1 H2].
    repeat split; [exact H1|].
    intros -> H. destruct (H2 eq_refl eq_refl H) as [Hr Hs].
    cbn [shr_record_of_loc shr_r shr_s] in *.
    destruct (iter_pos shr_1 k _) as [m' r s]. cbn in Hr, Hs. now subst.
  - cbn [fst snd]. replace (Z.max 0 (Z.neg k)) with 0 by lia.
    rewrite Z.pow_0_r, Z.div_1_r, shr_record_of_loc_m.
    repeat split; [lia|]. now intros ->.
Qed.

Lemma round_nearest_even_bounds (q : Z) (l : location) :
  q <= round_nearest_even q l <= q + 1
  /\ (l = loc_Exact -> round_nearest_even q l = q).
Proof.
  destruct l as [|[| |]]; cbn; try destruct (Z.even q); repeat split; try lia; discriminate.
Qed.

(** Magnitudes: a smaller value has no larger magnitude. Values are
    counted in units of [2^-1074]. *)
Lemma magnitude_le (a : positive) (ea : Z) (b : positive) (eb : Z) :
  -1074 <= ea -> -1074 <= eb ->
  Z.pos a * 2 ^ (ea + 1074) <= Z.pos b * 2 ^ (eb + 1074) ->
  Z.pos (digits2_pos a) + ea <= Z.pos (digits2_pos b) + eb.
Proof.
  intros Ha Hb H.
  destruct (digits2_pos_bounds a) as [La _].
  destruct (digits2_pos_bounds b) as [_ Ub].
  assert (H1 : 2 ^ (Z.pos (digits2_pos a) - 1 + (ea + 1074))
               <= Z.pos a * 2 ^ (ea + 1074)).
  { rewrite (Z.pow_add_r 2 (Z.pos (digits2_pos a) - 1)) by lia.
    apply Z.mul_le_mono_nonneg_r; [|exact La].
    apply Z.pow_nonneg; lia. }
  assert (H2 : Z.pos b * 2 ^ (eb + 1074)
               < 2 ^ (Z.pos (digits2_pos b) + (eb + 1074))).
  { rewrite (Z.pow_add_r 2 (Z.pos (digits2_pos b))) by lia.
    apply Z.mul_lt_mono_pos_r; [|exact Ub].
    apply Z.pow_pos_nonneg; lia. }
  assert (H3 : 2 ^ (Z.pos (digits2_pos a) - 1 + (ea + 1074))
               < 2 ^ (Z.pos (digits2_pos b) + (eb + 1074))) by lia.
  apply Z.pow_lt_mono_r_iff in H3; lia.
Qed.

Lemma bounded_inv (m : positive) (e : Z) :
  bounded Js.prec Js.emax m e = true ->
  fexp Js.prec Js.emax (Z.pos (digits2_pos m) + e) = e /\ -1074 <= e <= 971.
Proof.
  unfold bounded, canonical_mantissa. intros H.
  apply andb_prop in H. destruct H as [H1 H2].
  apply Z.eqb_eq in H1. apply Z.leb_le in H2.
  split; [exact H1|]. rewrite fexp_binary64 in H1.
  unfold Js.emax, Js.prec in H2. lia.
Qed.

(** A right shift never raises the value, and the exponent it reaches is
    not above that of a canonical number that dominates the value. *)
Lemma shr_fexp_below (q e : Z) (mo : positive) (eo : Z) :
  0 <= q -> -1074 <= e <= eo ->
  bounded Js.prec Js.emax mo eo = true ->
  q * 2 ^ (e + 1074) <= Z.pos mo * 2 ^ (eo + 1074) ->
  let n := Z.max 0 (fexp Js.prec Js.emax (Zdigits2 q + e) - e) in
  e + n <= eo
  /\ (q / 2 ^ n) * 2 ^ (e + n + 1074) <= q * 2 ^ (e + 1074).
Proof.
  intros Hq He Hb Hle. cbv zeta.
  destruct (bounded_inv mo eo Hb) as [Hcan Heo].
  split.
  - destruct q as [|a|a]; [| |lia].
    + cbn [Zdigits2]. rewrite fexp_binary64. lia.
    + cbn [Zdigits2].
      pose proof (magnitude_le a e mo eo ltac:(lia) ltac:(lia) Hle) as Hmag.
      apply fexp_monotone in Hmag. rewrite Hcan in Hmag. lia.
  - set (n := Z.max 0 _). assert (Hn : 0 <= n) by (unfold n; lia).
    replace (e + n + 1074) with (n + (e + 1074)) by lia.
    rewrite Z.pow_add_r by lia.
    assert (Hp : 0 < 2 ^ n) by (apply Z.pow_pos_nonneg; lia).
    assert (Hp' : 0 <= 2 ^ (e + 1074)) by (apply Z.pow_nonneg; lia).
    pose proof (Z.mul_div_le q (2 ^ n) Hp) as Hd.
    rewrite Z.mul_assoc. apply Z.mul_le_mono_nonneg_r; [exact Hp'|lia].
Qed.

(** Rounding a mantissa up by at most one unit stays below a multiple of
    the unit that dominates the unrounded value. *)
Lemma rounded_quotient_le (m P K q' : Z) (l : location) :
  0 < P -> 0 <= m <= K * P ->
  (m mod P = 0 -> l = loc_Exact) ->
  q' = round_nearest_even (m / P) l ->
  0 <= q' <= K.
Proof.
  intros HP Hm Hex ->.
  destruct (round_nearest_even_bounds (m / P) l) as [[Lq Uq] Xq].
  assert (H0 : 0 <= m / P) by (apply Z.div_pos; lia).
  split; [lia|].
  destruct (Z.eq_dec (m mod P) 0) as [E|E].
  - rewrite (Xq (Hex E)). apply Z.div_le_upper_bound; lia.
  - assert (m / P < K); [|lia].
    apply Z.div_lt_upper_bound; [exact HP|].
    assert (m <> K * P); [|lia].
    intros ->. now rewrite Z.mod_mul in E by lia.
Qed.

(** The heart of the bound on a difference: rounding an exact value that
    lies between 0 and a canonical binary64 [o] gives a number between 0
    and [o]. *)
Lemma binary_round_aux_below (m : positive) (e : Z) (mo : positive) (eo : Z) :
  -1074 <= e <= eo ->
  bounded Js.prec Js.emax mo eo = true ->
  Z.pos m * 2 ^ (e + 1074) <= Z.pos mo * 2 ^ (eo + 1074) ->
  let r := binary_round_aux Js.prec Js.emax false (Z.pos m) e loc_Exact in
  SFleb (S754_zero false) r = true /\ SFleb r (S754_finite false mo eo) = true.
Proof.
  intros He Hb Hle. cbv zeta. unfold binary_round_aux.
  destruct (bounded_inv mo eo Hb) as [_ Heo].
  destruct (shr_fexp_spec (Z.pos m) e loc_Exact ltac:(lia)) as (E1 & Q1 & X1).
  specialize (X1 eq_refl).
  destruct (shr_fexp_below (Z.pos m) e mo eo ltac:(lia) He Hb Hle) as [He1 _].
  destruct (shr_fexp Js.prec Js.emax (Z.pos m) e loc_Exact) as [mrs1 e1].
  cbn [fst snd] in E1, Q1, X1.
  set (n1 := Z.max 0 (fexp Js.prec Js.emax (Zdigits2 (Z.pos m) + e) - e)) in *.
  assert (Hn1 : 0 <= n1) by (unfold n1; lia).
  set (q' := round_nearest_even (shr_m mrs1) (loc_of_shr_record mrs1)).
  assert (Hq' : 0 <= q' <= Z.pos mo * 2 ^ (eo - e1)).
  { apply (rounded_quotient_le (Z.pos m) (2 ^ n1) _ q' (loc_of_shr_record mrs1)).
    - apply Z.pow_pos_nonneg; lia.
    - split; [lia|].
      rewrite <- Z.mul_assoc, <- Z.pow_add_r by lia.
      replace (eo + 1074) with ((eo - e1 + n1) + (e + 1074)) in Hle by lia.
      rewrite (Z.pow_add_r 2 (eo - e1 + n1)) in Hle by lia.
      rewrite Z.mul_assoc in Hle.
      apply Z.mul_le_mono_pos_r in Hle; [exact Hle|].
      apply Z.pow_pos_nonneg; lia.
    - exact X1.
    - unfold q'. now rewrite Q1. }
  assert (Hv : q' * 2 ^ (e1 + 1074) <= Z.pos mo * 2 ^ (eo + 1074)).
  { replace (eo + 1074) with ((eo - e1) + (e1 + 1074)) by lia.
    rewrite (Z.pow_add_r 2 (eo - e1)) by lia. rewrite Z.mul_assoc.
    apply Z.mul_le_mono_nonneg_r; [apply Z.pow_nonneg|]; lia. }
  destruct (shr_fexp_spec q' e1 loc_Exact ltac:(lia)) as (E2 & Q2 & _).
  destruct (shr_fexp_below q' e1 mo eo ltac:(lia) ltac:(lia) Hb Hv) as [He2 Hv2].
  destruct (shr_fexp Js.prec Js.emax q' e1 loc_Exact) as [mrs2 e2].
  cbn [fst snd] in E2, Q2.
  set (n2 := Z.max 0 (fexp Js.prec Js.emax (Zdigits2 q' + e1) - e1)) in *.
  rewrite <- E2 in He2, Hv2. rewrite <- Q2 in Hv2.
  assert (Hm2 : 0 <= shr_m mrs2).
  { rewrite Q2. apply Z.div_pos; [lia|]. apply Z.pow_pos_nonneg; unfold n2; lia. }
  destruct (shr_m mrs2) as [|m2|m2]; [split; reflexivity| |lia].
  replace (e2 <=? Js.emax - Js.prec) with true
    by (symmetry; apply Z.leb_le; unfold Js.emax, Js.prec; lia).
  split; [reflexivity|].
  unfold SFleb, SFcompare.
  destruct (Z.compare_spec e2 eo) as [Heq|Hlt|Hgt]; [|reflexivity|lia].
  rewrite Heq in Hv2.
  assert (Hpos : (m2 <= mo)%positive).
  { assert (Z.pos m2 <= Z.pos mo); [|lia].
    assert (Hx : Z.pos m2 * 2 ^ (eo + 1074) <= Z.pos mo * 2 ^ (eo + 1074)) by lia.
    apply Z.mul_le_mono_pos_r in Hx; [exact Hx|]. apply Z.pow_pos_nonneg; lia. }
  unfold Pos.le, Pos.compare in Hpos.
  destruct (Pos.compare_cont Eq m2 mo); [reflexivity|reflexivity|congruence].
Qed.

Lemma iter_xO_pow2 (p d : positive) : Z.pos (Pos.iter xO p d) = Z.pos p * 2 ^ Z.pos d.
Proof.
  induction d as [|d IH] using Pos.peano_ind.
  - cbn [Pos.iter]. change (2 ^ 1) with 2. lia.
  - rewrite Pos.iter_succ, Pos2Z.inj_xO, IH, Pos2Z.inj_succ, Z.pow_succ_r by lia. lia.
Qed.

(** Aligning a mantissa to a lower exponent multiplies it by the power of
    two between the exponents; aligning to a higher one does nothing. *)
Lemma shl_align_spec (mx : positive) (ex ex' : Z) :
  snd (shl_align mx ex ex') = Z.min ex ex'
  /\ Z.pos (fst (shl_align mx ex ex')) = Z.pos mx * 2 ^ (ex - Z.min ex ex').
Proof.
  unfold shl_align. destruct (ex' - ex) as [|d|d] eqn:E; cbn [fst snd].
  - replace (Z.min ex ex') with ex by lia. rewrite Z.sub_diag. lia.
  - replace (Z.min ex ex') with ex by lia. rewrite Z.sub_diag. lia.
  - replace (Z.min ex ex') with ex' by lia. split; [reflexivity|].
    rewrite iter_xO_pow2. f_equal. f_equal. lia.
Qed.

Lemma SFleb_refl_finite (s : bool) (m : positive) (e : Z) :
  SFleb (S754_finite s m e) (S754_finite s m e) = true.
Proof.
  unfold SFleb, SFcompare. rewrite Z.compare_refl.
  change (Pos.compare_cont Eq m m) with (Pos.compare m m). rewrite Pos.compare_refl.
  now destruct s.
Qed.

(** [0 <= o - m <= o] in binary64 arithmetic, for finite [0 <= m <= o]. *)
Lemma sub_between (o m : Js.number) :
  Js.wellFormed o = true -> Js.wellFormed m = true ->
  Js.isFinite o = true -> Js.isFinite m = true ->
  Js.le Js.zero m = true -> Js.le m o = true ->
  Js.le Js.zero (Js.sub o m) = true /\ Js.le (Js.sub o m) o = true.
Proof.
  unfold Js.wellFormed, Js.le, Js.sub, Js.zero.
  intros Vo Vm Fo Fm H0 Hle.
  destruct o as [so| | |so mo eo], m as [sm| | |sm mm em]; try discriminate.
  - destruct so, sm; split; reflexivity.
  - destruct sm; discriminate.
  - destruct so; [discriminate|]. cbn [SFsub]. split; [reflexivity|].
    apply SFleb_refl_finite.
  - destruct sm; [discriminate|]. destruct so; [discriminate|].
    cbn [valid_binary] in Vo, Vm.
    destruct (bounded_inv mo eo Vo) as [Co Bo].
    destruct (bounded_inv mm em Vm) as [Cm Bm].
    rewrite fexp_binary64 in Co, Cm.
    pose proof (digits2_pos_bounds mo) as Do.
    pose proof (digits2_pos_bounds mm) as Dm.
    (* the order of the two numbers, read on exponents and mantissas *)
    assert (Hord : em < eo \/ (em = eo /\ Z.pos mm <= Z.pos mo)).
    { unfold SFleb, SFcompare in Hle.
      destruct (Z.compare_spec em eo) as [E|E|E]; [right|left; exact E|discriminate].
      split; [exact E|].
      change (Pos.compare_cont Eq mm mo) with (Pos.compare mm mo) in Hle.
      destruct (Pos.compare_spec mm mo); [subst; lia|lia|discriminate]. }
    cbn [SFsub cond_Zopp].
    replace (Z.min eo em) with em by lia.
    destruct (shl_align_spec mo eo em) as [_ Ao].
    destruct (shl_align_spec mm em em) as [_ Am].
    replace (Z.min eo em) with em in Ao by lia.
    rewrite Z.min_id, Z.sub_diag, Z.pow_0_r, Z.mul_1_r in Am.
    rewrite Ao, Am.
    assert (Hpow : 0 < 2 ^ (eo - em)) by (apply Z.pow_pos_nonneg; lia).
    assert (Hd : 0 <= Z.pos mo * 2 ^ (eo - em) - Z.pos mm).
    { destruct Hord as [E|[E Hm]].
      - assert (Hdo : Z.pos (digits2_pos mo) = 53) by lia.
        assert (Hdm : Z.pos (digits2_pos mm) <= 53) by lia.
        rewrite Hdo in Do. change (2 ^ (53 - 1)) with 4503599627370496 in Do.
        assert (Z.pos mm < 2 ^ 53).
        { eapply Z.lt_le_trans; [apply Dm|]. apply Z.pow_le_mono_r; lia. }
        assert (2 <= 2 ^ (eo - em)).
        { change 2 with (2 ^ 1) at 1. apply Z.pow_le_mono_r; lia. }
        change (2 ^ 53) with 9007199254740992 in *. nia.
      - subst em. rewrite Z.sub_diag, Z.pow_0_r. lia. }
    destruct (Z.pos mo * 2 ^ (eo - em) - Z.pos mm) as [|d|d] eqn:Ed; [| |lia].
    + cbn [binary_normalize]. split; reflexivity.
    + cbn [binary_normalize]. unfold binary_round.
      destruct (shl_align_spec d em (fexp Js.prec Js.emax (Z.pos (digits2_pos d) + em)))
        as [Ez Az].
      destruct (shl_align d em _) as [mz ez]. cbn [fst snd] in Ez, Az.
      assert (Hfe : -1074 <= fexp Js.prec Js.emax (Z.pos (digits2_pos d) + em))
        by (rewrite fexp_binary64; lia).
      apply binary_round_aux_below; [lia | exact Vo |].
      rewrite Az, <- Ez, <- Z.mul_assoc, <- Z.pow_add_r by lia.
      replace (em - ez + (ez + 1074)) with (em + 1074) by lia.
      replace (eo + 1074) with ((eo - em) + (em + 1074)) by lia.
      rewrite (Z.pow_add_r 2 (eo - em)) by lia. rewrite Z.mul_assoc.
      apply Z.mul_le_mono_nonneg_r; [apply Z.pow_nonneg; lia|lia].
Qed.

(** *** Every rounding result is a canonical binary64 *)

Lemma Zdigits2_bounds (x : Z) :
  0 < x -> 2 ^ (Zdigits2 x - 1) <= x < 2 ^ Zdigits2 x.
Proof.
  destruct x as [|p|p]; try lia. intros _. apply digits2_pos_bounds.
Qed.

Lemma Zdigits2_nonneg (x : Z) : 0 <= Zdigits2 x.
Proof. destruct x; cbn; lia. Qed.

Lemma Zdigits2_unique (x d : Z) :
  0 < x -> 2 ^ (d - 1) <= x < 2 ^ d -> Zdigits2 x = d.
Proof.
  intros Hx [L U].
  destruct (Zdigits2_bounds x Hx) as [L' U'].
  pose proof (Zdigits2_nonneg x) as HD.
  assert (Hd : 0 <= d).
  { destruct (Z.lt_ge_cases d 0) as [N|N]; [|exact N].
    rewrite (Z.pow_neg_r 2 d N) in U. lia. }
  assert (H1 : 2 ^ (d - 1) < 2 ^ Zdigits2 x) by lia.
  assert (H2 : 2 ^ (Zdigits2 x - 1) < 2 ^ d) by lia.
  apply Z.pow_lt_mono_r_iff in H1; [|lia|lia].
  apply Z.pow_lt_mono_r_iff in H2; [|lia|lia].
  lia.
Qed.

Lemma Zdigits2_ge (x t : Z) : 0 <= t -> 2 ^ t <= x -> t + 1 <= Zdigits2 x.
Proof.
  intros Ht H.
  assert (Hx : 0 < x).
  { eapply Z.lt_le_trans; [|exact H]. apply Z.pow_pos_nonneg; lia. }
  destruct (Zdigits2_bounds x Hx) as [_ U].
  assert (H1 : 2 ^ t < 2 ^ Zdigits2 x) by lia.
  apply Z.pow_lt_mono_r_iff in H1; [lia|lia|apply Zdigits2_nonneg].
Qed.

Lemma Zdigits2_monotone (a b : Z) : 0 <= a <= b -> Zdigits2 a <= Zdigits2 b.
Proof.
  intros [Ha Hab].
  destruct (Z.eq_dec a 0) as [->|Hne]; [apply Zdigits2_nonneg|].
  destruct (Zdigits2_bounds a ltac:(lia)) as [L _].
  pose proof (Zdigits2_nonneg a).
  destruct (Z.eq_dec (Zdigits2 a) 0) as [E|E]; [rewrite E; apply Zdigits2_nonneg|].
  pose proof (Zdigits2_ge b (Zdigits2 a - 1) ltac:(lia) ltac:(lia)). lia.
Qed.

Lemma Zdigits2_div_pow2 (x n : Z) :
  0 <= n -> 2 ^ n <= x -> Zdigits2 (x / 2 ^ n) = Zdigits2 x - n.
Proof.
  intros Hn H.
  assert (Hp : 0 < 2 ^ n) by (apply Z.pow_pos_nonneg; lia).
  destruct (Zdigits2_bounds x ltac:(lia)) as [L U].
  pose proof (Zdigits2_ge x n Hn H) as HD.
  apply Zdigits2_unique.
  - apply Z.div_str_pos. lia.
  - split.
    + apply Z.div_le_lower_bound; [exact Hp|].
      rewrite <- Z.pow_add_r by lia.
      replace (n + (Zdigits2 x - n - 1)) with (Zdigits2 x - 1) by lia. exact L.
    + apply Z.div_lt_upper_bound; [exact Hp|].
      rewrite <- Z.pow_add_r by lia.
      replace (n + (Zdigits2 x - n)) with (Zdigits2 x) by lia. exact U.
Qed.

(** When the exponent is not above [fexp] of the magnitude, a rounding
    step lands on a canonical pair, or on the mantissa 0 at the least
    exponent. *)
Lemma shr_fexp_canonical (m e : Z) (l : location) :
  0 <= m ->
  e <= fexp Js.prec Js.emax (Zdigits2 m + e) ->
  let mrs := fst (shr_fexp Js.prec Js.emax m e l) in
  let e' := snd (shr_fexp Js.prec Js.emax m e l) in
  0 <= shr_m mrs
  /\ (shr_m mrs = 0 -> e' = -1074)
  /\ (0 < shr_m mrs -> fexp Js.prec Js.emax (Zdigits2 (shr_m mrs) + e') = e').
Proof.
  intros Hm Hpre. cbv zeta.
  destruct (shr_fexp_spec m e l Hm) as (E & Q & _).
  set (n := Z.max 0 (fexp Js.prec Js.emax (Zdigits2 m + e) - e)) in *.
  assert (Hn : n = fexp Js.prec Js.emax (Zdigits2 m + e) - e) by (unfold n; lia).
  assert (Hn0 : 0 <= n) by lia.
  assert (Hp : 0 < 2 ^ n) by (apply Z.pow_pos_nonneg; lia).
  rewrite E, Q.
  assert (He' : e + n = fexp Js.prec Js.emax (Zdigits2 m + e)) by lia.
  pose proof (Zdigits2_nonneg m) as HD.
  split; [apply Z.div_pos; lia|]. split.
  - intros Hq. rewrite He', fexp_binary64 in *.
    destruct (Z.eq_dec m 0) as [->|Hne]; [cbn [Zdigits2] in *; lia|].
    assert (Hlt : m < 2 ^ n).
    { apply Z.div_small_iff in Hq; lia. }
    destruct (Zdigits2_bounds m ltac:(lia)) as [L _].
    assert (H1 : 2 ^ (Zdigits2 m - 1) < 2 ^ n) by lia.
    apply Z.pow_lt_mono_r_iff in H1; lia.
  - intros Hq.
    assert (Hge : 2 ^ n <= m).
    { destruct (Z.lt_ge_cases m (2 ^ n)) as [N|N]; [|exact N].
      rewrite Z.div_small in Hq; lia. }
    rewrite Zdigits2_div_pow2 by assumption.
    replace (Zdigits2 m - n + (e + n)) with (Zdigits2 m + e) by lia.
    now rewrite He'.
Qed.

Lemma binary_round_aux_valid (s : bool) (m e : Z) (l : location) :
  0 <= m ->
  e <= fexp Js.prec Js.emax (Zdigits2 m + e) ->
  valid_binary Js.prec Js.emax (binary_round_aux Js.prec Js.emax s m e l) = true.
Proof.
  intros Hm Hpre. unfold binary_round_aux.
  destruct (shr_fexp_canonical m e l Hm Hpre) as (Q0 & Qz & Qc).
  destruct (shr_fexp Js.prec Js.emax m e l) as [mrs1 e1]. cbn [fst snd] in Q0, Qz, Qc.
  destruct (round_nearest_even_bounds (shr_m mrs1) (loc_of_shr_record mrs1))
    as [[Lq Uq] _].
  set (q' := round_nearest_even (shr_m mrs1) (loc_of_shr_record mrs1)) in *.
  assert (Hpre' : e1 <= fexp Js.prec Js.emax (Zdigits2 q' + e1)).
  { destruct (Z.eq_dec (shr_m mrs1) 0) as [Z0|N0].
    - rewrite (Qz Z0), fexp_binary64.
      assert (Hq : q' = 0 \/ q' = 1) by lia.
      destruct Hq as [-> | ->]; cbn; lia.
    - rewrite <- (Qc ltac:(lia)) at 1. apply fexp_monotone.
      pose proof (Zdigits2_monotone (shr_m mrs1) q' ltac:(lia)). lia. }
  destruct (shr_fexp_canonical q' e1 loc_Exact ltac:(lia) Hpre') as (R0 & _ & Rc).
  destruct (shr_fexp Js.prec Js.emax q' e1 loc_Exact) as [mrs2 e2].
  cbn [fst snd] in R0, Rc.
  destruct (shr_m mrs2) as [|m2|m2]; [reflexivity| |lia].
  destruct (e2 <=? Js.emax - Js.prec) eqn:Hb; [|reflexivity].
  cbn [valid_binary]. unfold bounded, canonical_mantissa.
  rewrite Hb, andb_true_r. apply Z.eqb_eq. apply (Rc ltac:(lia)).
Qed.

Lemma binary_normalize_valid (m e : Z) (szero : bool) :
  valid_binary Js.prec Js.emax (binary_normalize Js.prec Js.emax m e szero) = true.
Proof.
  assert (H : forall s p, valid_binary Js.prec Js.emax
                            (binary_round Js.prec Js.emax s p e) = true).
  { intros s p. unfold binary_round.
    destruct (shl_align_spec p e (fexp Js.prec Js.emax (Z.pos (digits2_pos p) + e)))
      as [Ez Az].
    destruct (shl_align p e _) as [mz ez]. cbn [fst snd] in Ez, Az.
    apply binary_round_aux_valid; [lia|].
    assert (Hd : Zdigits2 (Z.pos mz) = Z.pos (digits2_pos p) + (e - ez)).
    { apply Zdigits2_unique; [lia|]. rewrite Az, <- Ez.
      destruct (digits2_pos_bounds p) as [L U].
      assert (Hp : 0 < 2 ^ (e - ez)) by (apply Z.pow_pos_nonneg; lia).
      replace (Z.pos (digits2_pos p) + (e - ez) - 1)
        with (Z.pos (digits2_pos p) - 1 + (e - ez)) by lia.
      rewrite !Z.pow_add_r by lia. nia. }
    rewrite Hd. replace (Z.pos (digits2_pos p) + (e - ez) + ez)
      with (Z.pos (digits2_pos p) + e) by lia.
    lia. }
  destruct m; cbn [binary_normalize]; [reflexivity|apply H|apply H].
Qed.

(** The quotient computed by the division has enough digits for the
    rounding that follows. *)
Lemma SFdiv_core_binary_pre (m1 : positive) (e1 : Z) (m2 : positive) (e2 : Z) :
  let '(q, e', _) := SFdiv_core_binary Js.prec Js.emax (Z.pos m1) e1 (Z.pos m2) e2 in
  0 <= q /\ e' <= fexp Js.prec Js.emax (Zdigits2 q + e').
Proof.
  unfold SFdiv_core_binary. cbn [Zdigits2].
  set (d1 := Z.pos (digits2_pos m1)). set (d2 := Z.pos (digits2_pos m2)).
  set (X := d1 + e1 - (d2 + e2)).
  set (e' := Z.min (fexp Js.prec Js.emax X) (e1 - e2)).
  set (s := e1 - e2 - e').
  assert (Hs : 0 <= s) by (unfold s, e'; lia).
  set (m' := match s with Z.pos _ => Z.shiftl (Z.pos m1) s | 0 => Z.pos m1 | Z.neg _ => 0 end).
  assert (Hm' : m' = Z.pos m1 * 2 ^ s).
  { unfold m'. destruct s as [|p|p] eqn:Es; [cbn; lia| |lia].
    apply Z.shiftl_mul_pow2. lia. }
  assert (Hq : fst (Z.div_eucl m' (Z.pos m2)) = m' / Z.pos m2) by reflexivity.
  destruct (Z.div_eucl m' (Z.pos m2)) as [q r]. cbn [fst] in Hq.
  assert (Hp : 0 < 2 ^ s) by (apply Z.pow_pos_nonneg; lia).
  assert (Hq0 : 0 <= q) by (rewrite Hq; apply Z.div_pos; lia).
  split; [exact Hq0|].
  destruct (digits2_pos_bounds m1) as [L1 _].
  destruct (digits2_pos_bounds m2) as [_ U2].
  fold d1 in L1. fold d2 in U2.
  assert (Hd1 : 1 <= d1) by (unfold d1; lia).
  assert (Hd2 : 1 <= d2) by (unfold d2; lia).
  assert (Hlow : 2 ^ (d1 - 1 + s) <= m').
  { rewrite Hm', Z.pow_add_r by lia. apply Z.mul_le_mono_nonneg_r; lia. }
  assert (Hfe : e' <= fexp Js.prec Js.emax X) by (unfold e'; lia).
  destruct (Z.eq_dec q 0) as [->|Hne].
  - cbn [Zdigits2]. rewrite Z.add_0_l, fexp_binary64 in *.
    assert (Hlt : m' < Z.pos m2).
    { symmetry in Hq. apply Z.div_small_iff in Hq; lia. }
    assert (H1 : 2 ^ (d1 - 1 + s) < 2 ^ d2) by lia.
    apply Z.pow_lt_mono_r_iff in H1; [|lia|lia].
    unfold s, X in *. lia.
  - eapply Z.le_trans; [exact Hfe|]. apply fexp_monotone.
    destruct (Z.le_gt_cases 0 (d1 + s - d2 - 1)) as [Ht|Ht].
    + assert (Hge : 2 ^ (d1 + s - d2 - 1) <= q).
      { rewrite Hq. apply Z.div_le_lower_bound; [lia|].
        eapply Z.le_trans; [|exact Hlow].
        replace (d1 - 1 + s) with (d2 + (d1 + s - d2 - 1)) by lia.
        rewrite Z.pow_add_r by lia.
        apply Z.mul_le_mono_nonneg_r; [apply Z.pow_nonneg|]; lia. }
      pose proof (Zdigits2_ge q _ Ht Hge). unfold X, s in *. lia.
    + pose proof (Zdigits2_ge q 0 ltac:(lia) ltac:(change (2 ^ 0) with 1; lia)).
      unfold X, s in *. lia.
Qed.

Lemma SFdiv_valid (x y : spec_float) :
  valid_binary Js.prec Js.emax (SFdiv Js.prec Js.emax x y) = true.
Proof.
  destruct x as [sx|sx| |sx mx ex], y as [sy|sy| |sy my ey]; try reflexivity.
  cbn [SFdiv].
  pose proof (SFdiv_core_binary_pre mx ex my ey) as H.
  destruct (SFdiv_core_binary Js.prec Js.emax (Z.pos mx) ex (Z.pos my) ey) as [[q e'] l].
  destruct H as [H0 H1]. now apply binary_round_aux_valid.
Qed.

Lemma SFsub_valid (x y : spec_float) :
  valid_binary Js.prec Js.emax x = true ->
  valid_binary Js.prec Js.emax y = true ->
  valid_binary Js.prec Js.emax (SFsub Js.prec Js.emax x y) = true.
Proof.
  intros Vx Vy.
  destruct x as [sx|sx| |sx mx ex], y as [sy|sy| |sy my ey];
    try reflexivity; try assumption.
  - now destruct sx, sy.
  - now destruct sx, sy.
  - cbn [SFsub]. apply binary_normalize_valid.
Qed.

(* ================================================================== *)
(** ** Truthiness *)
(* ================================================================== *)

Lemma truthyStr_nonempty (s : string) : s <> "" -> Js.truthyStr s = true.
Proof. destruct s; [congruence | reflexivity]. Qed.

(* ================================================================== *)
(** ** Construction: authentication mode *)
(* ================================================================== *)

Section ConstructorFacts.
Variable ethersWallet : string -> Completion string.
Variable newBuilderConfig : BuilderSigning -> Completion unit.
Variable gateway : Gateway.t.

Lemma buildBuilderConfig_built (chosen : option BuilderSigning) :
  builderConfigBuilt newBuilderConfig chosen ->
  TradingClient.buildBuilderConfig newBuilderConfig chosen = Return chosen.
Proof.
  intros H. destruct chosen as [b|]; [|reflexivity].
  cbn. now rewrite (H b eq_refl).
Qed.

Lemma buildBuilderConfig_inv (chosen built : option BuilderSigning) :
  TradingClient.buildBuilderConfig newBuilderConfig chosen = Return built ->
  built = chosen /\ builderConfigBuilt newBuilderConfig chosen.
Proof.
  destruct chosen as [b|]; cbn.
  - destruct (newBuilderConfig b) as [[]|e] eqn:E; [|discriminate].
    intros [= <-]. split; [reflexivity|]. now intros b' [= <-].
  - intros [= <-]. split; [reflexivity|]. intros b' H. discriminate H.
Qed.

(** With no backend and no frontend block the constructor throws. *)
Lemma constructor_neither (config : TradingConfig.t) :
  TradingConfig.backend config = None ->
  TradingConfig.frontend config = None ->
  TradingClient.constructor ethersWallet newBuilderConfig gateway config
    = Throw (Error TradingClient.missingModeMessage).
Proof.
  intros Hb Hf. unfold TradingClient.constructor. now rewrite Hb, Hf.
Qed.

(** A truthy private key selects the backend branch, whatever else the
    configuration holds. *)
Lemma constructor_backend (config : TradingConfig.t) (b : TradingConfig.backend_t)
    (address : string) :
  TradingConfig.backend config = Some b ->
  TradingConfig.privateKey b <> "" ->
  ethersWallet (TradingConfig.privateKey b) = Return address ->
  builderConfigBuilt newBuilderConfig
    (TradingClient.backendBuilderConfig (TradingConfig.builder config)) ->
  TradingClient.constructor ethersWallet newBuilderConfig gateway config =
    Return (TradingClient.make
      (ClobClient.make
         (Js.orStr (TradingConfig.host config) TradingClient.defaultHost)
         (Js.orNum (TradingConfig.chainId config) TradingClient.polygonMainnet)
         (WalletSigner (TradingConfig.privateKey b) address)
         (TradingClient.apiCredsOf (TradingConfig.builder config))
         EOA None None false
         (TradingClient.backendBuilderConfig (TradingConfig.builder config))
         gateway)
      config (Some address)).
Proof.
  intros Hb Hk Hw Hbuilt. unfold TradingClient.constructor, TradingClient.backendKeyOf.
  rewrite Hb. cbn [TradingClient.isSome negb andb].
  rewrite (truthyStr_nonempty _ Hk), Hw, (buildBuilderConfig_built _ Hbuilt). reflexivity.
Qed.

(** Without a truthy private key, a truthy signer selects the frontend
    branch. *)
Lemma constructor_frontend (config : TradingConfig.t) (s : Signer.t) :
  TradingClient.backendKeyOf config = None ->
  TradingClient.frontendSignerOf config = Some s ->
  TradingClient.startAddressLookup s = Return tt ->
  builderConfigBuilt newBuilderConfig
    (TradingClient.frontendBuilderConfig (TradingConfig.builder config)) ->
  TradingClient.constructor ethersWallet newBuilderConfig gateway config =
    Return (TradingClient.make
      (ClobClient.make
         (Js.orStr (TradingConfig.host config) TradingClient.defaultHost)
         (Js.orNum (TradingConfig.chainId config) TradingClient.polygonMainnet)
         (ExternalSigner s) None EOA None None false
         (TradingClient.frontendBuilderConfig (TradingConfig.builder config))
         gateway)
      config None).
Proof.
  intros Hk Hs Hl Hbuilt. unfold TradingClient.constructor.
  rewrite Hk, Hs, Hl, (buildBuilderConfig_built _ Hbuilt).
  unfold TradingClient.frontendSignerOf in Hs.
  destruct (TradingConfig.frontend config); [|discriminate].
  now rewrite andb_false_r.
Qed.

(** Inversion of a successful construction: the branch that ran. *)
Lemma constructor_inv (config : TradingConfig.t) (c : TradingClient.t) :
  TradingClient.constructor ethersWallet newBuilderConfig gateway config = Return c ->
  (exists k a, TradingClient.backendKeyOf config = Some k
     /\ ClobClient.signer (TradingClient.client c) = WalletSigner k a
     /\ ClobClient.builderConfig (TradingClient.client c)
        = TradingClient.backendBuilderConfig (TradingConfig.builder config))
  \/ (exists s, TradingClient.backendKeyOf config = None
     /\ ClobClient.signer (TradingClient.client c) = ExternalSigner s
     /\ ClobClient.builderConfig (TradingClient.client c)
        = TradingClient.frontendBuilderConfig (TradingConfig.builder config)).
Proof.
  unfold TradingClient.constructor.
  destruct (_ && _)%bool; [discriminate|].
  destruct (TradingClient.backendKeyOf config) as [k|].
  - destruct (ethersWallet k) as [a|e]; [|discriminate].
    destruct (TradingClient.buildBuilderConfig _ _) as [built|e] eqn:Eb; [|discriminate].
    apply buildBuilderConfig_inv in Eb. destruct Eb as [-> _].
    intros [= <-]. left. exists k, a. now cbn.
  - destruct (TradingClient.frontendSignerOf config) as [s|]; [|discriminate].
    destruct (TradingClient.startAddressLookup s); [|discriminate].
    destruct (TradingClient.buildBuilderConfig _ _) as [built|e] eqn:Eb; [|discriminate].
    apply buildBuilderConfig_inv in Eb. destruct Eb as [-> _].
    intros [= <-]. right. exists s. now cbn.
Qed.

End ConstructorFacts.

(** The specification's precedence is the backend branch's rule. *)
Lemma backendBuilderConfig_spec (b : option BuilderConfig.t) :
  TradingClient.backendBuilderConfig b = Spec.builderAttribution b.
Proof.
  destruct b as [[k s p u]|]; [|reflexivity].
  unfold TradingClient.backendBuilderConfig, TradingClient.signingServerUrlOf,
    TradingClient.apiCredsOf, Spec.builderAttribution.
  cbn [BuilderConfig.key BuilderConfig.secret BuilderConfig.passphrase
       BuilderConfig.signingServerUrl].
  destruct u as [[|c u]|]; cbn [Js.truthyStr]; try reflexivity;
    destruct k as [[|a k]|], s as [[|b s]|], p as [[|d p]|]; reflexivity.
Qed.

(** C1, as stated, fails: a configuration holding both the backend and
    the frontend block is accepted, and the backend mode is chosen. The
    key is the private key 1, whose wallet ethers builds; no builder block
    is configured, so no builder configuration is built. *)
Lemma C1_both_blocks_counterexample :
  TradingConfig.backend Sample.bothConfig <> None
  /\ TradingConfig.frontend Sample.bothConfig <> None
  /\ ~ rejected (TradingClient.constructor Sample.wallet Sample.builderSdk Sample.gateway
                   Sample.bothConfig)
  /\ exists c,
       TradingClient.constructor Sample.wallet Sample.builderSdk Sample.gateway
         Sample.bothConfig = Return c
       /\ ClobClient.signer (TradingClient.client c)
          = WalletSigner
              "0x0000000000000000000000000000000000000000000000000000000000000001"
              "0x7E5F4552091A69125d5DfCb7b8C2659029395Bdf".
Proof.
  repeat split; try discriminate.
  - intros [e H]. discriminate H.
  - eexists. split; reflexivity.
Qed.

(** C1 (amended): with neither block the constructor throws its
    configuration error. With both blocks it does not reject the
    ambiguity: a non-empty private key selects the backend mode (the
    frontend block is ignored) once ethers has built the wallet and the
    builder configuration, if one is chosen, has been built; with an empty
    private key a set signer selects the frontend mode, once its address
    lookup has started without throwing and the builder configuration has
    been built, and with no signer either the constructor throws. *)
Theorem C1_constructor_mode_selection
    (ethersWallet : string -> Completion string)
    (newBuilderConfig : BuilderSigning -> Completion unit) (gateway : Gateway.t)
    (config : TradingConfig.t) :
  (TradingConfig.backend config = None -> TradingConfig.frontend config = None ->
     TradingClient.constructor ethersWallet newBuilderConfig gateway config
       = Throw (Error TradingClient.missingModeMessage))
  /\ (forall b f address,
        TradingConfig.backend config = Some b ->
        TradingConfig.frontend config = Some f ->
        TradingConfig.privateKey b <> "" ->
        ethersWallet (TradingConfig.privateKey b) = Return address ->
        builderConfigBuilt newBuilderConfig
          (TradingClient.backendBuilderConfig (TradingConfig.builder config)) ->
        exists c,
          TradingClient.constructor ethersWallet newBuilderConfig gateway config = Return c
          /\ ClobClient.signer (TradingClient.client c)
               = WalletSigner (TradingConfig.privateKey b) address
          /\ TradingClient.walletAddress c = Some address)
  /\ (forall b f,
        TradingConfig.backend config = Some b ->
        TradingConfig.frontend config = Some f ->
        TradingConfig.privateKey b = "" ->
        match TradingConfig.signer f with
        | Some s =>
            TradingClient.startAddressLookup s = Return tt ->
            builderConfigBuilt newBuilderConfig
              (TradingClient.frontendBuilderConfig (TradingConfig.builder config)) ->
            exists c,
              TradingClient.constructor ethersWallet newBuilderConfig gateway config
                = Return c
              /\ ClobClient.signer (TradingClient.client c) = ExternalSigner s
        | None =>
            TradingClient.constructor ethersWallet newBuilderConfig gateway config
              = Throw (Error "Invalid trading configuration")
        end).
Proof.
  split; [apply constructor_neither|split].
  - intros b f address Hb Hf Hk Hw Hbuilt.
    eexists. split; [apply (constructor_backend _ _ _ _ b address Hb Hk Hw Hbuilt)|].
    split; reflexivity.
  - intros b f Hb Hf Hk.
    assert (Hkey : TradingClient.backendKeyOf config = None).
    { unfold TradingClient.backendKeyOf. now rewrite Hb, Hk. }
    destruct (TradingConfig.signer f) as [s|] eqn:Hs.
    + intros Hl Hbuilt.
      eexists. split; [apply (constructor_frontend _ _ _ _ s Hkey)|reflexivity];
        try assumption.
      unfold TradingClient.frontendSignerOf. now rewrite Hf.
    + unfold TradingClient.constructor. rewrite Hkey.
      unfold TradingClient.frontendSignerOf. now rewrite Hb, Hf, Hs.
Qed.

Lemma C1_constructor_mode_selection_witness :
  TradingClient.constructor Sample.wallet Sample.builderSdk Sample.gateway
    Sample.neitherConfig
    = Throw (Error TradingClient.missingModeMessage)
  /\ exists c,
       TradingClient.constructor Sample.wallet Sample.builderSdk Sample.gateway
         Sample.bothConfig = Return c
       /\ ClobClient.signer (TradingClient.client c)
          = WalletSigner Sample.privateKey Sample.address
       /\ TradingClient.walletAddress c = Some Sample.address.
Proof.
  split.
  - apply (C1_constructor_mode_selection Sample.wallet Sample.builderSdk Sample.gateway
             Sample.neitherConfig);
      reflexivity.
  - apply (proj1 (proj2 (C1_constructor_mode_selection Sample.wallet Sample.builderSdk
                           Sample.gateway Sample.bothConfig))
             (TradingConfig.mkBackend Sample.privateKey)
             (TradingConfig.mkFrontend (Some Sample.signer)) Sample.address);
      [reflexivity | reflexivity | discriminate | reflexivity |].
    intros b H. discriminate H.
Defined.

(* ================================================================== *)
(** ** Construction: builder attribution *)
(* ================================================================== *)

(** C4, as stated, fails: in frontend mode complete local credentials
    without a signing-server URL give no builder configuration, where the
    stated precedence gives local credentials. *)
Lemma C4_frontend_local_counterexample :
  exists c,
    TradingClient.constructor Sample.wallet Sample.builderSdk Sample.gateway
      (Sample.frontendConfig (Some Sample.localBuilder)) = Return c
    /\ ClobClient.builderConfig (TradingClient.client c) = None
    /\ Spec.builderAttribution (Some Sample.localBuilder)
         = Some (LocalBuilderCreds (mkApiCreds "k" "s" "p"))
    /\ ClobClient.builderConfig (TradingClient.client c)
         <> Spec.builderAttribution (Some Sample.localBuilder).
Proof.
  eexists. split; [reflexivity|]. repeat split. discriminate.
Qed.

(** C4 (amended): the builder attribution is a function of the
    configuration. A configured signing-server URL gives remote signing in
    both modes, also when complete local credentials are present. Without
    one, the backend mode uses complete local credentials (key, secret and
    passphrase all present) and otherwise none; the frontend mode never
    uses local credentials and has none. *)
Theorem C4_builder_attribution
    (ethersWallet : string -> Completion string)
    (newBuilderConfig : BuilderSigning -> Completion unit) (gateway : Gateway.t)
    (config : TradingConfig.t) (c : TradingClient.t) :
  TradingClient.constructor ethersWallet newBuilderConfig gateway config = Return c ->
  let attribution := ClobClient.builderConfig (TradingClient.client c) in
  (forall u, TradingClient.signingServerUrlOf (TradingConfig.builder config) = Some u ->
     attribution = Some (RemoteBuilderConfig u))
  /\ (TradingClient.signingServerUrlOf (TradingConfig.builder config) = None ->
      match ClobClient.signer (TradingClient.client c) with
      | WalletSigner _ _ =>
          attribution = Spec.builderAttribution (TradingConfig.builder config)
          /\ attribution =
               match TradingClient.apiCredsOf (TradingConfig.builder config) with
               | Some creds => Some (LocalBuilderCreds creds)
               | None => None
               end
      | ExternalSigner _ => attribution = None
      end).
Proof.
  intros H. cbv zeta.
  destruct (constructor_inv _ _ _ _ _ H) as [(k & a & _ & Hs & Hb)|(s & _ & Hs & Hb)];
    rewrite Hs, Hb; split.
  - intros u Hu. unfold TradingClient.backendBuilderConfig. now rewrite Hu.
  - intros Hu. split; [apply backendBuilderConfig_spec|].
    unfold TradingClient.backendBuilderConfig. now rewrite Hu.
  - intros u Hu. unfold TradingClient.frontendBuilderConfig. now rewrite Hu.
  - intros Hu. unfold TradingClient.frontendBuilderConfig. now rewrite Hu.
Qed.

Lemma C4_builder_attribution_witness :
  exists c1 c2 c3,
    TradingClient.constructor Sample.wallet Sample.builderSdk Sample.gateway
      (Sample.backendConfig (Some Sample.fullBuilder)) = Return c1
    /\ ClobClient.builderConfig (TradingClient.client c1)
         = Some (RemoteBuilderConfig "https://sign.example")
    /\ TradingClient.constructor Sample.wallet Sample.builderSdk Sample.gateway
         (Sample.backendConfig (Some Sample.localBuilder)) = Return c2
    /\ ClobClient.builderConfig (TradingClient.client c2)
         = Some (LocalBuilderCreds (mkApiCreds "k" "s" "p"))
    /\ TradingClient.constructor Sample.wallet Sample.builderSdk Sample.gateway
         (Sample.frontendConfig (Some Sample.localBuilder)) = Return c3
    /\ ClobClient.builderConfig (TradingClient.client c3) = None.
Proof.
  do 3 eexists.
  split; [reflexivity|]. split.
  { apply (proj1 (C4_builder_attribution Sample.wallet Sample.builderSdk Sample.gateway
                    (Sample.backendConfig (Some Sample.fullBuilder)) _ eq_refl)).
    reflexivity. }
  split; [reflexivity|]. split.
  { apply (proj2 (C4_builder_attribution Sample.wallet Sample.builderSdk Sample.gateway
                    (Sample.backendConfig (Some Sample.localBuilder)) _ eq_refl)).
    reflexivity. }
  split; [reflexivity|].
  apply (proj2 (C4_builder_attribution Sample.wallet Sample.builderSdk Sample.gateway
                  (Sample.frontendConfig (Some Sample.localBuilder)) _ eq_refl)).
  reflexivity.
Defined.

(* ================================================================== *)
(** ** placeOrder *)
(* ================================================================== *)

(** A request that passes the four guards reaches the gateway once, and
    the answer is mapped to [{orderId, status}]. *)
Lemma placeOrder_valid (this : TradingClient.t) (params : PlaceOrderParams.t) (w : World) :
  PlaceOrderParams.tokenId params <> "" ->
  TradingClient.sideOk (PlaceOrderParams.side params) = true ->
  TradingClient.priceRejected (PlaceOrderParams.price params) = false ->
  TradingClient.sizeRejected (PlaceOrderParams.size params) = false ->
  TradingClient.placeOrder this params w =
    (called (CallCreateAndPostOrder (TradingClient.wireOrder params)) w,
     match Gateway.createAndPostOrder (ClobClient.gateway (TradingClient.client this))
             (TradingClient.wireOrder params) with
     | Return response =>
         Return (PlacedOrder.make
                   (Js.orOptStr (OrderResponse.orderID response) (OrderResponse.id response))
                   (Js.orStr (OrderResponse.status response) "success"))
     | Throw e => Throw (Error ("Failed to place order: " ++ message e))
     end).
Proof.
  intros Ht Hs Hp Hz. unfold TradingClient.placeOrder.
  rewrite (truthyStr_nonempty _ Ht), Hs, Hp, Hz.
  cbn [negb throwIf]. unfold tryCatch, bind, ret, throw, await, called. cbn.
  now destruct (Gateway.createAndPostOrder _ _).
Qed.

(** A price the guard rejects stops [placeOrder] before the gateway. *)
Lemma placeOrder_price_guard (this : TradingClient.t) (params : PlaceOrderParams.t) (w : World) :
  TradingClient.priceRejected (PlaceOrderParams.price params) = true ->
  exists msg,
    TradingClient.placeOrder this params w
      = (w, Throw (Error ("Failed to place order: " ++ msg)))
    /\ (PlaceOrderParams.tokenId params <> "" ->
        TradingClient.sideOk (PlaceOrderParams.side params) = true ->
        msg = TradingClient.priceMessage).
Proof.
  intros Hp. unfold TradingClient.placeOrder. rewrite Hp.
  destruct (Js.truthyStr (PlaceOrderParams.tokenId params)) eqn:Ht.
  - destruct (TradingClient.sideOk (PlaceOrderParams.side params)) eqn:Hs.
    + exists TradingClient.priceMessage. split; [reflexivity|trivial].
    + exists "side must be 'BUY' or 'SELL'". split; [reflexivity|discriminate].
  - exists "tokenId is required". split; [reflexivity|].
    intros Hne. now rewrite (truthyStr_nonempty _ Hne) in Ht.
Qed.

(** C3: when [price <= 0] or [price >= 1], [placeOrder] fails with the
    wrapped validation error, and the world, hence the record of gateway
    calls, is unchanged: the gateway is not invoked. When the token id and
    the side are valid the error is the price error. *)
Theorem C3_placeOrder_price_out_of_range
    (this : TradingClient.t) (params : PlaceOrderParams.t) (w : World) :
  Js.le (PlaceOrderParams.price params) Js.zero = true
  \/ Js.ge (PlaceOrderParams.price params) Js.one = true ->
  exists msg,
    TradingClient.placeOrder this params w
      = (w, Throw (Error ("Failed to place order: " ++ msg)))
    /\ calls (fst (TradingClient.placeOrder this params w)) = calls w
    /\ (PlaceOrderParams.tokenId params <> "" ->
        TradingClient.sideOk (PlaceOrderParams.side params) = true ->
        msg = TradingClient.priceMessage).
Proof.
  intros H.
  destruct (placeOrder_price_guard this params w) as (msg & E & Hm).
  - unfold TradingClient.priceRejected.
    destruct H as [H|H]; rewrite H; now rewrite ?orb_true_r.
  - exists msg. rewrite E. now repeat split.
Qed.

Lemma C3_placeOrder_price_out_of_range_witness :
  exists msg,
    TradingClient.placeOrder Sample.client
      (PlaceOrderParams.make "T1" "BUY" Js.one (Js.parseFloat "10") None None) Sample.world
      = (Sample.world, Throw (Error ("Failed to place order: " ++ msg)))
    /\ calls (fst (TradingClient.placeOrder Sample.client
         (PlaceOrderParams.make "T1" "BUY" Js.one (Js.parseFloat "10") None None)
         Sample.world)) = []
    /\ (PlaceOrderParams.tokenId
          (PlaceOrderParams.make "T1" "BUY" Js.one (Js.parseFloat "10") None None) <> "" ->
        TradingClient.sideOk "BUY" = true ->
        msg = TradingClient.priceMessage).
Proof.
  apply (C3_placeOrder_price_out_of_range Sample.client
           (PlaceOrderParams.make "T1" "BUY" Js.one (Js.parseFloat "10") None None)
           Sample.world).
  right. reflexivity.
Defined.

(** C10: for a request that passes validation and a gateway that answers
    with a response, [placeOrder] returns the response's status, or
    ["success"] when the status is omitted; the order id is the [orderID]
    field, or the [id] field when [orderID] is absent. *)
Theorem C10_placeOrder_response_defaults
    (this : TradingClient.t) (params : PlaceOrderParams.t) (w : World)
    (response : OrderResponse.t) :
  PlaceOrderParams.tokenId params <> "" ->
  TradingClient.sideOk (PlaceOrderParams.side params) = true ->
  TradingClient.priceRejected (PlaceOrderParams.price params) = false ->
  TradingClient.sizeRejected (PlaceOrderParams.size params) = false ->
  Gateway.createAndPostOrder (ClobClient.gateway (TradingClient.client this))
    (TradingClient.wireOrder params) = Return response ->
  exists placed,
    TradingClient.placeOrder this params w
      = (called (CallCreateAndPostOrder (TradingClient.wireOrder params)) w, Return placed)
    /\ (OrderResponse.status response = None -> PlacedOrder.status placed = "success")
    /\ (forall s, OrderResponse.status response = Some s -> s <> "" ->
        PlacedOrder.status placed = s)
    /\ (forall i, OrderResponse.orderID response = Some i -> i <> "" ->
        PlacedOrder.orderId placed = Some i)
    /\ (OrderResponse.orderID response = None ->
        PlacedOrder.orderId placed = OrderResponse.id response).
Proof.
  intros Ht Hs Hp Hz Hg.
  rewrite (placeOrder_valid this params w Ht Hs Hp Hz), Hg.
  eexists. split; [reflexivity|]. cbn [PlacedOrder.status PlacedOrder.orderId].
  repeat split.
  - now intros ->.
  - intros s -> Hne. cbn. now rewrite (truthyStr_nonempty _ Hne).
  - intros i -> Hne. unfold Js.orOptStr. cbn. now rewrite (truthyStr_nonempty _ Hne).
  - now intros ->.
Qed.

Lemma C10_placeOrder_response_defaults_witness :
  exists placed,
    TradingClient.placeOrder Sample.bareClient Sample.params Sample.world
      = (called (CallCreateAndPostOrder (TradingClient.wireOrder Sample.params)) Sample.world,
         Return placed)
    /\ PlacedOrder.status placed = "success"
    /\ PlacedOrder.orderId placed = Some "O7".
Proof.
  destruct (C10_placeOrder_response_defaults Sample.bareClient Sample.params Sample.world
              (OrderResponse.make None (Some "O7") None))
    as (placed & E & Hs & _ & _ & Hi);
    [discriminate | reflexivity | reflexivity | reflexivity | reflexivity |].
  exists placed. split; [exact E|]. split; [exact (Hs eq_refl) | exact (Hi eq_refl)].
Defined.

(** The specification's scenario: the echoed [{orderID: "O1", status:
    "matched"}] comes back as [{orderId: "O1", status: "matched"}]. *)
Example placeOrder_echo :
  snd (TradingClient.placeOrder Sample.client Sample.params Sample.world)
    = Return (PlacedOrder.make (Some "O1") "matched").
Proof. reflexivity. Qed.

(* ================================================================== *)
(** ** cancelOrders *)
(* ================================================================== *)

(** C7: [cancelOrders] on an empty or absent list fails with the wrapped
    validation error and leaves the record of gateway calls untouched. *)
Theorem C7_cancelOrders_empty (this : TradingClient.t) (orderIds : option (list string))
    (w : World) :
  orderIds = None \/ orderIds = Some [] ->
  TradingClient.cancelOrders this orderIds w
    = (w, Throw (Error "Failed to cancel orders: orderIds array is required"))
  /\ calls (fst (TradingClient.cancelOrders this orderIds w)) = calls w.
Proof.
  intros [-> | ->]; split; reflexivity.
Qed.

Lemma C7_cancelOrders_empty_witness :
  TradingClient.cancelOrders Sample.client (Some []) Sample.world
    = (Sample.world, Throw (Error "Failed to cancel orders: orderIds array is required"))
  /\ calls (fst (TradingClient.cancelOrders Sample.client (Some []) Sample.world)) = [].
Proof.
  apply (C7_cancelOrders_empty Sample.client (Some []) Sample.world).
  right. reflexivity.
Defined.

(** A non-empty list goes to the gateway in one batched call. *)
Lemma cancelOrders_batched (this : TradingClient.t) (i : string) (ids : list string)
    (w : World) :
  calls (fst (TradingClient.cancelOrders this (Some (i :: ids)) w))
    = CallCancelOrders (i :: ids) :: calls w.
Proof.
  unfold TradingClient.cancelOrders, tryCatch, await, throw. cbn.
  now destruct (Gateway.cancelOrders _ _).
Qed.

(* ================================================================== *)
(** ** getOrder and getOpenOrders *)
(* ================================================================== *)

Lemma getOrder_run (this : TradingClient.t) (orderId : string) (w : World) :
  orderId <> "" ->
  TradingClient.getOrder this orderId w =
    (called (CallGetOrder orderId) w,
     match Gateway.getOrder (ClobClient.gateway (TradingClient.client this)) orderId with
     | Return None => Return None
     | Return (Some order) => Return (Some (TradingClient.normalize "unknown" (now w) order))
     | Throw e => Throw (Error ("Failed to get order: " ++ message e))
     end).
Proof.
  intros Hne. unfold TradingClient.getOrder.
  rewrite (truthyStr_nonempty _ Hne). cbn [negb throwIf].
  unfold tryCatch, bind, ret, throw, await, called, dateNow. cbn.
  destruct (Gateway.getOrder _ _) as [[order|]|e]; reflexivity.
Qed.

Lemma getOpenOrders_run (this : TradingClient.t) (address : option string) (w : World) :
  TradingClient.getOpenOrders this address w =
    (called CallGetOpenOrders w,
     match Gateway.getOpenOrders (ClobClient.gateway (TradingClient.client this)) with
     | Return response => Return (map (TradingClient.normalize "open" (now w)) response)
     | Throw e => Throw (Error ("Failed to get open orders: " ++ message e))
     end).
Proof.
  unfold TradingClient.getOpenOrders, tryCatch, bind, ret, throw, await, called, dateNow.
  cbn. destruct (Gateway.getOpenOrders _); reflexivity.
Qed.

(** C6: for a non-empty order id, [getOrder] returns [null] when the
    gateway reports no such order and throws the wrapped error when the
    gateway call fails; the two outcomes differ. *)
Theorem C6_getOrder_null_or_error (this : TradingClient.t) (orderId : string) (w : World) :
  orderId <> "" ->
  let gw := ClobClient.gateway (TradingClient.client this) in
  (Gateway.getOrder gw orderId = Return None ->
     snd (TradingClient.getOrder this orderId w) = Return None)
  /\ (forall e, Gateway.getOrder gw orderId = Throw e ->
        snd (TradingClient.getOrder this orderId w)
          = Throw (Error ("Failed to get order: " ++ message e)))
  /\ (forall e, @Return (option Order.t) None <> Throw e).
Proof.
  intros Hne gw. rewrite (getOrder_run this orderId w Hne). subst gw. cbn [snd].
  repeat split.
  - now intros ->.
  - now intros e ->.
  - discriminate.
Qed.

Lemma C6_getOrder_null_or_error_witness :
  snd (TradingClient.getOrder Sample.client "O9" Sample.world) = Return None
  /\ snd (TradingClient.getOrder Sample.bareClient "O9" Sample.world)
       = Throw (Error "Failed to get order: network down").
Proof.
  split.
  - apply (C6_getOrder_null_or_error Sample.client "O9" Sample.world); [discriminate|].
    reflexivity.
  - apply (proj1 (proj2 (C6_getOrder_null_or_error Sample.bareClient "O9" Sample.world
                           ltac:(discriminate)))
             (Error "network down")).
    reflexivity.
Defined.

(** C8: a record without a status is normalized with status ["open"] by
    [getOpenOrders] and with status ["unknown"] by [getOrder], and the two
    defaults differ. *)
Theorem C8_status_defaults (this : TradingClient.t) (address : option string)
    (orderId : string) (w : World) (order : OpenOrder.t) (response : list OpenOrder.t) :
  OpenOrder.status order = None ->
  let gw := ClobClient.gateway (TradingClient.client this) in
  (Gateway.getOpenOrders gw = Return response -> In order response ->
     exists orders o,
       snd (TradingClient.getOpenOrders this address w) = Return orders
       /\ In o orders /\ Order.raw o = order /\ Order.status o = "open")
  /\ (orderId <> "" -> Gateway.getOrder gw orderId = Return (Some order) ->
     exists o,
       snd (TradingClient.getOrder this orderId w) = Return (Some o)
       /\ Order.raw o = order /\ Order.status o = "unknown")
  /\ "open" <> "unknown".
Proof.
  intros Hst gw. subst gw. repeat split.
  - intros Hg Hin. rewrite getOpenOrders_run, Hg. cbn [snd].
    exists (map (TradingClient.normalize "open" (now w)) response),
           (TradingClient.normalize "open" (now w) order).
    repeat split.
    + now apply in_map.
    + cbn. now rewrite Hst.
  - intros Hne Hg. rewrite (getOrder_run this orderId w Hne), Hg. cbn [snd].
    eexists. repeat split. cbn. now rewrite Hst.
  - discriminate.
Qed.

Lemma C8_status_defaults_witness :
  (exists orders o,
     snd (TradingClient.getOpenOrders Sample.client None Sample.world) = Return orders
     /\ In o orders /\ Order.raw o = Sample.malformedOrder /\ Order.status o = "open")
  /\ (exists o,
     snd (TradingClient.getOrder Sample.client "O2" Sample.world) = Return (Some o)
     /\ Order.raw o = Sample.malformedOrder /\ Order.status o = "unknown").
Proof.
  pose proof (C8_status_defaults Sample.client None "O2" Sample.world Sample.malformedOrder
                [Sample.rawOrder; Sample.malformedOrder] eq_refl) as (H1 & H2 & _).
  split.
  - apply H1; [reflexivity | right; left; reflexivity].
  - apply H2; [discriminate | reflexivity].
Defined.

(** C9: the result of [getOpenOrders], and its effect on the world, do
    not depend on the address argument. *)
Theorem C9_getOpenOrders_ignores_address (this : TradingClient.t)
    (address1 address2 : option string) (w : World) :
  TradingClient.getOpenOrders this address1 w = TradingClient.getOpenOrders this address2 w.
Proof.
  now rewrite !getOpenOrders_run.
Qed.

(* ================================================================== *)
(** ** Normalization of exchange records *)
(* ================================================================== *)

(** [parseFloat] always returns a canonical binary64 number. *)
Lemma roundDecimal_wellFormed (neg : bool) (m : positive) (e10 : Z) :
  Js.wellFormed (Js.roundDecimal neg m e10) = true.
Proof.
  unfold Js.roundDecimal, Js.wellFormed.
  destruct (0 <=? e10); [apply binary_normalize_valid | apply SFdiv_valid].
Qed.

Lemma decimalValue_wellFormed (neg : bool) (m e10 : Z) :
  Js.wellFormed (Js.decimalValue neg m e10) = true.
Proof.
  destruct m; cbn [Js.decimalValue]; try reflexivity. apply roundDecimal_wellFormed.
Qed.

Lemma parseUnsigned_wellFormed (neg : bool) (s : string) :
  Js.wellFormed (Js.parseUnsigned neg s) = true.
Proof.
  unfold Js.parseUnsigned.
  destruct (String.prefix "Infinity" s); [reflexivity|].
  destruct (Js.scanDigits s 0 0) as [[ip ni] r1].
  assert (H1 : Js.wellFormed
                 (if ni =? 0 then Js.NaN else Js.decimalValue neg ip (Js.scanExponent r1))
               = true).
  { destruct (ni =? 0); [reflexivity | apply decimalValue_wellFormed]. }
  destruct r1 as [|c r2]; [exact H1|].
  destruct c as [[] [] [] [] [] [] [] []]; try exact H1.
  destruct (Js.scanDigits r2 ip ni) as [[m nd] r3].
  destruct (nd =? 0); [reflexivity | apply decimalValue_wellFormed].
Qed.

Lemma parseFloat_wellFormed (input : string) :
  Js.wellFormed (Js.parseFloat input) = true.
Proof.
  unfold Js.parseFloat.
  destruct (Js.trimStart input) as [|c r]; [reflexivity|].
  destruct c as [[] [] [] [] [] [] [] []]; apply parseUnsigned_wellFormed.
Qed.

(** [parseFloat] on a few texts: a decimal fraction, leading white space
    with an exponent and trailing text, text that is no number, and the
    text of [undefined]. *)
Example parseFloat_samples :
  Js.parseFloat "0.65" = S754_finite false 5854679515581645 (-53)
  /\ Js.parseFloat "  -12.5e-1xyz" = S754_finite true 5629499534213120 (-52)
  /\ Js.parseFloat "10" = Js.ofZ 10
  /\ Js.parseFloat "0" = Js.zero
  /\ Js.parseFloat "abc" = Js.NaN
  /\ Js.parseFloat "undefined" = Js.NaN
  /\ Js.parseFloat "1e400" = S754_infinity false.
Proof. repeat split; vm_compute; reflexivity. Qed.

(** Leading white space of more than one byte is trimmed too: a
    no-break space (U+00A0) and a line separator (U+2028) before ["12"]. *)
Example parseFloat_trims_unicode_white_space :
  Js.parseFloat
    (String (ascii_of_nat 194) (String (ascii_of_nat 160)
       (String (ascii_of_nat 226) (String (ascii_of_nat 128) (String (ascii_of_nat 168)
          "12")))))
    = Js.ofZ 12.
Proof. vm_compute. reflexivity. Qed.

(** Subtracting from, or by, NaN gives NaN. *)
Lemma sub_NaN_l (x : Js.number) : Js.sub Js.NaN x = Js.NaN.
Proof. reflexivity. Qed.

Lemma sub_NaN_r (x : Js.number) : Js.sub x Js.NaN = Js.NaN.
Proof. now destruct x. Qed.

(** A positive mantissa at an exponent that is not above [fexp] of the
    magnitude keeps a positive mantissa through a rounding step. *)
Lemma shr_fexp_positive (m e : Z) (l : location) :
  0 < m -> -1074 <= e ->
  e <= fexp Js.prec Js.emax (Zdigits2 m + e) ->
  0 < shr_m (fst (shr_fexp Js.prec Js.emax m e l)).
Proof.
  intros Hm He Hpre.
  destruct (shr_fexp_spec m e l ltac:(lia)) as (_ & Q & _). rewrite Q.
  set (n := Z.max 0 (fexp Js.prec Js.emax (Zdigits2 m + e) - e)).
  assert (Hn : 0 <= n) by (unfold n; lia).
  destruct (Zdigits2_bounds m Hm) as [L _].
  assert (Hle : n <= Zdigits2 m - 1).
  { unfold n. rewrite fexp_binary64 in *.
    pose proof (Zdigits2_ge m 0 ltac:(lia) ltac:(change (2 ^ 0) with 1; lia)). lia. }
  assert (H2 : 2 ^ n <= m).
  { eapply Z.le_trans; [|exact L]. apply Z.pow_le_mono_r; lia. }
  apply Z.div_str_pos. split; [apply Z.pow_pos_nonneg; lia | exact H2].
Qed.

(** A carry is the only way one more unit gives one more digit. *)
Lemma Zdigits2_succ (q : Z) :
  0 < q -> Zdigits2 (q + 1) = Zdigits2 q \/ q + 1 = 2 ^ Zdigits2 q.
Proof.
  intros Hq. destruct (Zdigits2_bounds q Hq) as [L U].
  destruct (Z.eq_dec (q + 1) (2 ^ Zdigits2 q)) as [E|N]; [now right|left].
  apply Zdigits2_unique; lia.
Qed.

(** Rounding an exact positive value: the result is positive, and
    finite unless it overflows; when finite it is less than one unit in
    its last place away from the value. *)
Lemma binary_round_error (p : positive) (e : Z) :
  -1074 <= e ->
  match binary_round Js.prec Js.emax false p e with
  | S754_finite s m2 e2 =>
      s = false
      /\ Z.abs (Z.pos m2 * 2 ^ (e2 + 1074) - Z.pos p * 2 ^ (e + 1074)) < 2 ^ (e2 + 1074)
  | S754_infinity s => s = false
  | _ => False
  end.
Proof.
  intros He. unfold binary_round.
  destruct (shl_align_spec p e (fexp Js.prec Js.emax (Z.pos (digits2_pos p) + e)))
    as [Ez Az].
  destruct (shl_align p e _) as [mz ez]. cbn [fst snd] in Ez, Az.
  assert (Hfe : -1074 <= fexp Js.prec Js.emax (Z.pos (digits2_pos p) + e))
    by (rewrite fexp_binary64; lia).
  assert (Hez : -1074 <= ez <= e) by lia.
  assert (HV : Z.pos mz * 2 ^ (ez + 1074) = Z.pos p * 2 ^ (e + 1074)).
  { rewrite Az, <- Ez, <- Z.mul_assoc, <- Z.pow_add_r by lia. f_equal. f_equal. lia. }
  rewrite <- HV.
  assert (Hd : Zdigits2 (Z.pos mz) = Z.pos (digits2_pos p) + (e - ez)).
  { apply Zdigits2_unique; [lia|]. rewrite Az, <- Ez.
    destruct (digits2_pos_bounds p) as [L U].
    assert (Hp : 0 < 2 ^ (e - ez)) by (apply Z.pow_pos_nonneg; lia).
    replace (Z.pos (digits2_pos p) + (e - ez) - 1)
      with (Z.pos (digits2_pos p) - 1 + (e - ez)) by lia.
    rewrite !Z.pow_add_r by lia. nia. }
  assert (Hpre : ez <= fexp Js.prec Js.emax (Zdigits2 (Z.pos mz) + ez)).
  { rewrite Hd. replace (Z.pos (digits2_pos p) + (e - ez) + ez)
      with (Z.pos (digits2_pos p) + e) by lia. lia. }
  unfold binary_round_aux.
  pose proof (shr_fexp_positive (Z.pos mz) ez loc_Exact ltac:(lia) ltac:(lia) Hpre) as P1.
  destruct (shr_fexp_canonical (Z.pos mz) ez loc_Exact ltac:(lia) Hpre) as (_ & _ & C1).
  destruct (shr_fexp_spec (Z.pos mz) ez loc_Exact ltac:(lia)) as (E1 & Q1 & X1).
  specialize (X1 eq_refl).
  destruct (shr_fexp Js.prec Js.emax (Z.pos mz) ez loc_Exact) as [mrs1 e1].
  cbn [fst snd] in P1, C1, E1, Q1, X1.
  specialize (C1 P1).
  set (n1 := Z.max 0 (fexp Js.prec Js.emax (Zdigits2 (Z.pos mz) + ez) - ez)) in *.
  assert (Hn1 : 0 <= n1) by (unfold n1; lia).
  assert (HP : 0 < 2 ^ n1) by (apply Z.pow_pos_nonneg; lia).
  set (q := shr_m mrs1) in *.
  destruct (round_nearest_even_bounds q (loc_of_shr_record mrs1)) as [[Lq Uq] Xq].
  set (q' := round_nearest_even q (loc_of_shr_record mrs1)) in *.
  (* the first step is less than one unit at exponent e1 away *)
  assert (Herr : Z.abs (q' * 2 ^ n1 - Z.pos mz) < 2 ^ n1).
  { pose proof (Z.div_mod (Z.pos mz) (2 ^ n1) ltac:(lia)) as Hdm.
    pose proof (Z.mod_pos_bound (Z.pos mz) (2 ^ n1) HP) as Hmb.
    rewrite <- Q1 in Hdm.
    destruct (Z.eq_dec (Z.pos mz mod 2 ^ n1) 0) as [E0|N0].
    - rewrite (Xq (X1 E0)). rewrite E0 in Hdm. lia.
    - assert (Hc : q' = q \/ q' = q + 1) by lia.
      destruct Hc as [-> | ->]; lia. }
  assert (He1 : -1074 <= e1) by lia.
  assert (Hpre' : e1 <= fexp Js.prec Js.emax (Zdigits2 q' + e1)).
  { rewrite <- C1 at 1. apply fexp_monotone.
    pose proof (Zdigits2_monotone q q' ltac:(lia)). lia. }
  (* the second step is exact *)
  set (n2 := Z.max 0 (fexp Js.prec Js.emax (Zdigits2 q' + e1) - e1)).
  assert (Hn2 : 0 <= n2) by (unfold n2; lia).
  assert (Hex2 : q' mod 2 ^ n2 = 0).
  { assert (Hc : q' = q \/ q' = q + 1) by lia.
    destruct Hc as [Hc | Hc].
    - unfold n2. rewrite Hc, C1.
      replace (Z.max 0 (e1 - e1)) with 0 by lia. apply Z.mod_1_r.
    - destruct (Zdigits2_succ q P1) as [Hs | Hs].
      + unfold n2. rewrite Hc, Hs, C1.
        replace (Z.max 0 (e1 - e1)) with 0 by lia. apply Z.mod_1_r.
      + assert (Hle : n2 <= Zdigits2 q).
        { unfold n2. rewrite fexp_binary64 in *.
          pose proof (Zdigits2_ge q 0 ltac:(lia) ltac:(change (2 ^ 0) with 1; lia)).
          pose proof (Zdigits2_monotone q q' ltac:(lia)).
          assert (Zdigits2 q' <= Zdigits2 q + 1).
          { rewrite Hc, Hs.
            destruct (Zdigits2_bounds (2 ^ Zdigits2 q)
                        ltac:(apply Z.pow_pos_nonneg; lia)) as [Lb _].
            apply Z.pow_le_mono_r_iff in Lb; lia. }
          lia. }
        rewrite Hc, Hs.
        replace (Zdigits2 q) with ((Zdigits2 q - n2) + n2) at 1 by lia.
        rewrite Z.pow_add_r by lia. apply Z.mod_mul.
        apply Z.pow_nonzero; lia. }
  pose proof (shr_fexp_positive q' e1 loc_Exact ltac:(lia) He1 Hpre') as P2.
  destruct (shr_fexp_spec q' e1 loc_Exact ltac:(lia)) as (E2 & Q2 & _).
  fold n2 in E2, Q2.
  destruct (shr_fexp Js.prec Js.emax q' e1 loc_Exact) as [mrs2 e2].
  cbn [fst snd] in P2, E2, Q2.
  destruct (shr_m mrs2) as [|m2|m2] eqn:Em2; [lia| |lia].
  destruct (e2 <=? Js.emax - Js.prec); [|reflexivity].
  split; [reflexivity|].
  assert (HP2 : 0 < 2 ^ n2) by (apply Z.pow_pos_nonneg; lia).
  assert (Hq' : q' = Z.pos m2 * 2 ^ n2).
  { pose proof (Z.div_mod q' (2 ^ n2) ltac:(lia)) as Hdm.
    rewrite Hex2, <- Q2 in Hdm. lia. }
  assert (HA : 0 < 2 ^ (ez + 1074)) by (apply Z.pow_pos_nonneg; lia).
  replace (e2 + 1074) with (n2 + (n1 + (ez + 1074))) by lia.
  rewrite !Z.pow_add_r by lia.
  replace (Z.pos m2 * (2 ^ n2 * (2 ^ n1 * 2 ^ (ez + 1074))) - Z.pos mz * 2 ^ (ez + 1074))
    with ((q' * 2 ^ n1 - Z.pos mz) * 2 ^ (ez + 1074)) by (rewrite Hq'; ring).
  rewrite Z.abs_mul, (Z.abs_eq (2 ^ (ez + 1074))) by lia.
  apply Z.lt_le_trans with (2 ^ n1 * 2 ^ (ez + 1074)).
  - apply Z.mul_lt_mono_pos_r; assumption.
  - rewrite Z.mul_assoc. apply Z.mul_le_mono_nonneg_r; [lia|].
    assert (1 <= 2 ^ n2) by lia. nia.
Qed.

(** Rounding an exact positive value that is a canonical binary64
    number gives that number. *)
Lemma binary_round_exact (p : positive) (e : Z) (mf : positive) (ef : Z) :
  -1074 <= e ->
  bounded Js.prec Js.emax mf ef = true ->
  Z.pos p * 2 ^ (e + 1074) = Z.pos mf * 2 ^ (ef + 1074) ->
  binary_round Js.prec Js.emax false p e = S754_finite false mf ef.
Proof.
  intros He Hb HV. unfold binary_round.
  destruct (bounded_inv mf ef Hb) as [Cf Bf].
  destruct (shl_align_spec p e (fexp Js.prec Js.emax (Z.pos (digits2_pos p) + e)))
    as [Ez Az].
  destruct (shl_align p e _) as [mz ez]. cbn [fst snd] in Ez, Az.
  assert (Hfe : -1074 <= fexp Js.prec Js.emax (Z.pos (digits2_pos p) + e))
    by (rewrite fexp_binary64; lia).
  assert (Hez : -1074 <= ez <= e) by lia.
  assert (Hmag : Z.pos (digits2_pos p) + e = Z.pos (digits2_pos mf) + ef).
  { pose proof (magnitude_le p e mf ef ltac:(lia) ltac:(lia) ltac:(lia)).
    pose proof (magnitude_le mf ef p e ltac:(lia) ltac:(lia) ltac:(lia)). lia. }
  rewrite Hmag, Cf in Ez.
  assert (Hzf : ez <= ef) by lia.
  assert (HVz : Z.pos mz = Z.pos mf * 2 ^ (ef - ez)).
  { assert (H1 : Z.pos mz * 2 ^ (ez + 1074) = Z.pos p * 2 ^ (e + 1074)).
    { rewrite Az. replace (Z.min e (fexp Js.prec Js.emax (Z.pos (digits2_pos p) + e)))
        with ez by (rewrite Hmag, Cf; lia).
      rewrite <- Z.mul_assoc, <- Z.pow_add_r by lia. f_equal. f_equal. lia. }
    rewrite HV in H1.
    replace (ef + 1074) with ((ef - ez) + (ez + 1074)) in H1 by lia.
    rewrite (Z.pow_add_r 2 (ef - ez)), Z.mul_assoc in H1 by lia.
    apply Z.mul_reg_r in H1; [exact H1|]. apply Z.pow_nonzero; lia. }
  assert (Hd : Zdigits2 (Z.pos mz) + ez = Z.pos (digits2_pos mf) + ef).
  { assert (Zdigits2 (Z.pos mz) = Z.pos (digits2_pos mf) + (ef - ez)); [|lia].
    apply Zdigits2_unique; [lia|]. rewrite HVz.
    destruct (digits2_pos_bounds mf) as [L U].
    assert (Hp : 0 < 2 ^ (ef - ez)) by (apply Z.pow_pos_nonneg; lia).
    replace (Z.pos (digits2_pos mf) + (ef - ez) - 1)
      with (Z.pos (digits2_pos mf) - 1 + (ef - ez)) by lia.
    rewrite !Z.pow_add_r by lia. nia. }
  unfold binary_round_aux.
  destruct (shr_fexp_spec (Z.pos mz) ez loc_Exact ltac:(lia)) as (E1 & Q1 & X1).
  specialize (X1 eq_refl). rewrite Hd, Cf in E1, Q1, X1.
  replace (Z.max 0 (ef - ez)) with (ef - ez) in E1, Q1, X1 by lia.
  assert (Hnz : 2 ^ (ef - ez) <> 0) by (apply Z.pow_nonzero; lia).
  assert (Hdiv : Z.pos mz / 2 ^ (ef - ez) = Z.pos mf)
    by (rewrite HVz; now apply Z.div_mul).
  assert (Hmod : Z.pos mz mod 2 ^ (ef - ez) = 0)
    by (rewrite HVz; now apply Z.mod_mul).
  rewrite Hdiv in Q1. specialize (X1 Hmod).
  destruct (shr_fexp Js.prec Js.emax (Z.pos mz) ez loc_Exact) as [mrs1 e1].
  cbn [fst snd] in E1, Q1, X1.
  rewrite X1, Q1. cbn [round_nearest_even].
  replace e1 with ef by lia.
  destruct (shr_fexp_spec (Z.pos mf) ef loc_Exact ltac:(lia)) as (E2 & Q2 & _).
  cbn [Zdigits2] in E2, Q2. rewrite Cf in E2, Q2.
  replace (Z.max 0 (ef - ef)) with 0 in E2, Q2 by lia.
  rewrite Z.pow_0_r, Z.div_1_r in Q2.
  destruct (shr_fexp Js.prec Js.emax (Z.pos mf) ef loc_Exact) as [mrs2 e2].
  cbn [fst snd] in E2, Q2. rewrite Q2.
  replace (e2 <=? Js.emax - Js.prec) with true
    by (symmetry; apply Z.leb_le; unfold Js.emax, Js.prec; lia).
  f_equal. lia.
Qed.

(** The exact difference, in units, of two finite numbers [0 <= m <= o],
    read on their aligned mantissas. *)
Lemma units_difference (mo : positive) (eo : Z) (mm : positive) (em : Z) :
  -1074 <= em <= eo ->
  Js.units (S754_finite false mo eo) - Js.units (S754_finite false mm em)
    = (Z.pos mo * 2 ^ (eo - em) - Z.pos mm) * 2 ^ (em + 1074).
Proof.
  intros H. cbn [Js.units].
  replace (eo + 1074) with ((eo - em) + (em + 1074)) by lia.
  rewrite (Z.pow_add_r 2 (eo - em)) by lia. ring.
Qed.

(** The binary64 difference of finite [0 <= m <= o] against the real
    one: it is finite; it is the real difference when that is a binary64
    number; and it is always less than one unit in its last place away. *)
Lemma sub_rounding (o m : Js.number) :
  Js.wellFormed o = true -> Js.wellFormed m = true ->
  Js.isFinite o = true -> Js.isFinite m = true ->
  Js.le Js.zero m = true -> Js.le m o = true ->
  Js.isFinite (Js.sub o m) = true
  /\ (forall f, Js.wellFormed f = true -> Js.isFinite f = true ->
        Js.units f = Js.units o - Js.units m ->
        Js.units (Js.sub o m) = Js.units o - Js.units m)
  /\ Z.abs (Js.units (Js.sub o m) - (Js.units o - Js.units m)) < Js.ulpUnits (Js.sub o m).
Proof.
  intros Vo Vm Fo Fm H0 Hle.
  destruct (sub_between o m Vo Vm Fo Fm H0 Hle) as [B0 B1].
  assert (Ffin : Js.isFinite (Js.sub o m) = true).
  { destruct (Js.sub o m) as [s|[]| |s mr er]; try reflexivity;
      destruct o; try discriminate; try destruct s; discriminate. }
  split; [exact Ffin|]. clear B0 B1.
  unfold Js.wellFormed, Js.le, Js.zero in *.
  destruct o as [so| | |so mo eo], m as [sm| | |sm mm em]; try discriminate.
  - split; [intros; now destruct so, sm | now destruct so, sm].
  - destruct sm; discriminate.
  - destruct so; [discriminate|]. unfold Js.sub. cbn [SFsub Js.units Js.ulpUnits].
    cbn [valid_binary] in Vo. destruct (bounded_inv mo eo Vo) as [_ Bo].
    split; [intros; lia|].
    rewrite Z.sub_0_r, Z.sub_diag. cbn [Z.abs]. apply Z.pow_pos_nonneg; lia.
  - destruct sm; [discriminate|]. destruct so; [discriminate|].
    cbn [valid_binary] in Vo, Vm.
    destruct (bounded_inv mo eo Vo) as [Co Bo].
    destruct (bounded_inv mm em Vm) as [Cm Bm].
    assert (Hord : em <= eo).
    { unfold SFleb, SFcompare in Hle.
      destruct (Z.compare_spec em eo) as [E|E|E]; [lia|lia|discriminate]. }
    rewrite (units_difference mo eo mm em ltac:(lia)).
    revert Ffin. unfold Js.sub. cbn [SFsub cond_Zopp].
    replace (Z.min eo em) with em by lia.
    destruct (shl_align_spec mo eo em) as [_ Ao].
    destruct (shl_align_spec mm em em) as [_ Am].
    replace (Z.min eo em) with em in Ao by lia.
    rewrite Z.min_id, Z.sub_diag, Z.pow_0_r, Z.mul_1_r in Am.
    rewrite Ao, Am.
    destruct (Z.pos mo * 2 ^ (eo - em) - Z.pos mm) as [|d|d] eqn:Ed.
    + cbn [binary_normalize Js.units Js.ulpUnits]. intros _.
      split; [intros; lia | cbn; lia].
    + cbn [binary_normalize]. intros Ffin.
      pose proof (binary_round_error d em ltac:(lia)) as Herr.
      split.
      * intros f Vf Ff Uf.
        assert (Hpos : 0 < Z.pos d * 2 ^ (em + 1074)).
        { apply Z.mul_pos_pos; [lia|]. apply Z.pow_pos_nonneg; lia. }
        destruct f as [sf| | |sf mf ef]; try discriminate; cbn [Js.units] in Uf; [lia|].
        destruct sf; [lia|]. cbn [valid_binary] in Vf.
        rewrite (binary_round_exact d em mf ef ltac:(lia) Vf) by lia.
        cbn [Js.units]. lia.
      * destruct (binary_round Js.prec Js.emax false d em) as [s|s| |s m2 e2];
          try discriminate; try contradiction.
        destruct Herr as [-> Herr]. cbn [Js.units Js.ulpUnits].
        rewrite Z.mul_1_l. exact Herr.
    + (* a negative difference of mantissas contradicts m <= o *)
      exfalso.
      assert (Hge : Z.pos mm <= Z.pos mo * 2 ^ (eo - em)); [|lia].
      rewrite fexp_binary64 in Co, Cm.
      pose proof (digits2_pos_bounds mo) as Do.
      pose proof (digits2_pos_bounds mm) as Dm.
      unfold SFleb, SFcompare in Hle.
      destruct (Z.compare_spec em eo) as [E|E|E]; [| |discriminate].
      * subst em. rewrite Z.sub_diag, Z.pow_0_r, Z.mul_1_r.
        change (Pos.compare_cont Eq mm mo) with (Pos.compare mm mo) in Hle.
        destruct (Pos.compare_spec mm mo); [subst; lia|lia|discriminate].
      * assert (Hdo : Z.pos (digits2_pos mo) = 53) by lia.
        assert (Hdm : Z.pos (digits2_pos mm) <= 53) by lia.
        rewrite Hdo in Do. change (2 ^ (53 - 1)) with 4503599627370496 in Do.
        assert (Z.pos mm < 2 ^ 53).
        { eapply Z.lt_le_trans; [apply Dm|]. apply Z.pow_le_mono_r; lia. }
        assert (2 <= 2 ^ (eo - em)).
        { change 2 with (2 ^ 1) at 1. apply Z.pow_le_mono_r; lia. }
        change (2 ^ 53) with 9007199254740992 in *. nia.
Qed.

(** The remaining size of a record with valid sizes. *)
Lemma normalize_sizes (defaultStatus : string) (t : Js.number) (raw : OpenOrder.t) :
  Spec.validSizes raw = true ->
  Spec.sizeInvariant raw (TradingClient.normalize defaultStatus t raw).
Proof.
  unfold Spec.validSizes, Spec.sizeInvariant, Spec.sizeExact, Spec.differenceRepresentable,
    Spec.exactDifference, TradingClient.normalize.
  cbn [Order.raw Order.originalSize Order.size].
  fold (Spec.originalSize raw). fold (Spec.matchedSize raw).
  intros H.
  apply andb_prop in H. destruct H as [H Hle].
  apply andb_prop in H. destruct H as [H H0].
  apply andb_prop in H. destruct H as [Fo Fm].
  destruct (sub_between (Spec.originalSize raw) (Spec.matchedSize raw)
              (parseFloat_wellFormed _) (parseFloat_wellFormed _) Fo Fm H0 Hle)
    as [Lo Hi].
  destruct (sub_rounding (Spec.originalSize raw) (Spec.matchedSize raw)
              (parseFloat_wellFormed _) (parseFloat_wellFormed _) Fo Fm H0 Hle)
    as (Ff & Hex & Herr).
  repeat split; try assumption.
  intros (f & Vf & Ff' & Uf). exact (Hex f Vf Ff' Uf).
Qed.

Lemma Forall2_map_r {A B} (P : A -> B -> Prop) (f : A -> B) (l : list A) :
  (forall x, P x (f x)) -> Forall2 P l (map f l).
Proof. intros H. induction l; cbn; constructor; auto. Qed.

(** C5, as stated, fails: the normalized size is not always the
    difference exactly. For the record with [original_size] 2^53
    (["9007199254740992"]) and [size_matched] ["0.5"] the sizes are valid,
    [0 <= 0.5 <= 2^53], yet the order returned by [getOrder] has [size]
    equal to 2^53, the original size itself: 2^53 - 0.5 is not a binary64
    number and the subtraction rounds it. *)
Lemma C5_rounded_difference_counterexample :
  Spec.validSizes Fixture.roundedOrder = true
  /\ Spec.originalSize Fixture.roundedOrder = S754_finite false 4503599627370496 1
  /\ Spec.matchedSize Fixture.roundedOrder = S754_finite false 4503599627370496 (-53)
  /\ exists o,
       snd (TradingClient.getOrder Fixture.client "O5" Sample.world) = Return (Some o)
       /\ Order.size o = S754_finite false 4503599627370496 1
       /\ Order.size o = Order.originalSize o
       /\ ~ Spec.sizeExact Fixture.roundedOrder o.
Proof.
  split; [vm_compute; reflexivity|].
  split; [vm_compute; reflexivity|].
  split; [vm_compute; reflexivity|].
  eexists. split; [reflexivity|].
  split; [vm_compute; reflexivity|].
  split; [vm_compute; reflexivity|].
  unfold Spec.sizeExact, Spec.exactDifference. vm_compute. discriminate.
Qed.

(** C5 (amended): for every exchange record whose size fields are valid
    numbers with [0 <= matchedSize <= originalSize], the order normalized
    by [getOpenOrders] and by [getOrder] has a finite [size] with
    [0 <= size <= originalSize]; [size] equals [originalSize - matchedSize]
    exactly whenever that difference is itself a binary64 number, and is
    always less than one unit in the last place of [size] away from it. *)
Theorem C5_remaining_size (this : TradingClient.t) (address : option string)
    (orderId : string) (w : World) :
  let gw := ClobClient.gateway (TradingClient.client this) in
  (forall response, Gateway.getOpenOrders gw = Return response ->
     exists orders,
       snd (TradingClient.getOpenOrders this address w) = Return orders
       /\ Forall2 (fun raw o => Spec.validSizes raw = true -> Spec.sizeInvariant raw o)
            response orders)
  /\ (forall raw, orderId <> "" -> Gateway.getOrder gw orderId = Return (Some raw) ->
     exists o,
       snd (TradingClient.getOrder this orderId w) = Return (Some o)
       /\ (Spec.validSizes raw = true -> Spec.sizeInvariant raw o)).
Proof.
  cbv zeta. split.
  - intros response Hg. rewrite getOpenOrders_run, Hg. cbn [snd].
    eexists. split; [reflexivity|].
    apply Forall2_map_r. intros raw. apply normalize_sizes.
  - intros raw Hne Hg. rewrite (getOrder_run this orderId w Hne), Hg. cbn [snd].
    eexists. split; [reflexivity|]. apply normalize_sizes.
Qed.

(** The record with sizes ["10"] and ["2.5"]: the returned order has
    original size 10 and size 7.5, which is the exact difference. *)
Lemma C5_remaining_size_witness :
  exists o,
    snd (TradingClient.getOrder Sample.client "O1" Sample.world) = Return (Some o)
    /\ Spec.sizeInvariant Sample.rawOrder o
    /\ Order.originalSize o = S754_finite false 5629499534213120 (-49)
    /\ Order.size o = S754_finite false 8444249301319680 (-50)
    /\ Spec.sizeExact Sample.rawOrder o.
Proof.
  destruct (proj2 (C5_remaining_size Sample.client None "O1" Sample.world) Sample.rawOrder)
    as (o & E & H); [discriminate | reflexivity |].
  specialize (H ltac:(vm_compute; reflexivity)).
  exists o. split; [exact E|]. split; [exact H|].
  destruct H as (_ & _ & _ & _ & _ & Hex & _).
  injection E as <-.
  split; [vm_compute; reflexivity|]. split; [vm_compute; reflexivity|].
  apply Hex. exists (S754_finite false 8444249301319680 (-50)).
  repeat split; vm_compute; reflexivity.
Defined.

(** The difference is the binary64 one: [0.3 - 0.1] is
    [0.19999999999999998]. *)
Example remaining_size_binary64 :
  Js.sub (Js.parseFloat "0.3") (Js.parseFloat "0.1") = Js.parseFloat "0.19999999999999998"
  /\ Js.parseFloat "0.19999999999999998" <> Js.parseFloat "0.2".
Proof. split; [vm_compute; reflexivity | vm_compute; discriminate]. Qed.

(** C2, as stated, fails: a record whose [original_size] is not a
    number and whose [price] and [size_matched] are missing is normalized
    without an error, by [getOrder] and by [getOpenOrders]; the missing
    size is read as 0 and the unparseable fields become NaN. *)
Lemma C2_unparseable_counterexample :
  Spec.unparseable (OpenOrder.original_size Sample.malformedOrder) = true
  /\ Spec.unparseable (OpenOrder.price Sample.malformedOrder) = true
  /\ OpenOrder.size_matched Sample.malformedOrder = None
  /\ ~ rejected (snd (TradingClient.getOrder Sample.client "O2" Sample.world))
  /\ ~ rejected (snd (TradingClient.getOpenOrders Sample.client None Sample.world))
  /\ snd (TradingClient.getOrder Sample.client "O2" Sample.world)
     = Return (Some (Order.make "O2" "T1" "SELL" Js.NaN Js.NaN Js.NaN "unknown"
                       (now Sample.world) Sample.malformedOrder))
  /\ Spec.matchedSize Sample.malformedOrder = Js.zero.
Proof.
  repeat split; try reflexivity; intros [e H]; discriminate H.
Qed.

(** C2 (amended): normalization never fails. Whenever the gateway
    answers, [getOpenOrders] and [getOrder] return the normalized orders.
    A missing or empty size field is read as ["0"] and counts as 0; size
    text that does not parse gives NaN as [originalSize], and NaN as
    [size] for either size field; a missing or unparseable price gives
    NaN as [price]. *)
Theorem C2_normalization_total (this : TradingClient.t) (address : option string)
    (orderId : string) (w : World) :
  let gw := ClobClient.gateway (TradingClient.client this) in
  (forall response, Gateway.getOpenOrders gw = Return response ->
     snd (TradingClient.getOpenOrders this address w)
       = Return (map (TradingClient.normalize "open" (now w)) response))
  /\ (forall raw, orderId <> "" -> Gateway.getOrder gw orderId = Return (Some raw) ->
     snd (TradingClient.getOrder this orderId w)
       = Return (Some (TradingClient.normalize "unknown" (now w) raw)))
  /\ (forall d t raw,
        let o := TradingClient.normalize d t raw in
        (Js.truthyOptStr (OpenOrder.original_size raw) = false ->
           Order.originalSize o = Js.zero)
        /\ (Js.truthyOptStr (OpenOrder.size_matched raw) = false ->
           Order.size o = Js.sub (Order.originalSize o) Js.zero)
        /\ (Spec.originalSize raw = Js.NaN ->
           Order.originalSize o = Js.NaN /\ Order.size o = Js.NaN)
        /\ (Spec.matchedSize raw = Js.NaN -> Order.size o = Js.NaN)
        /\ (Spec.unparseable (OpenOrder.price raw) = true -> Order.price o = Js.NaN)).
Proof.
  cbv zeta. split; [|split].
  - intros response Hg. now rewrite getOpenOrders_run, Hg.
  - intros raw Hne Hg. now rewrite (getOrder_run this orderId w Hne), Hg.
  - intros d t raw. unfold TradingClient.normalize.
    cbn [Order.originalSize Order.size Order.price].
    fold (Spec.originalSize raw). fold (Spec.matchedSize raw).
    repeat split.
    + unfold Spec.originalSize. destruct (OpenOrder.original_size raw) as [[|c s]|];
        try discriminate; reflexivity.
    + unfold Spec.matchedSize. destruct (OpenOrder.size_matched raw) as [[|c s]|];
        try discriminate; reflexivity.
    + assumption.
    + rewrite H. reflexivity.
    + intros ->. apply sub_NaN_r.
    + unfold Spec.unparseable.
      destruct (Js.parseFloat (Js.toStringOpt (OpenOrder.price raw)));
        try discriminate; reflexivity.
Qed.

Lemma C2_normalization_total_witness :
  snd (TradingClient.getOrder Sample.client "O2" Sample.world)
    = Return (Some (TradingClient.normalize "unknown" (now Sample.world)
                      Sample.malformedOrder))
  /\ Order.size (TradingClient.normalize "unknown" (now Sample.world) Sample.malformedOrder)
     = Js.NaN.
Proof.
  pose proof (C2_normalization_total Sample.client None "O2" Sample.world) as (_ & H2 & H3).
  split.
  - apply H2; [discriminate | reflexivity].
  - apply (H3 "unknown" (now Sample.world) Sample.malformedOrder). reflexivity.
Defined.

(* ================================================================== *)
(** ** placeOrder: validation, what is sent, what comes back *)
(* ================================================================== *)

(** Every path of [placeOrder]. *)
Lemma placeOrder_run (this : TradingClient.t) (params : PlaceOrderParams.t) (w : World) :
  TradingClient.placeOrder this params w =
    if negb (Js.truthyStr (PlaceOrderParams.tokenId params)) then
      (w, Throw (Error "Failed to place order: tokenId is required"))
    else if negb (TradingClient.sideOk (PlaceOrderParams.side params)) then
      (w, Throw (Error "Failed to place order: side must be 'BUY' or 'SELL'"))
    else if TradingClient.priceRejected (PlaceOrderParams.price params) then
      (w, Throw (Error ("Failed to place order: " ++ TradingClient.priceMessage)))
    else if TradingClient.sizeRejected (PlaceOrderParams.size params) then
      (w, Throw (Error "Failed to place order: size must be greater than 0"))
    else
      (called (CallCreateAndPostOrder (TradingClient.wireOrder params)) w,
       match Gateway.createAndPostOrder (ClobClient.gateway (TradingClient.client this))
               (TradingClient.wireOrder params) with
       | Return response =>
           Return (PlacedOrder.make
                     (Js.orOptStr (OrderResponse.orderID response)
                        (OrderResponse.id response))
                     (Js.orStr (OrderResponse.status response) "success"))
       | Throw e => Throw (Error ("Failed to place order: " ++ message e))
       end).
Proof.
  unfold TradingClient.placeOrder.
  destruct (Js.truthyStr (PlaceOrderParams.tokenId params)); [|reflexivity].
  destruct (TradingClient.sideOk (PlaceOrderParams.side params)); [|reflexivity].
  destruct (TradingClient.priceRejected (PlaceOrderParams.price params)); [reflexivity|].
  destruct (TradingClient.sizeRejected (PlaceOrderParams.size params)); [reflexivity|].
  cbn [negb throwIf]. unfold tryCatch, bind, ret, throw, await, called. cbn.
  now destruct (Gateway.createAndPostOrder _ _).
Qed.

Lemma truthyStr_empty (s : string) : Js.truthyStr s = false -> s = "".
Proof. destruct s; [reflexivity | discriminate]. Qed.

(** X1: the guards of [placeOrder] are tried in the order token id, side,
    price, size; the first one that fails decides the error, and the world
    with its record of gateway calls is left as it was. *)
Theorem X1_placeOrder_validation_order
    (this : TradingClient.t) (params : PlaceOrderParams.t) (w : World) :
  (PlaceOrderParams.tokenId params = "" ->
     TradingClient.placeOrder this params w
       = (w, Throw (Error "Failed to place order: tokenId is required")))
  /\ (PlaceOrderParams.tokenId params <> "" ->
      TradingClient.sideOk (PlaceOrderParams.side params) = false ->
      TradingClient.placeOrder this params w
        = (w, Throw (Error "Failed to place order: side must be 'BUY' or 'SELL'")))
  /\ (PlaceOrderParams.tokenId params <> "" ->
      TradingClient.sideOk (PlaceOrderParams.side params) = true ->
      TradingClient.priceRejected (PlaceOrderParams.price params) = true ->
      TradingClient.placeOrder this params w
        = (w, Throw (Error ("Failed to place order: " ++ TradingClient.priceMessage))))
  /\ (PlaceOrderParams.tokenId params <> "" ->
      TradingClient.sideOk (PlaceOrderParams.side params) = true ->
      TradingClient.priceRejected (PlaceOrderParams.price params) = false ->
      TradingClient.sizeRejected (PlaceOrderParams.size params) = true ->
      TradingClient.placeOrder this params w
        = (w, Throw (Error "Failed to place order: size must be greater than 0"))).
Proof.
  rewrite placeOrder_run. repeat split.
  - now intros ->.
  - intros Ht Hs. now rewrite (truthyStr_nonempty _ Ht), Hs.
  - intros Ht Hs Hp. now rewrite (truthyStr_nonempty _ Ht), Hs, Hp.
  - intros Ht Hs Hp Hz. now rewrite (truthyStr_nonempty _ Ht), Hs, Hp, Hz.
Qed.

Lemma X1_placeOrder_validation_order_witness :
  TradingClient.placeOrder Sample.client
    (PlaceOrderParams.make "" "HOLD" Js.NaN Js.zero None None) Sample.world
    = (Sample.world, Throw (Error "Failed to place order: tokenId is required"))
  /\ TradingClient.placeOrder Sample.client
       (PlaceOrderParams.make "T1" "buy" Js.NaN Js.zero None None) Sample.world
     = (Sample.world, Throw (Error "Failed to place order: side must be 'BUY' or 'SELL'"))
  /\ TradingClient.placeOrder Sample.client
       (PlaceOrderParams.make "T1" "BUY" Js.NaN Js.zero None None) Sample.world
     = (Sample.world,
        Throw (Error ("Failed to place order: " ++ TradingClient.priceMessage)))
  /\ TradingClient.placeOrder Sample.client
       (PlaceOrderParams.make "T1" "BUY" (Js.parseFloat "0.5") Js.zero None None)
       Sample.world
     = (Sample.world, Throw (Error "Failed to place order: size must be greater than 0")).
Proof.
  split; [|split; [|split]].
  - apply (X1_placeOrder_validation_order Sample.client
             (PlaceOrderParams.make "" "HOLD" Js.NaN Js.zero None None) Sample.world).
    reflexivity.
  - apply (X1_placeOrder_validation_order Sample.client
             (PlaceOrderParams.make "T1" "buy" Js.NaN Js.zero None None) Sample.world);
      [discriminate | reflexivity].
  - apply (X1_placeOrder_validation_order Sample.client
             (PlaceOrderParams.make "T1" "BUY" Js.NaN Js.zero None None) Sample.world);
      [discriminate | reflexivity | reflexivity].
  - apply (X1_placeOrder_validation_order Sample.client
             (PlaceOrderParams.make "T1" "BUY" (Js.parseFloat "0.5") Js.zero None None)
             Sample.world);
      [discriminate | reflexivity | reflexivity | reflexivity].
Defined.

(** X2: [placeOrder] calls the gateway exactly when the four guards
    pass, and then exactly once, with the wire order of the request; when
    a guard fails nothing is sent and the call fails. *)
Theorem X2_placeOrder_gateway_call
    (this : TradingClient.t) (params : PlaceOrderParams.t) (w : World) :
  let valid :=
    (Js.truthyStr (PlaceOrderParams.tokenId params)
     && TradingClient.sideOk (PlaceOrderParams.side params)
     && negb (TradingClient.priceRejected (PlaceOrderParams.price params))
     && negb (TradingClient.sizeRejected (PlaceOrderParams.size params)))%bool in
  calls (fst (TradingClient.placeOrder this params w))
    = (if valid
       then CallCreateAndPostOrder (TradingClient.wireOrder params) :: calls w
       else calls w)
  /\ (if valid then True else rejected (snd (TradingClient.placeOrder this params w))).
Proof.
  cbv zeta. rewrite placeOrder_run.
  destruct (Js.truthyStr (PlaceOrderParams.tokenId params));
    [|split; [reflexivity | eexists; reflexivity]].
  destruct (TradingClient.sideOk (PlaceOrderParams.side params));
    [|split; [reflexivity | eexists; reflexivity]].
  destruct (TradingClient.priceRejected (PlaceOrderParams.price params));
    [split; [reflexivity | eexists; reflexivity]|].
  destruct (TradingClient.sizeRejected (PlaceOrderParams.size params));
    [split; [reflexivity | eexists; reflexivity]|].
  split; [reflexivity | exact I].
Qed.

(** Comparing the other way round gives the opposite answer. *)
Lemma SFcompare_antisym (a b : spec_float) :
  SFcompare b a = option_map CompOpp (SFcompare a b).
Proof.
  destruct a as [sa|sa| |sa ma ea], b as [sb|sb| |sb mb eb]; cbn;
    try reflexivity; try (now destruct sa); try (now destruct sb);
    try (now destruct sa, sb).
  f_equal.
  change (Pos.compare_cont Eq mb ma) with (Pos.compare mb ma).
  change (Pos.compare_cont Eq ma mb) with (Pos.compare ma mb).
  rewrite (Z.compare_antisym ea eb), (Pos.compare_antisym ma mb).
  destruct sa, sb; try reflexivity;
    destruct (ea ?= eb); cbn; try reflexivity;
    destruct (ma ?= mb)%positive; reflexivity.
Qed.

(** Between two numbers that are not NaN, [a <= b] is false exactly when
    [b < a]. *)
Lemma leb_false_ltb (a b : spec_float) :
  a <> S754_nan -> b <> S754_nan ->
  (SFleb a b = false <-> SFltb b a = true).
Proof.
  intros Ha Hb. unfold SFleb, SFltb. rewrite (SFcompare_antisym a b).
  destruct (SFcompare a b) as [[| |]|] eqn:E; cbn; try (split; congruence).
  destruct a, b; cbn in E; try congruence; destruct s; try destruct s0; discriminate.
Qed.

Lemma ltb_not_nan (a b : spec_float) :
  SFltb a b = true -> a <> S754_nan /\ b <> S754_nan.
Proof.
  unfold SFltb. destruct a, b; cbn; try discriminate; split; discriminate.
Qed.

(** X3: the price guard accepts exactly the numbers strictly between 0
    and 1, and the size guard exactly the numbers above 0 (the positive
    infinity included); NaN never passes. *)
Theorem X3_placeOrder_guards_exact (x : Js.number) :
  (TradingClient.priceRejected x = false <-> numLt Js.zero x = true /\ numLt x Js.one = true)
  /\ (TradingClient.sizeRejected x = false <-> numLt Js.zero x = true)
  /\ TradingClient.priceRejected Js.NaN = true
  /\ TradingClient.sizeRejected Js.NaN = true
  /\ TradingClient.sizeRejected (S754_infinity false) = false.
Proof.
  assert (Hz : Js.zero <> S754_nan) by discriminate.
  assert (Ho : Js.one <> S754_nan) by discriminate.
  assert (Hpos : numLt Js.zero x = true -> Js.truthyNum x = true).
  { unfold numLt, SFltb. destruct x as [s|s| |s m e]; cbn; try discriminate; trivial. }
  unfold TradingClient.priceRejected, TradingClient.sizeRejected, Js.le, Js.ge, numLt.
  split; [split|split; [split|repeat split]].
  - intros H. apply orb_false_elim in H. destruct H as [H H1].
    apply orb_false_elim in H. destruct H as [Ht H0].
    assert (Hx : x <> S754_nan) by (intros ->; discriminate).
    split; now apply leb_false_ltb.
  - intros [H0 H1].
    destruct (ltb_not_nan _ _ H0) as [_ Hx].
    rewrite (Hpos H0). cbn [negb orb].
    apply leb_false_ltb in H0; [|exact Hx|exact Hz].
    apply leb_false_ltb in H1; [|exact Ho|exact Hx].
    now rewrite H0, H1.
  - intros H. apply orb_false_elim in H. destruct H as [Ht H0].
    assert (Hx : x <> S754_nan) by (intros ->; discriminate).
    now apply leb_false_ltb.
  - intros H0.
    destruct (ltb_not_nan _ _ H0) as [_ Hx].
    rewrite (Hpos H0). cbn [negb orb].
    now apply leb_false_ltb in H0.
Qed.

(** X4: for a request that passes validation, the order handed to the
    gateway carries the token id, price and size of the request, the side
    as the gateway's enum, and the expiration and the nonce only when they
    are given and truthy: a value of 0 or NaN is left out. *)
Theorem X4_placeOrder_wire_order
    (this : TradingClient.t) (params : PlaceOrderParams.t) (w : World) :
  PlaceOrderParams.tokenId params <> "" ->
  TradingClient.sideOk (PlaceOrderParams.side params) = true ->
  TradingClient.priceRejected (PlaceOrderParams.price params) = false ->
  TradingClient.sizeRejected (PlaceOrderParams.size params) = false ->
  exists o,
    calls (fst (TradingClient.placeOrder this params w))
      = CallCreateAndPostOrder o :: calls w
    /\ UserOrder.tokenID o = PlaceOrderParams.tokenId params
    /\ (PlaceOrderParams.side params = "BUY" -> UserOrder.side o = BUY)
    /\ (PlaceOrderParams.side params = "SELL" -> UserOrder.side o = SELL)
    /\ UserOrder.price o = PlaceOrderParams.price params
    /\ UserOrder.size o = PlaceOrderParams.size params
    /\ UserOrder.expiration o
       = match PlaceOrderParams.expiration params with
         | Some x => if Js.truthyNum x then Some x else None
         | None => None
         end
    /\ UserOrder.nonce o
       = match PlaceOrderParams.nonce params with
         | Some x => if Js.truthyNum x then Some x else None
         | None => None
         end.
Proof.
  intros Ht Hs Hp Hz. exists (TradingClient.wireOrder params).
  rewrite placeOrder_run, (truthyStr_nonempty _ Ht), Hs, Hp, Hz. cbn [negb fst called calls].
  unfold TradingClient.wireOrder, TradingClient.spreadIfTruthy, Js.truthyOptNum.
  cbn [UserOrder.tokenID UserOrder.side UserOrder.price UserOrder.size
       UserOrder.expiration UserOrder.nonce].
  repeat split.
  - now intros ->.
  - now intros ->.
  - now destruct (PlaceOrderParams.expiration params).
  - now destruct (PlaceOrderParams.nonce params).
Qed.

Lemma X4_placeOrder_wire_order_witness :
  calls (fst (TradingClient.placeOrder Fixture.client Fixture.sellParams Sample.world))
    = [CallCreateAndPostOrder
         (UserOrder.make "T1" SELL (Js.parseFloat "0.65") (Js.parseFloat "10")
            None (Some (Js.ofZ 7)))].
Proof.
  destruct (X4_placeOrder_wire_order Fixture.client Fixture.sellParams Sample.world)
    as (o & Hc & Ht & _ & Hs & Hp & Hz & He & Hn);
    [discriminate | reflexivity | reflexivity | reflexivity |].
  rewrite Hc. destruct o as [t s p z e n].
  cbn [UserOrder.tokenID UserOrder.side UserOrder.price UserOrder.size
       UserOrder.expiration UserOrder.nonce] in *.
  rewrite Ht, (Hs eq_refl), Hp, Hz, He, Hn. reflexivity.
Defined.

Lemma X3_placeOrder_guards_exact_witness :
  TradingClient.priceRejected (Js.parseFloat "0.65") = false
  /\ TradingClient.sizeRejected (Js.parseFloat "10") = false
  /\ numLt Js.zero (Js.parseFloat "0.65") = true.
Proof.
  split; [|split].
  - apply (proj1 (X3_placeOrder_guards_exact (Js.parseFloat "0.65"))).
    split; vm_compute; reflexivity.
  - apply (proj1 (proj2 (X3_placeOrder_guards_exact (Js.parseFloat "10")))).
    vm_compute; reflexivity.
  - apply (proj1 (X3_placeOrder_guards_exact (Js.parseFloat "0.65"))).
    vm_compute; reflexivity.
Defined.

(* ================================================================== *)
(** ** Every path of the other methods *)
(* ================================================================== *)

Lemma cancelOrder_run (this : TradingClient.t) (orderId : string) (w : World) :
  TradingClient.cancelOrder this orderId w =
    if Js.truthyStr orderId then
      (called (CallCancelOrder orderId) w,
       match Gateway.cancelOrder (ClobClient.gateway (TradingClient.client this)) orderId with
       | Return u => Return u
       | Throw e => Throw (Error ("Failed to cancel order: " ++ message e))
       end)
    else (w, Throw (Error "Failed to cancel order: orderId is required")).
Proof.
  unfold TradingClient.cancelOrder.
  destruct (Js.truthyStr orderId); [|reflexivity].
  cbn [negb throwIf]. unfold tryCatch, bind, ret, throw, await, called. cbn.
  now destruct (Gateway.cancelOrder _ _).
Qed.

Lemma cancelOrders_run (this : TradingClient.t) (orderIds : option (list string))
    (w : World) :
  TradingClient.cancelOrders this orderIds w =
    match orderIds with
    | Some (i :: ids) =>
        (called (CallCancelOrders (i :: ids)) w,
         match Gateway.cancelOrders (ClobClient.gateway (TradingClient.client this))
                 (i :: ids) with
         | Return u => Return u
         | Throw e => Throw (Error ("Failed to cancel orders: " ++ message e))
         end)
    | _ => (w, Throw (Error "Failed to cancel orders: orderIds array is required"))
    end.
Proof.
  unfold TradingClient.cancelOrders.
  destruct orderIds as [[|i ids]|]; try reflexivity.
  unfold tryCatch, await, throw, called. cbn.
  now destruct (Gateway.cancelOrders _ _).
Qed.

Lemma getOrder_full_run (this : TradingClient.t) (orderId : string) (w : World) :
  TradingClient.getOrder this orderId w =
    if Js.truthyStr orderId then
      (called (CallGetOrder orderId) w,
       match Gateway.getOrder (ClobClient.gateway (TradingClient.client this)) orderId with
       | Return None => Return None
       | Return (Some order) =>
           Return (Some (TradingClient.normalize "unknown" (now w) order))
       | Throw e => Throw (Error ("Failed to get order: " ++ message e))
       end)
    else (w, Throw (Error "Failed to get order: orderId is required")).
Proof.
  destruct (Js.truthyStr orderId) eqn:E.
  - apply getOrder_run. intros ->. discriminate.
  - unfold TradingClient.getOrder. rewrite E. reflexivity.
Qed.

Lemma prefix_app (s t : string) : String.prefix s (s ++ t) = true.
Proof.
  induction s as [|a s IH]; cbn; [now destruct t|].
  destruct (ascii_dec a a); [exact IH | congruence].
Qed.

(** X5: whatever makes a method fail, a guard of its own or the
    gateway, the error it throws begins with the method's own context:
    ["Failed to place order: "], ["Failed to cancel order: "],
    ["Failed to cancel orders: "], ["Failed to get open orders: "] or
    ["Failed to get order: "]. *)
Theorem X5_errors_carry_context (this : TradingClient.t) (w : World) :
  (forall params e,
     snd (TradingClient.placeOrder this params w) = Throw e ->
     String.prefix "Failed to place order: " (message e) = true)
  /\ (forall orderId e,
     snd (TradingClient.cancelOrder this orderId w) = Throw e ->
     String.prefix "Failed to cancel order: " (message e) = true)
  /\ (forall orderIds e,
     snd (TradingClient.cancelOrders this orderIds w) = Throw e ->
     String.prefix "Failed to cancel orders: " (message e) = true)
  /\ (forall address e,
     snd (TradingClient.getOpenOrders this address w) = Throw e ->
     String.prefix "Failed to get open orders: " (message e) = true)
  /\ (forall orderId e,
     snd (TradingClient.getOrder this orderId w) = Throw e ->
     String.prefix "Failed to get order: " (message e) = true).
Proof.
  split; [|split; [|split; [|split]]].
  - intros params e. rewrite placeOrder_run.
    destruct (negb _); [intros [= <-]; reflexivity|].
    destruct (negb _); [intros [= <-]; reflexivity|].
    destruct (TradingClient.priceRejected _); [intros [= <-]; reflexivity|].
    destruct (TradingClient.sizeRejected _); [intros [= <-]; reflexivity|].
    cbn [snd]. destruct (Gateway.createAndPostOrder _ _); [discriminate|].
    intros [= <-]. exact (prefix_app "Failed to place order: " _).
  - intros orderId e. rewrite cancelOrder_run.
    destruct (Js.truthyStr orderId); [|intros [= <-]; reflexivity].
    cbn [snd]. destruct (Gateway.cancelOrder _ _); [discriminate|].
    intros [= <-]. exact (prefix_app "Failed to cancel order: " _).
  - intros orderIds e. rewrite cancelOrders_run.
    destruct orderIds as [[|i ids]|]; try (intros [= <-]; reflexivity).
    cbn [snd]. destruct (Gateway.cancelOrders _ _); [discriminate|].
    intros [= <-]. exact (prefix_app "Failed to cancel orders: " _).
  - intros address e. rewrite getOpenOrders_run. cbn [snd].
    destruct (Gateway.getOpenOrders _); [discriminate|].
    intros [= <-]. exact (prefix_app "Failed to get open orders: " _).
  - intros orderId e. rewrite getOrder_full_run.
    destruct (Js.truthyStr orderId); [|intros [= <-]; reflexivity].
    cbn [snd]. destruct (Gateway.getOrder _ _) as [[o|]|e']; try discriminate.
    intros [= <-]. exact (prefix_app "Failed to get order: " _).
Qed.

Lemma X5_errors_carry_context_witness :
  String.prefix "Failed to place order: " "Failed to place order: insufficient balance"
    = true
  /\ String.prefix "Failed to cancel order: " "Failed to cancel order: order not found"
     = true.
Proof.
  split.
  - apply (proj1 (X5_errors_carry_context Fixture.client Sample.world) Sample.params
             (Error "Failed to place order: insufficient balance")).
    reflexivity.
  - apply (proj1 (proj2 (X5_errors_carry_context Fixture.client Sample.world)) "O3"
             (Error "Failed to cancel order: order not found")).
    reflexivity.
Defined.

(** X6: no method retries or fans out. One invocation of [placeOrder],
    [cancelOrder], [cancelOrders], [getOpenOrders] or [getOrder] makes at
    most one gateway call, whether it succeeds or fails, keeps the earlier
    calls, and does not touch the clock. *)
Theorem X6_at_most_one_gateway_call (this : TradingClient.t) (w : World) :
  (forall params, atMostOneCall w (fst (TradingClient.placeOrder this params w)))
  /\ (forall orderId, atMostOneCall w (fst (TradingClient.cancelOrder this orderId w)))
  /\ (forall orderIds, atMostOneCall w (fst (TradingClient.cancelOrders this orderIds w)))
  /\ (forall address, atMostOneCall w (fst (TradingClient.getOpenOrders this address w)))
  /\ (forall orderId, atMostOneCall w (fst (TradingClient.getOrder this orderId w))).
Proof.
  assert (Hsame : atMostOneCall w w) by (split; [reflexivity | left; reflexivity]).
  assert (Hone : forall c, atMostOneCall w (called c w)).
  { intros c. split; [reflexivity | right; exists c; reflexivity]. }
  split; [|split; [|split; [|split]]].
  - intros params. rewrite placeOrder_run.
    destruct (negb _); [exact Hsame|]. destruct (negb _); [exact Hsame|].
    destruct (TradingClient.priceRejected _); [exact Hsame|].
    destruct (TradingClient.sizeRejected _); [exact Hsame|apply Hone].
  - intros orderId. rewrite cancelOrder_run.
    destruct (Js.truthyStr orderId); [apply Hone | exact Hsame].
  - intros orderIds. rewrite cancelOrders_run.
    destruct orderIds as [[|i ids]|]; [exact Hsame | apply Hone | exact Hsame].
  - intros address. rewrite getOpenOrders_run. apply Hone.
  - intros orderId. rewrite getOrder_full_run.
    destruct (Js.truthyStr orderId); [apply Hone | exact Hsame].
Qed.

(** X7: [cancelOrder] and [getOrder] reject an empty order id before any
    gateway call; with a non-empty id [cancelOrder] makes the one call
    [cancelOrder({orderID})] and ends as the gateway does, a failure being
    wrapped. *)
Theorem X7_order_id_required (this : TradingClient.t) (orderId : string) (w : World) :
  (orderId = "" ->
     TradingClient.cancelOrder this orderId w
       = (w, Throw (Error "Failed to cancel order: orderId is required"))
     /\ TradingClient.getOrder this orderId w
       = (w, Throw (Error "Failed to get order: orderId is required")))
  /\ (orderId <> "" ->
     TradingClient.cancelOrder this orderId w
       = (called (CallCancelOrder orderId) w,
          match Gateway.cancelOrder (ClobClient.gateway (TradingClient.client this))
                  orderId with
          | Return u => Return u
          | Throw e => Throw (Error ("Failed to cancel order: " ++ message e))
          end)).
Proof.
  split.
  - intros ->. split; reflexivity.
  - intros Hne. now rewrite cancelOrder_run, (truthyStr_nonempty _ Hne).
Qed.

Lemma X7_order_id_required_witness :
  TradingClient.cancelOrder Sample.client "" Sample.world
    = (Sample.world, Throw (Error "Failed to cancel order: orderId is required"))
  /\ TradingClient.cancelOrder Sample.client "O1" Sample.world
     = (called (CallCancelOrder "O1") Sample.world, Return tt)
  /\ TradingClient.cancelOrder Fixture.client "O3" Sample.world
     = (called (CallCancelOrder "O3") Sample.world,
        Throw (Error "Failed to cancel order: order not found")).
Proof.
  split; [|split].
  - apply (proj1 (X7_order_id_required Sample.client "" Sample.world)). reflexivity.
  - apply (proj2 (X7_order_id_required Sample.client "O1" Sample.world)). discriminate.
  - apply (proj2 (X7_order_id_required Fixture.client "O3" Sample.world)). discriminate.
Defined.

(** X8: a non-empty list given to [cancelOrders] goes to the gateway in
    a single call that carries the whole list as it is, order and
    repetitions included, whatever its length; the method ends as the
    gateway does, a failure being wrapped. *)
Theorem X8_cancelOrders_single_batch (this : TradingClient.t) (ids : list string)
    (w : World) :
  ids <> [] ->
  TradingClient.cancelOrders this (Some ids) w
    = (called (CallCancelOrders ids) w,
       match Gateway.cancelOrders (ClobClient.gateway (TradingClient.client this)) ids with
       | Return u => Return u
       | Throw e => Throw (Error ("Failed to cancel orders: " ++ message e))
       end)
  /\ List.length (calls (fst (TradingClient.cancelOrders this (Some ids) w)))
     = S (List.length (calls w)).
Proof.
  intros Hne. rewrite cancelOrders_run.
  destruct ids as [|i ids]; [congruence|]. split; reflexivity.
Qed.

Lemma X8_cancelOrders_single_batch_witness :
  TradingClient.cancelOrders Sample.client (Some ["O2"; "O1"; "O2"]) Sample.world
    = (called (CallCancelOrders ["O2"; "O1"; "O2"]) Sample.world, Return tt).
Proof.
  apply (X8_cancelOrders_single_batch Sample.client ["O2"; "O1"; "O2"] Sample.world).
  discriminate.
Defined.

(* ================================================================== *)
(** ** The orders returned by getOpenOrders and getOrder *)
(* ================================================================== *)

Lemma listedFor_inv (this : TradingClient.t) (w : World) (raw : OpenOrder.t) (o : Order.t) :
  listedFor this w raw o -> o = TradingClient.normalize "open" (now w) raw.
Proof.
  intros (address & response & orders & n & Hg & Hr & Hraw & Ho).
  rewrite getOpenOrders_run, Hg in Hr. cbn [snd] in Hr. injection Hr as <-.
  rewrite nth_error_map, Hraw in Ho. cbn in Ho. congruence.
Qed.

Lemma lookedUpFor_inv (this : TradingClient.t) (w : World) (raw : OpenOrder.t)
    (o : Order.t) :
  lookedUpFor this w raw o -> o = TradingClient.normalize "unknown" (now w) raw.
Proof.
  intros (orderId & Hg & Hr).
  rewrite getOrder_full_run in Hr.
  destruct (Js.truthyStr orderId); [|discriminate].
  rewrite Hg in Hr. cbn [snd] in Hr. congruence.
Qed.

Lemma returnedFor_inv (this : TradingClient.t) (w : World) (raw : OpenOrder.t)
    (o : Order.t) :
  returnedFor this w raw o ->
  exists d, (d = "open" \/ d = "unknown") /\ o = TradingClient.normalize d (now w) raw.
Proof.
  intros [H|H].
  - exists "open". split; [now left | exact (listedFor_inv _ _ _ _ H)].
  - exists "unknown". split; [now right | exact (lookedUpFor_inv _ _ _ _ H)].
Qed.

Lemma lookedUpFor_intro (this : TradingClient.t) (w : World) (orderId : string)
    (raw : OpenOrder.t) :
  orderId <> "" ->
  Gateway.getOrder (ClobClient.gateway (TradingClient.client this)) orderId
    = Return (Some raw) ->
  lookedUpFor this w raw (TradingClient.normalize "unknown" (now w) raw).
Proof.
  intros Hne Hg. exists orderId. split; [exact Hg|].
  now rewrite (getOrder_run this orderId w Hne), Hg.
Qed.

Lemma listedFor_intro (this : TradingClient.t) (w : World) (response : list OpenOrder.t)
    (n : nat) (raw : OpenOrder.t) :
  Gateway.getOpenOrders (ClobClient.gateway (TradingClient.client this)) = Return response ->
  nth_error response n = Some raw ->
  listedFor this w raw (TradingClient.normalize "open" (now w) raw).
Proof.
  intros Hg Hn. exists None, response, (map (TradingClient.normalize "open" (now w)) response), n.
  repeat split; try assumption.
  - now rewrite getOpenOrders_run, Hg.
  - now rewrite nth_error_map, Hn.
Qed.

(** X9: when the gateway lists its records, [getOpenOrders] returns one
    order per record, in the same order: the lists have the same length
    and the order at each place keeps the record itself as [raw] and takes
    its id, token id and side from it unchanged. When the gateway call
    fails, the failure is wrapped and thrown. *)
Theorem X9_getOpenOrders_one_order_per_record
    (this : TradingClient.t) (address : option string) (w : World) :
  let gw := ClobClient.gateway (TradingClient.client this) in
  (forall response, Gateway.getOpenOrders gw = Return response ->
     exists orders,
       TradingClient.getOpenOrders this address w = (called CallGetOpenOrders w, Return orders)
       /\ List.length orders = List.length response
       /\ (forall n raw, nth_error response n = Some raw ->
           exists o, nth_error orders n = Some o
             /\ Order.raw o = raw
             /\ Order.orderId o = OpenOrder.id raw
             /\ Order.tokenId o = OpenOrder.asset_id raw
             /\ Order.side o = OpenOrder.side raw))
  /\ (forall e, Gateway.getOpenOrders gw = Throw e ->
     TradingClient.getOpenOrders this address w
       = (called CallGetOpenOrders w,
          Throw (Error ("Failed to get open orders: " ++ message e)))).
Proof.
  cbv zeta. rewrite getOpenOrders_run. split.
  - intros response ->. eexists. split; [reflexivity|]. split; [apply length_map|].
    intros n raw Hn. eexists. split; [rewrite nth_error_map, Hn; reflexivity|].
    repeat split.
  - now intros e ->.
Qed.

Lemma X9_getOpenOrders_one_order_per_record_witness :
  exists orders,
    TradingClient.getOpenOrders Fixture.client (Some Sample.signerAddress) Sample.world
      = (called CallGetOpenOrders Sample.world, Return orders)
    /\ List.length orders = 3%nat
    /\ TradingClient.getOpenOrders Sample.bareClient None Sample.world
       = (called CallGetOpenOrders Sample.world,
          Throw (Error "Failed to get open orders: network down")).
Proof.
  destruct (proj1 (X9_getOpenOrders_one_order_per_record Fixture.client (Some Sample.signerAddress)
                     Sample.world)
              [Fixture.freshOrder; Fixture.filledOrder; Sample.rawOrder] eq_refl)
    as (orders & E & L & _).
  exists orders. split; [exact E|]. split; [exact L|].
  apply (proj2 (X9_getOpenOrders_one_order_per_record Sample.bareClient None Sample.world)
           (Error "network down")).
  reflexivity.
Defined.

(** X10: an order returned by either read method keeps the exchange
    record it was made from as [raw], and its id, token id and side are the
    record's, unchanged. *)
Theorem X10_returned_order_identity (this : TradingClient.t) (w : World)
    (raw : OpenOrder.t) (o : Order.t) :
  returnedFor this w raw o ->
  Order.raw o = raw
  /\ Order.orderId o = OpenOrder.id raw
  /\ Order.tokenId o = OpenOrder.asset_id raw
  /\ Order.side o = OpenOrder.side raw
  /\ Order.price o = Js.parseFloat (Js.toStringOpt (OpenOrder.price raw)).
Proof.
  intros H. destruct (returnedFor_inv _ _ _ _ H) as (d & _ & ->). repeat split.
Qed.

Lemma X10_returned_order_identity_witness :
  exists o,
    lookedUpFor Fixture.client Sample.world Fixture.filledOrder o
    /\ Order.raw o = Fixture.filledOrder
    /\ Order.orderId o = "O4"
    /\ Order.tokenId o = "T2"
    /\ Order.side o = "SELL"
    /\ Order.price o = Js.parseFloat "0.4".
Proof.
  eexists. split.
  - apply (lookedUpFor_intro Fixture.client Sample.world "O4" Fixture.filledOrder);
      [discriminate | reflexivity].
  - apply (X10_returned_order_identity Fixture.client Sample.world Fixture.filledOrder).
    right.
    apply (lookedUpFor_intro Fixture.client Sample.world "O4" Fixture.filledOrder);
      [discriminate | reflexivity].
Defined.

(** X11: the timestamp of a returned order is the record's [created_at]
    when that is present and truthy; when it is missing, 0 or NaN, the
    timestamp is the clock reading of the call. *)
Theorem X11_returned_order_timestamp (this : TradingClient.t) (w : World)
    (raw : OpenOrder.t) (o : Order.t) :
  returnedFor this w raw o ->
  (forall c, OpenOrder.created_at raw = Some c -> Js.truthyNum c = true ->
     Order.timestamp o = c)
  /\ (forall c, OpenOrder.created_at raw = Some c -> Js.truthyNum c = false ->
     Order.timestamp o = now w)
  /\ (OpenOrder.created_at raw = None -> Order.timestamp o = now w).
Proof.
  intros H. destruct (returnedFor_inv _ _ _ _ H) as (d & _ & ->).
  unfold TradingClient.normalize. cbn [Order.timestamp]. repeat split.
  - intros c -> Hc. cbn. now rewrite Hc.
  - intros c -> Hc. cbn. now rewrite Hc.
  - now intros ->.
Qed.

Lemma X11_returned_order_timestamp_witness :
  Order.timestamp (TradingClient.normalize "unknown" (now Sample.world) Fixture.filledOrder)
    = Js.ofZ 1700000000
  /\ Order.timestamp (TradingClient.normalize "unknown" (now Sample.world) Fixture.freshOrder)
     = now Sample.world.
Proof.
  split.
  - apply (proj1 (X11_returned_order_timestamp Fixture.client Sample.world
                    Fixture.filledOrder _
                    (or_intror (lookedUpFor_intro Fixture.client Sample.world "O4"
                                  Fixture.filledOrder ltac:(discriminate) eq_refl)))
             (Js.ofZ 1700000000)); reflexivity.
  - apply (proj1 (proj2 (X11_returned_order_timestamp Fixture.client Sample.world
                    Fixture.freshOrder _
                    (or_intror (lookedUpFor_intro Fixture.client Sample.world "O3"
                                  Fixture.freshOrder ltac:(discriminate) eq_refl))))
             Js.zero); reflexivity.
Defined.

(** X12: a non-empty status of the record is passed through unchanged
    by both read methods; an empty status text is treated like a missing
    one and replaced by the method's default, ["open"] in the listing and
    ["unknown"] in the lookup. *)
Theorem X12_returned_order_status (this : TradingClient.t) (w : World)
    (raw : OpenOrder.t) (o : Order.t) :
  (returnedFor this w raw o ->
   forall s, OpenOrder.status raw = Some s -> s <> "" -> Order.status o = s)
  /\ (listedFor this w raw o ->
      Js.truthyOptStr (OpenOrder.status raw) = false -> Order.status o = "open")
  /\ (lookedUpFor this w raw o ->
      Js.truthyOptStr (OpenOrder.status raw) = false -> Order.status o = "unknown").
Proof.
  split; [|split].
  - intros H s Hs Hne. destruct (returnedFor_inv _ _ _ _ H) as (d & _ & ->).
    cbn. rewrite Hs. cbn. now rewrite (truthyStr_nonempty _ Hne).
  - intros H Hs. rewrite (listedFor_inv _ _ _ _ H). cbn.
    destruct (OpenOrder.status raw) as [[|c s]|]; try discriminate; reflexivity.
  - intros H Hs. rewrite (lookedUpFor_inv _ _ _ _ H). cbn.
    destruct (OpenOrder.status raw) as [[|c s]|]; try discriminate; reflexivity.
Qed.

Lemma X12_returned_order_status_witness :
  Order.status (TradingClient.normalize "unknown" (now Sample.world) Fixture.filledOrder)
    = "matched"
  /\ Order.status (TradingClient.normalize "unknown" (now Sample.world) Fixture.freshOrder)
     = "unknown"
  /\ Order.status (TradingClient.normalize "open" (now Sample.world) Fixture.freshOrder)
     = "open".
Proof.
  split; [|split].
  - apply (proj1 (X12_returned_order_status Fixture.client Sample.world
                    Fixture.filledOrder _)
             (or_intror (lookedUpFor_intro Fixture.client Sample.world "O4"
                           Fixture.filledOrder ltac:(discriminate) eq_refl))
             "matched"); [reflexivity | discriminate].
  - apply (proj2 (proj2 (X12_returned_order_status Fixture.client Sample.world
                           Fixture.freshOrder _))
             (lookedUpFor_intro Fixture.client Sample.world "O3"
                Fixture.freshOrder ltac:(discriminate) eq_refl)).
    reflexivity.
  - apply (proj1 (proj2 (X12_returned_order_status Fixture.client Sample.world
                           Fixture.freshOrder _))
             (listedFor_intro Fixture.client Sample.world
                [Fixture.freshOrder; Fixture.filledOrder; Sample.rawOrder] 0
                Fixture.freshOrder eq_refl eq_refl)).
    reflexivity.
Defined.

(** X13: the two read methods agree on a record. The order listed for a
    record and the order looked up for the same record, at the same clock
    reading, have the same id, token id, side, price, original size, size,
    timestamp and raw record; they can differ in the status only, and are
    equal when the record has a non-empty status. *)
Theorem X13_listing_and_lookup_agree (this1 this2 : TradingClient.t) (w1 w2 : World)
    (raw : OpenOrder.t) (o1 o2 : Order.t) :
  listedFor this1 w1 raw o1 ->
  lookedUpFor this2 w2 raw o2 ->
  now w1 = now w2 ->
  Order.orderId o1 = Order.orderId o2
  /\ Order.tokenId o1 = Order.tokenId o2
  /\ Order.side o1 = Order.side o2
  /\ Order.price o1 = Order.price o2
  /\ Order.originalSize o1 = Order.originalSize o2
  /\ Order.size o1 = Order.size o2
  /\ Order.timestamp o1 = Order.timestamp o2
  /\ Order.raw o1 = Order.raw o2
  /\ (Js.truthyOptStr (OpenOrder.status raw) = true -> o1 = o2).
Proof.
  intros H1 H2 Hnow.
  rewrite (listedFor_inv _ _ _ _ H1), (lookedUpFor_inv _ _ _ _ H2), Hnow.
  repeat split.
  intros Hs. unfold TradingClient.normalize. f_equal.
  destruct (OpenOrder.status raw) as [[|c s]|]; try discriminate; reflexivity.
Qed.

Lemma X13_listing_and_lookup_agree_witness :
  TradingClient.normalize "open" (now Sample.world) Fixture.filledOrder
    = TradingClient.normalize "unknown" (now Sample.world) Fixture.filledOrder.
Proof.
  apply (X13_listing_and_lookup_agree Fixture.client Fixture.client Sample.world
           Sample.world Fixture.filledOrder _ _
           (listedFor_intro Fixture.client Sample.world
              [Fixture.freshOrder; Fixture.filledOrder; Sample.rawOrder] 1
              Fixture.filledOrder eq_refl eq_refl)
           (lookedUpFor_intro Fixture.client Sample.world "O4" Fixture.filledOrder
              ltac:(discriminate) eq_refl)
           eq_refl).
  reflexivity.
Defined.

(* ================================================================== *)
(** ** The remaining size at the ends of its range *)
(* ================================================================== *)

(** [x - 0] is [x]. *)
Lemma sub_zero_r (x : Js.number) : Js.sub x Js.zero = x.
Proof. destruct x as [[]|[]| |s m e]; reflexivity. Qed.

(** [x - x] is [+0] for a finite [x]. *)
Lemma sub_diag (x : Js.number) : Js.isFinite x = true -> Js.sub x x = Js.zero.
Proof.
  destruct x as [[]|s| |s m e]; try discriminate; try reflexivity.
  intros _. unfold Js.sub. cbn [SFsub]. now rewrite Z.sub_diag.
Qed.

(** Rounding never produces NaN from a mantissa that is not negative. *)
Lemma binary_round_aux_not_nan (s : bool) (m e : Z) (l : location) :
  0 <= m -> binary_round_aux Js.prec Js.emax s m e l <> S754_nan.
Proof.
  intros Hm. unfold binary_round_aux.
  destruct (shr_fexp_spec m e l Hm) as (_ & Q1 & _).
  destruct (shr_fexp Js.prec Js.emax m e l) as [mrs1 e1]. cbn [fst snd] in Q1.
  destruct (round_nearest_even_bounds (shr_m mrs1) (loc_of_shr_record mrs1))
    as [[Lq _] _].
  set (q' := round_nearest_even (shr_m mrs1) (loc_of_shr_record mrs1)) in *.
  assert (Hq : 0 <= shr_m mrs1).
  { rewrite Q1. apply Z.div_pos; [lia|]. apply Z.pow_pos_nonneg; lia. }
  destruct (shr_fexp_spec q' e1 loc_Exact ltac:(lia)) as (_ & Q2 & _).
  destruct (shr_fexp Js.prec Js.emax q' e1 loc_Exact) as [mrs2 e2]. cbn [fst snd] in Q2.
  assert (Hm2 : 0 <= shr_m mrs2).
  { rewrite Q2. apply Z.div_pos; [lia|]. apply Z.pow_pos_nonneg; lia. }
  destruct (shr_m mrs2) as [|m2|m2]; [discriminate| |lia].
  destruct (e2 <=? Js.emax - Js.prec); discriminate.
Qed.

Lemma binary_normalize_not_nan (m e : Z) (szero : bool) :
  binary_normalize Js.prec Js.emax m e szero <> S754_nan.
Proof.
  assert (H : forall s p, binary_round Js.prec Js.emax s p e <> S754_nan).
  { intros s p. unfold binary_round. destruct (shl_align p e _) as [mz ez].
    apply binary_round_aux_not_nan. lia. }
  destruct m; cbn [binary_normalize]; [discriminate | apply H | apply H].
Qed.

(** The difference of two numbers is NaN only when one of them is NaN or
    both are the same infinity. *)
Lemma sub_nan_iff (a b : Js.number) :
  Js.sub a b = Js.NaN <->
  a = Js.NaN \/ b = Js.NaN \/ exists s, a = S754_infinity s /\ b = S754_infinity s.
Proof.
  unfold Js.sub, Js.NaN. split.
  - destruct a as [sa|sa| |sa ma ea], b as [sb|sb| |sb mb eb]; cbn [SFsub];
      try discriminate; try (now left); try (now right; left).
    + destruct sa, sb; discriminate.
    + destruct sa, sb; try discriminate; intros _; right; right; eexists; split; reflexivity.
    + intros H. now apply binary_normalize_not_nan in H.
  - intros [-> | [-> | (s & -> & ->)]]; [reflexivity | now destruct a | now destruct s].
Qed.

(** Rounding a positive value that is a multiple of [2^-1074] gives a
    positive number: nothing underflows to 0. *)
Lemma binary_round_positive (p : positive) (e : Z) :
  -1074 <= e ->
  numLt Js.zero (binary_round Js.prec Js.emax false p e) = true.
Proof.
  intros He. unfold binary_round.
  destruct (shl_align_spec p e (fexp Js.prec Js.emax (Z.pos (digits2_pos p) + e)))
    as [Ez Az].
  destruct (shl_align p e _) as [mz ez]. cbn [fst snd] in Ez, Az.
  assert (Hfe : -1074 <= fexp Js.prec Js.emax (Z.pos (digits2_pos p) + e))
    by (rewrite fexp_binary64; lia).
  assert (Hez : -1074 <= ez) by lia.
  assert (Hd : Zdigits2 (Z.pos mz) = Z.pos (digits2_pos p) + (e - ez)).
  { apply Zdigits2_unique; [lia|]. rewrite Az, <- Ez.
    destruct (digits2_pos_bounds p) as [L U].
    assert (Hp : 0 < 2 ^ (e - ez)) by (apply Z.pow_pos_nonneg; lia).
    replace (Z.pos (digits2_pos p) + (e - ez) - 1)
      with (Z.pos (digits2_pos p) - 1 + (e - ez)) by lia.
    rewrite !Z.pow_add_r by lia. nia. }
  assert (Hpre : ez <= fexp Js.prec Js.emax (Zdigits2 (Z.pos mz) + ez)).
  { rewrite Hd. replace (Z.pos (digits2_pos p) + (e - ez) + ez)
      with (Z.pos (digits2_pos p) + e) by lia. lia. }
  unfold binary_round_aux.
  pose proof (shr_fexp_positive (Z.pos mz) ez loc_Exact ltac:(lia) Hez Hpre) as P1.
  destruct (shr_fexp_canonical (Z.pos mz) ez loc_Exact ltac:(lia) Hpre) as (_ & _ & C1).
  destruct (shr_fexp_spec (Z.pos mz) ez loc_Exact ltac:(lia)) as (E1 & _ & _).
  destruct (shr_fexp Js.prec Js.emax (Z.pos mz) ez loc_Exact) as [mrs1 e1].
  cbn [fst snd] in P1, C1, E1.
  specialize (C1 P1).
  destruct (round_nearest_even_bounds (shr_m mrs1) (loc_of_shr_record mrs1))
    as [[Lq _] _].
  set (q' := round_nearest_even (shr_m mrs1) (loc_of_shr_record mrs1)) in *.
  assert (He1 : -1074 <= e1) by lia.
  assert (Hpre' : e1 <= fexp Js.prec Js.emax (Zdigits2 q' + e1)).
  { rewrite <- C1 at 1. apply fexp_monotone.
    pose proof (Zdigits2_monotone (shr_m mrs1) q' ltac:(lia)). lia. }
  pose proof (shr_fexp_positive q' e1 loc_Exact ltac:(lia) He1 Hpre') as P2.
  destruct (shr_fexp Js.prec Js.emax q' e1 loc_Exact) as [mrs2 e2]. cbn [fst] in P2.
  destruct (shr_m mrs2) as [|m2|m2]; [lia| |lia].
  destruct (e2 <=? Js.emax - Js.prec); reflexivity.
Qed.

(** [0 < o - m] in binary64 arithmetic, for finite [0 <= m < o]. *)
Lemma sub_positive (o m : Js.number) :
  Js.wellFormed o = true -> Js.wellFormed m = true ->
  Js.isFinite o = true -> Js.isFinite m = true ->
  Js.le Js.zero m = true -> numLt m o = true ->
  numLt Js.zero (Js.sub o m) = true.
Proof.
  unfold Js.wellFormed, Js.le, Js.sub, Js.zero, numLt.
  intros Vo Vm Fo Fm H0 Hlt.
  destruct o as [so| | |so mo eo], m as [sm| | |sm mm em]; try discriminate.
  - destruct sm; discriminate.
  - destruct so; [discriminate | reflexivity].
  - destruct sm; [discriminate|]. destruct so; [discriminate|].
    cbn [valid_binary] in Vo, Vm.
    destruct (bounded_inv mo eo Vo) as [Co Bo].
    destruct (bounded_inv mm em Vm) as [Cm Bm].
    rewrite fexp_binary64 in Co, Cm.
    pose proof (digits2_pos_bounds mo) as Do.
    pose proof (digits2_pos_bounds mm) as Dm.
    assert (Hord : em < eo \/ (em = eo /\ Z.pos mm < Z.pos mo)).
    { unfold SFltb, SFcompare in Hlt.
      destruct (Z.compare_spec em eo) as [E|E|E]; [right|left; exact E|discriminate].
      split; [exact E|].
      change (Pos.compare_cont Eq mm mo) with (Pos.compare mm mo) in Hlt.
      destruct (Pos.compare_spec mm mo); [discriminate|lia|discriminate]. }
    cbn [SFsub cond_Zopp].
    replace (Z.min eo em) with em by lia.
    destruct (shl_align_spec mo eo em) as [_ Ao].
    destruct (shl_align_spec mm em em) as [_ Am].
    replace (Z.min eo em) with em in Ao by lia.
    rewrite Z.min_id, Z.sub_diag, Z.pow_0_r, Z.mul_1_r in Am.
    rewrite Ao, Am.
    assert (Hpow : 0 < 2 ^ (eo - em)) by (apply Z.pow_pos_nonneg; lia).
    assert (Hd : 0 < Z.pos mo * 2 ^ (eo - em) - Z.pos mm).
    { destruct Hord as [E|[E Hm]].
      - assert (Hdo : Z.pos (digits2_pos mo) = 53) by lia.
        assert (Hdm : Z.pos (digits2_pos mm) <= 53) by lia.
        rewrite Hdo in Do. change (2 ^ (53 - 1)) with 4503599627370496 in Do.
        assert (Z.pos mm < 2 ^ 53).
        { eapply Z.lt_le_trans; [apply Dm|]. apply Z.pow_le_mono_r; lia. }
        assert (2 <= 2 ^ (eo - em)).
        { change 2 with (2 ^ 1) at 1. apply Z.pow_le_mono_r; lia. }
        change (2 ^ 53) with 9007199254740992 in *. nia.
      - subst em. rewrite Z.sub_diag, Z.pow_0_r. lia. }
    destruct (Z.pos mo * 2 ^ (eo - em) - Z.pos mm) as [|d|d] eqn:Ed; [lia| |lia].
    cbn [binary_normalize]. apply binary_round_positive. lia.
Qed.

(** X14: when nothing is matched, the remaining size is the original
    size: for a returned order whose record has no [size_matched], an
    empty one, or one that parses to 0, [size] equals [originalSize],
    whatever the original size is. *)
Theorem X14_unmatched_size_is_original (this : TradingClient.t) (w : World)
    (raw : OpenOrder.t) (o : Order.t) :
  returnedFor this w raw o ->
  (Js.truthyOptStr (OpenOrder.size_matched raw) = false -> Spec.matchedSize raw = Js.zero)
  /\ (Spec.matchedSize raw = Js.zero -> Order.size o = Order.originalSize o).
Proof.
  intros H. destruct (returnedFor_inv _ _ _ _ H) as (d & _ & ->). split.
  - unfold Spec.matchedSize.
    destruct (OpenOrder.size_matched raw) as [[|c s]|]; try discriminate; reflexivity.
  - unfold TradingClient.normalize. cbn [Order.size Order.originalSize].
    fold (Spec.matchedSize raw). intros ->. apply sub_zero_r.
Qed.

Lemma X14_unmatched_size_is_original_witness :
  Order.size (TradingClient.normalize "unknown" (now Sample.world) Fixture.freshOrder)
    = Js.parseFloat "12.5".
Proof.
  destruct (X14_unmatched_size_is_original Fixture.client Sample.world Fixture.freshOrder _
              (or_intror (lookedUpFor_intro Fixture.client Sample.world "O3"
                            Fixture.freshOrder ltac:(discriminate) eq_refl)))
    as [H1 H2].
  rewrite (H2 (H1 eq_refl)). reflexivity.
Defined.

(** X15: a fully matched order has nothing left: when the two size
    fields of the record parse to the same finite number, the returned
    order has [size] equal to [+0]. *)
Theorem X15_fully_matched_size_is_zero (this : TradingClient.t) (w : World)
    (raw : OpenOrder.t) (o : Order.t) :
  returnedFor this w raw o ->
  Js.isFinite (Spec.originalSize raw) = true ->
  Spec.matchedSize raw = Spec.originalSize raw ->
  Order.size o = Js.zero.
Proof.
  intros H Hf Heq. destruct (returnedFor_inv _ _ _ _ H) as (d & _ & ->).
  unfold TradingClient.normalize. cbn [Order.size].
  fold (Spec.matchedSize raw). fold (Spec.originalSize raw).
  rewrite Heq. now apply sub_diag.
Qed.

Lemma X15_fully_matched_size_is_zero_witness :
  Order.size (TradingClient.normalize "unknown" (now Sample.world) Fixture.filledOrder)
    = Js.zero.
Proof.
  apply (X15_fully_matched_size_is_zero Fixture.client Sample.world Fixture.filledOrder _
           (or_intror (lookedUpFor_intro Fixture.client Sample.world "O4"
                         Fixture.filledOrder ltac:(discriminate) eq_refl)));
    vm_compute; reflexivity.
Defined.

(** X16: an order that is not fully matched never shows a remaining
    size of 0: when the size fields parse to finite numbers with
    [0 <= matchedSize < originalSize], the returned order has [size > 0]. *)
Theorem X16_partly_matched_size_is_positive (this : TradingClient.t) (w : World)
    (raw : OpenOrder.t) (o : Order.t) :
  returnedFor this w raw o ->
  Js.isFinite (Spec.originalSize raw) = true ->
  Js.isFinite (Spec.matchedSize raw) = true ->
  Js.le Js.zero (Spec.matchedSize raw) = true ->
  numLt (Spec.matchedSize raw) (Spec.originalSize raw) = true ->
  numLt Js.zero (Order.size o) = true.
Proof.
  intros H Fo Fm H0 Hlt. destruct (returnedFor_inv _ _ _ _ H) as (d & _ & ->).
  unfold TradingClient.normalize. cbn [Order.size].
  fold (Spec.matchedSize raw). fold (Spec.originalSize raw).
  apply sub_positive; try assumption; apply parseFloat_wellFormed.
Qed.

Lemma X16_partly_matched_size_is_positive_witness :
  numLt Js.zero
    (Order.size (TradingClient.normalize "unknown" (now Sample.world) Sample.rawOrder))
    = true.
Proof.
  apply (X16_partly_matched_size_is_positive Sample.client Sample.world Sample.rawOrder _
           (or_intror (lookedUpFor_intro Sample.client Sample.world "O1"
                         Sample.rawOrder ltac:(discriminate) eq_refl)));
    vm_compute; reflexivity.
Defined.

(** X17: the remaining size of a returned order is NaN exactly when one
    of the two size fields parses to NaN, or both parse to the same
    infinity; two finite sizes never give NaN. *)
Theorem X17_size_nan_iff (this : TradingClient.t) (w : World)
    (raw : OpenOrder.t) (o : Order.t) :
  returnedFor this w raw o ->
  (Order.size o = Js.NaN <->
   Spec.originalSize raw = Js.NaN \/ Spec.matchedSize raw = Js.NaN
   \/ exists s, Spec.originalSize raw = S754_infinity s
                /\ Spec.matchedSize raw = S754_infinity s).
Proof.
  intros H. destruct (returnedFor_inv _ _ _ _ H) as (d & _ & ->).
  unfold TradingClient.normalize. cbn [Order.size].
  fold (Spec.matchedSize raw). fold (Spec.originalSize raw).
  apply sub_nan_iff.
Qed.

Lemma X17_size_nan_iff_witness :
  Order.size (TradingClient.normalize "unknown" (now Sample.world) Sample.malformedOrder)
    = Js.NaN.
Proof.
  apply (proj2 (X17_size_nan_iff Sample.client Sample.world Sample.malformedOrder _
                  (or_intror (lookedUpFor_intro Sample.client Sample.world "O2"
                                Sample.malformedOrder ltac:(discriminate) eq_refl)))).
  left. reflexivity.
Defined.

(* ================================================================== *)
(** ** Construction: when it succeeds and what it sets up *)
(* ================================================================== *)

(** What a successful construction returns, in each mode, and what it
    took. *)
Lemma constructor_returns (ethersWallet : string -> Completion string)
    (newBuilderConfig : BuilderSigning -> Completion unit)
    (gateway : Gateway.t) (config : TradingConfig.t) (c : TradingClient.t) :
  TradingClient.constructor ethersWallet newBuilderConfig gateway config = Return c ->
  let host := Js.orStr (TradingConfig.host config) TradingClient.defaultHost in
  let chainId := Js.orNum (TradingConfig.chainId config) TradingClient.polygonMainnet in
  (exists k a,
     TradingClient.backendKeyOf config = Some k /\ ethersWallet k = Return a
     /\ builderConfigBuilt newBuilderConfig
          (TradingClient.backendBuilderConfig (TradingConfig.builder config))
     /\ c = TradingClient.make
              (ClobClient.make host chainId (WalletSigner k a)
                 (TradingClient.apiCredsOf (TradingConfig.builder config))
                 EOA None None false
                 (TradingClient.backendBuilderConfig (TradingConfig.builder config))
                 gateway)
              config (Some a))
  \/ (exists s,
     TradingClient.backendKeyOf config = None
     /\ TradingClient.frontendSignerOf config = Some s
     /\ TradingClient.startAddressLookup s = Return tt
     /\ builderConfigBuilt newBuilderConfig
          (TradingClient.frontendBuilderConfig (TradingConfig.builder config))
     /\ c = TradingClient.make
              (ClobClient.make host chainId (ExternalSigner s) None EOA None None false
                 (TradingClient.frontendBuilderConfig (TradingConfig.builder config))
                 gateway)
              config None).
Proof.
  unfold TradingClient.constructor. cbv zeta.
  destruct (_ && _)%bool; [discriminate|].
  destruct (TradingClient.backendKeyOf config) as [k|].
  - destruct (ethersWallet k) as [a|e] eqn:Hw; [|discriminate].
    destruct (TradingClient.buildBuilderConfig _ _) as [built|e] eqn:Eb; [|discriminate].
    apply buildBuilderConfig_inv in Eb. destruct Eb as [-> Hbuilt].
    intros [= <-]. left. exists k, a. repeat split; assumption.
  - destruct (TradingClient.frontendSignerOf config) as [s|]; [|discriminate].
    destruct (TradingClient.startAddressLookup s) as [[]|e] eqn:Hl; [|discriminate].
    destruct (TradingClient.buildBuilderConfig _ _) as [built|e] eqn:Eb; [|discriminate].
    apply buildBuilderConfig_inv in Eb. destruct Eb as [-> Hbuilt].
    intros [= <-]. right. exists s. repeat split; assumption.
Qed.

(** X18: [createTradingClient], that is the constructor, succeeds in
    exactly two situations. Either the backend private key is non-empty,
    ethers builds a wallet from it, and [new BuilderConfig] accepts the
    builder configuration of the backend branch, if there is one. Or there
    is no non-empty backend key, the frontend signer is set, calling its
    [getAddress] does not throw, and [new BuilderConfig] accepts the
    builder configuration of the frontend branch, if there is one. *)
Theorem X18_construction_succeeds_iff
    (ethersWallet : string -> Completion string)
    (newBuilderConfig : BuilderSigning -> Completion unit) (gateway : Gateway.t)
    (config : TradingConfig.t) :
  (exists c, createTradingClient ethersWallet newBuilderConfig gateway config = Return c)
  <->
  (exists k a,
     TradingClient.backendKeyOf config = Some k /\ ethersWallet k = Return a
     /\ builderConfigBuilt newBuilderConfig
          (TradingClient.backendBuilderConfig (TradingConfig.builder config)))
  \/ (TradingClient.backendKeyOf config = None
      /\ exists s,
           TradingClient.frontendSignerOf config = Some s
           /\ TradingClient.startAddressLookup s = Return tt
           /\ builderConfigBuilt newBuilderConfig
                (TradingClient.frontendBuilderConfig (TradingConfig.builder config))).
Proof.
  unfold createTradingClient. split.
  - intros [c Hc].
    destruct (constructor_returns _ _ _ _ _ Hc)
      as [(k & a & Hk & Hw & Hb & _)|(s & Hk & Hs & Hl & Hb & _)].
    + left. now exists k, a.
    + right. split; [exact Hk|]. now exists s.
  - intros [(k & a & Hk & Hw & Hb)|(Hk & s & Hs & Hl & Hb)].
    + unfold TradingClient.backendKeyOf in Hk.
      destruct (TradingConfig.backend config) as [b|] eqn:Eb; [|discriminate].
      destruct (Js.truthyStr (TradingConfig.privateKey b)) eqn:Et; [|discriminate].
      injection Hk as <-.
      eexists. apply (constructor_backend _ _ _ _ b a Eb); try assumption.
      intros E. rewrite E in Et. discriminate.
    + eexists. now apply (constructor_frontend _ _ _ _ s).
Qed.

Lemma X18_construction_succeeds_iff_witness :
  (exists c, createTradingClient Sample.wallet Sample.builderSdk Sample.gateway
               (Sample.frontendConfig None) = Return c)
  /\ ~ (exists c, createTradingClient Sample.wallet Sample.builderSdk Sample.gateway
                    Fixture.emptyKeyConfig = Return c)
  /\ ~ (exists c, createTradingClient Sample.wallet Sample.builderSdk Sample.gateway
                    (Sample.backendConfig (Some Fixture.noSchemeBuilder)) = Return c)
  /\ ~ (exists c, createTradingClient Sample.wallet Sample.builderSdk Sample.gateway
                    (Fixture.signerConfig Fixture.throwingSigner) = Return c).
Proof.
  split; [|split; [|split]].
  - apply (proj2 (X18_construction_succeeds_iff Sample.wallet Sample.builderSdk
                    Sample.gateway (Sample.frontendConfig None))).
    right. split; [reflexivity|]. eexists. split; [reflexivity|].
    split; [reflexivity|]. intros b H. discriminate H.
  - intros H.
    apply (proj1 (X18_construction_succeeds_iff Sample.wallet Sample.builderSdk
                    Sample.gateway Fixture.emptyKeyConfig)) in H.
    destruct H as [(k & a & Hk & _) | (_ & s & Hs & _)]; discriminate.
  - intros H.
    apply (proj1 (X18_construction_succeeds_iff Sample.wallet Sample.builderSdk
                    Sample.gateway (Sample.backendConfig (Some Fixture.noSchemeBuilder))))
      in H.
    destruct H as [(k & a & _ & _ & Hb) | (Hk & _)]; [|discriminate].
    specialize (Hb (RemoteBuilderConfig "sign.example") eq_refl). discriminate Hb.
  - intros H.
    apply (proj1 (X18_construction_succeeds_iff Sample.wallet Sample.builderSdk
                    Sample.gateway (Fixture.signerConfig Fixture.throwingSigner))) in H.
    destruct H as [(k & a & Hk & _) | (_ & s & Hs & Hl & _)]; [discriminate|].
    injection Hs as <-. discriminate Hl.
Defined.

(** X19: with a non-empty backend private key, an error thrown by
    ethers while building the wallet is the constructor's error, as it
    is: it is not wrapped, and a configured frontend signer is not used as
    a fallback. *)
Theorem X19_wallet_error_is_not_caught
    (ethersWallet : string -> Completion string)
    (newBuilderConfig : BuilderSigning -> Completion unit) (gateway : Gateway.t)
    (config : TradingConfig.t) (k : string) (e : JsError) :
  TradingClient.backendKeyOf config = Some k ->
  ethersWallet k = Throw e ->
  TradingClient.constructor ethersWallet newBuilderConfig gateway config = Throw e.
Proof.
  intros Hk He. unfold TradingClient.constructor. rewrite Hk, He.
  unfold TradingClient.backendKeyOf in Hk.
  destruct (TradingConfig.backend config); [reflexivity | discriminate].
Qed.

Lemma X19_wallet_error_is_not_caught_witness :
  exists e,
    Sample.wallet "0x01" = Throw e
    /\ TradingClient.constructor Sample.wallet Sample.builderSdk Sample.gateway
         Fixture.shortKeyConfig = Throw e.
Proof.
  eexists. split; [reflexivity|].
  apply (X19_wallet_error_is_not_caught Sample.wallet Sample.builderSdk Sample.gateway
           Fixture.shortKeyConfig "0x01");
    reflexivity.
Defined.

(** X20: every constructed client talks to the given gateway with
    signature type EOA, no funder address, no geo-block token and server
    time off, and keeps the configuration it was given. The host is the
    configured one, or the default CLOB host when it is missing or empty;
    the chain id is the configured one, or 137 when it is missing, 0 or
    NaN. API credentials go to the CLOB client in backend mode only, when
    key, secret and passphrase are all non-empty, and then also when
    builder signing is remote. *)
Theorem X20_constructed_client_settings
    (ethersWallet : string -> Completion string)
    (newBuilderConfig : BuilderSigning -> Completion unit) (gateway : Gateway.t)
    (config : TradingConfig.t) (c : TradingClient.t) :
  TradingClient.constructor ethersWallet newBuilderConfig gateway config = Return c ->
  let clob := TradingClient.getRawClient c in
  ClobClient.signatureType clob = EOA
  /\ ClobClient.funderAddress clob = None
  /\ ClobClient.geoBlockToken clob = None
  /\ ClobClient.useServerTime clob = false
  /\ ClobClient.gateway clob = gateway
  /\ TradingClient.config c = config
  /\ (forall h, TradingConfig.host config = Some h -> h <> "" -> ClobClient.host clob = h)
  /\ (Js.truthyOptStr (TradingConfig.host config) = false ->
      ClobClient.host clob = "https://clob.polymarket.com")
  /\ (forall n, TradingConfig.chainId config = Some n -> Js.truthyNum n = true ->
      ClobClient.chainId clob = n)
  /\ (Js.truthyOptNum (TradingConfig.chainId config) = false ->
      ClobClient.chainId clob = Js.ofZ 137)
  /\ match ClobClient.signer clob with
     | WalletSigner _ _ =>
         ClobClient.creds clob = TradingClient.apiCredsOf (TradingConfig.builder config)
     | ExternalSigner _ => ClobClient.creds clob = None
     end.
Proof.
  intros H. cbv zeta. unfold TradingClient.getRawClient.
  assert (Hhost1 : forall h, TradingConfig.host config = Some h -> h <> "" ->
            Js.orStr (TradingConfig.host config) TradingClient.defaultHost = h).
  { intros h -> Hne. cbn. now rewrite (truthyStr_nonempty _ Hne). }
  assert (Hhost2 : Js.truthyOptStr (TradingConfig.host config) = false ->
            Js.orStr (TradingConfig.host config) TradingClient.defaultHost
            = "https://clob.polymarket.com").
  { destruct (TradingConfig.host config) as [[|a h]|]; try discriminate; reflexivity. }
  assert (Hchain1 : forall n, TradingConfig.chainId config = Some n ->
            Js.truthyNum n = true ->
            Js.orNum (TradingConfig.chainId config) TradingClient.polygonMainnet = n).
  { intros n -> Hn. cbn. now rewrite Hn. }
  assert (Hchain2 : Js.truthyOptNum (TradingConfig.chainId config) = false ->
            Js.orNum (TradingConfig.chainId config) TradingClient.polygonMainnet
            = Js.ofZ 137).
  { destruct (TradingConfig.chainId config) as [n|]; cbn; [|reflexivity].
    now intros ->. }
  destruct (constructor_returns _ _ _ _ _ H)
    as [(k & a & _ & _ & _ & ->)|(s & _ & _ & _ & _ & ->)];
    cbn [TradingClient.client TradingClient.config ClobClient.signatureType
         ClobClient.funderAddress ClobClient.geoBlockToken ClobClient.useServerTime
         ClobClient.gateway ClobClient.host ClobClient.chainId ClobClient.signer
         ClobClient.creds];
    repeat split; assumption.
Qed.

Lemma X20_constructed_client_settings_witness :
  exists c,
    TradingClient.constructor Sample.wallet Sample.builderSdk Sample.gateway
      Fixture.falsyDefaultsConfig = Return c
    /\ ClobClient.host (TradingClient.getRawClient c) = "https://clob.polymarket.com"
    /\ ClobClient.chainId (TradingClient.getRawClient c) = Js.ofZ 137
    /\ ClobClient.signatureType (TradingClient.getRawClient c) = EOA
    /\ ClobClient.creds (TradingClient.getRawClient c) = Some (mkApiCreds "k" "s" "p")
    /\ ClobClient.builderConfig (TradingClient.getRawClient c)
       = Some (RemoteBuilderConfig "https://sign.example").
Proof.
  eexists. split; [reflexivity|].
  pose proof (X20_constructed_client_settings Sample.wallet Sample.builderSdk
                Sample.gateway Fixture.falsyDefaultsConfig _ eq_refl)
    as (Hs & _ & _ & _ & _ & _ & _ & Hh & _ & Hc & Hcreds).
  split; [exact (Hh eq_refl)|]. split; [exact (Hc eq_refl)|]. split; [exact Hs|].
  split; [exact Hcreds | reflexivity].
Defined.

(** X21: in backend mode the wallet address is known as soon as the
    constructor returns: [getWalletAddress] gives the address of the wallet
    ethers built from the private key. In frontend mode it is undefined
    when the constructor returns; once the callback of the signer's address
    lookup has run it is the address the signer reports, and it stays
    undefined for a signer without [getAddress] or whose lookup rejects. *)
Theorem X21_wallet_address_availability
    (ethersWallet : string -> Completion string)
    (newBuilderConfig : BuilderSigning -> Completion unit) (gateway : Gateway.t)
    (config : TradingConfig.t) (c : TradingClient.t) :
  TradingClient.constructor ethersWallet newBuilderConfig gateway config = Return c ->
  match ClobClient.signer (TradingClient.client c) with
  | WalletSigner k a =>
      ethersWallet k = Return a
      /\ TradingClient.getWalletAddress c = Some a
      /\ TradingClient.addressResolved c = c
  | ExternalSigner s =>
      TradingClient.frontendSignerOf config = Some s
      /\ TradingClient.getWalletAddress c = None
      /\ TradingClient.getWalletAddress (TradingClient.addressResolved c)
         = match Signer.getAddress s with
           | Some (LookupResolves address) => Some address
           | _ => None
           end
  end.
Proof.
  intros H.
  destruct (constructor_returns _ _ _ _ _ H)
    as [(k & a & _ & Hw & _ & ->)|(s & _ & Hs & _ & _ & ->)];
    cbn [TradingClient.client ClobClient.signer].
  - repeat split. exact Hw.
  - split; [exact Hs|]. split; [reflexivity|].
    unfold TradingClient.addressResolved, TradingClient.getWalletAddress.
    cbn [TradingClient.client ClobClient.signer].
    now destruct (Signer.getAddress s) as [[]|].
Qed.

Lemma X21_wallet_address_availability_witness :
  exists c1 c2 c3,
    TradingClient.constructor Sample.wallet Sample.builderSdk Sample.gateway
      (Sample.backendConfig None) = Return c1
    /\ TradingClient.getWalletAddress c1
       = Some "0x7E5F4552091A69125d5DfCb7b8C2659029395Bdf"
    /\ TradingClient.constructor Sample.wallet Sample.builderSdk Sample.gateway
         (Sample.frontendConfig None) = Return c2
    /\ TradingClient.getWalletAddress c2 = None
    /\ TradingClient.getWalletAddress (TradingClient.addressResolved c2)
       = Some "0x2B5AD5c4795c026514f8317c7a215E218DcCD6cF"
    /\ TradingClient.constructor Sample.wallet Sample.builderSdk Sample.gateway
         (Fixture.signerConfig Fixture.rejectingSigner) = Return c3
    /\ TradingClient.getWalletAddress (TradingClient.addressResolved c3) = None.
Proof.
  do 3 eexists.
  split; [reflexivity|]. split.
  { apply (X21_wallet_address_availability Sample.wallet Sample.builderSdk Sample.gateway
             (Sample.backendConfig None) _ eq_refl). }
  split; [reflexivity|]. split.
  { apply (X21_wallet_address_availability Sample.wallet Sample.builderSdk Sample.gateway
             (Sample.frontendConfig None) _ eq_refl). }
  split.
  { apply (X21_wallet_address_availability Sample.wallet Sample.builderSdk Sample.gateway
             (Sample.frontendConfig None) _ eq_refl). }
  split; [reflexivity|].
  apply (X21_wallet_address_availability Sample.wallet Sample.builderSdk Sample.gateway
           (Fixture.signerConfig Fixture.rejectingSigner) _ eq_refl).
Defined.

(** X23: an error thrown while the constructor sets up its
    collaborators is the constructor's error, unchanged. In backend mode
    that is the error of [new BuilderConfig] on the chosen builder
    configuration, after the wallet has been built. In frontend mode it is
    the error thrown by calling the signer's [getAddress], and otherwise
    the error of [new BuilderConfig] on the remote builder configuration.
    A lookup promise that rejects does not make the constructor fail. *)
Theorem X23_collaborator_errors_propagate
    (ethersWallet : string -> Completion string)
    (newBuilderConfig : BuilderSigning -> Completion unit) (gateway : Gateway.t)
    (config : TradingConfig.t) (e : JsError) :
  (forall k a b,
     TradingClient.backendKeyOf config = Some k -> ethersWallet k = Return a ->
     TradingClient.backendBuilderConfig (TradingConfig.builder config) = Some b ->
     newBuilderConfig b = Throw e ->
     TradingClient.constructor ethersWallet newBuilderConfig gateway config = Throw e)
  /\ (forall s,
     TradingClient.backendKeyOf config = None ->
     TradingClient.frontendSignerOf config = Some s ->
     Signer.getAddress s = Some (LookupThrows e) ->
     TradingClient.constructor ethersWallet newBuilderConfig gateway config = Throw e)
  /\ (forall s b,
     TradingClient.backendKeyOf config = None ->
     TradingClient.frontendSignerOf config = Some s ->
     TradingClient.startAddressLookup s = Return tt ->
     TradingClient.frontendBuilderConfig (TradingConfig.builder config) = Some b ->
     newBuilderConfig b = Throw e ->
     TradingClient.constructor ethersWallet newBuilderConfig gateway config = Throw e)
  /\ (forall s e',
     Signer.getAddress s = Some (LookupRejects e') ->
     TradingClient.startAddressLookup s = Return tt).
Proof.
  assert (Hfront : forall s, TradingClient.frontendSignerOf config = Some s ->
            (negb (TradingClient.isSome (TradingConfig.backend config))
             && negb (TradingClient.isSome (TradingConfig.frontend config)))%bool = false).
  { intros s Hs. unfold TradingClient.frontendSignerOf in Hs.
    destruct (TradingConfig.frontend config); [|discriminate].
    now rewrite andb_false_r. }
  split; [|split; [|split]].
  - intros k a b Hk Hw Hb He. unfold TradingClient.constructor.
    rewrite Hk, Hw, Hb. cbn [TradingClient.buildBuilderConfig]. rewrite He.
    unfold TradingClient.backendKeyOf in Hk.
    destruct (TradingConfig.backend config); [reflexivity | discriminate].
  - intros s Hk Hs Hl. unfold TradingClient.constructor.
    rewrite (Hfront s Hs), Hk, Hs. unfold TradingClient.startAddressLookup.
    now rewrite Hl.
  - intros s b Hk Hs Hl Hb He. unfold TradingClient.constructor.
    rewrite (Hfront s Hs), Hk, Hs, Hl, Hb. cbn [TradingClient.buildBuilderConfig].
    now rewrite He.
  - intros s e' Hl. unfold TradingClient.startAddressLookup. now rewrite Hl.
Qed.

Lemma X23_collaborator_errors_propagate_witness :
  TradingClient.constructor Sample.wallet Sample.builderSdk Sample.gateway
    (Sample.backendConfig (Some Fixture.blankSecretBuilder))
    = Throw (Error "invalid local builder credentials!")
  /\ TradingClient.constructor Sample.wallet Sample.builderSdk Sample.gateway
       (Fixture.signerConfig Fixture.throwingSigner)
     = Throw (Error "wallet locked")
  /\ TradingClient.constructor Sample.wallet Sample.builderSdk Sample.gateway
       (Sample.frontendConfig (Some Fixture.noSchemeBuilder))
     = Throw (Error "invalid remote url!").
Proof.
  split; [|split].
  - apply (proj1 (X23_collaborator_errors_propagate Sample.wallet Sample.builderSdk
                    Sample.gateway (Sample.backendConfig (Some Fixture.blankSecretBuilder))
                    (Error "invalid local builder credentials!"))
             Sample.privateKey Sample.address
             (LocalBuilderCreds (mkApiCreds "k" " " "p")));
      reflexivity.
  - apply (proj1 (proj2 (X23_collaborator_errors_propagate Sample.wallet Sample.builderSdk
                    Sample.gateway (Fixture.signerConfig Fixture.throwingSigner)
                    (Error "wallet locked")))
             Fixture.throwingSigner);
      reflexivity.
  - apply (proj1 (proj2 (proj2 (X23_collaborator_errors_propagate Sample.wallet
                    Sample.builderSdk Sample.gateway
                    (Sample.frontendConfig (Some Fixture.noSchemeBuilder))
                    (Error "invalid remote url!"))))
             Sample.signer (RemoteBuilderConfig "sign.example"));
      reflexivity.
Defined.

(** X22: [placeOrder] succeeds exactly when the request passes the four
    guards and the gateway answers the submission; it then succeeds
    whatever the response holds, also with no order id in it. When the
    request is valid and the gateway call fails, the failure is wrapped
    with the method's context after that one call. *)
Theorem X22_placeOrder_succeeds_iff
    (this : TradingClient.t) (params : PlaceOrderParams.t) (w : World) :
  let gw := ClobClient.gateway (TradingClient.client this) in
  let valid :=
    (Js.truthyStr (PlaceOrderParams.tokenId params)
     && TradingClient.sideOk (PlaceOrderParams.side params)
     && negb (TradingClient.priceRejected (PlaceOrderParams.price params))
     && negb (TradingClient.sizeRejected (PlaceOrderParams.size params)))%bool in
  ((exists placed, snd (TradingClient.placeOrder this params w) = Return placed)
   <-> valid = true
       /\ exists response,
            Gateway.createAndPostOrder gw (TradingClient.wireOrder params) = Return response)
  /\ (forall e, valid = true ->
      Gateway.createAndPostOrder gw (TradingClient.wireOrder params) = Throw e ->
      TradingClient.placeOrder this params w
        = (called (CallCreateAndPostOrder (TradingClient.wireOrder params)) w,
           Throw (Error ("Failed to place order: " ++ message e)))).
Proof.
  cbv zeta. rewrite placeOrder_run.
  destruct (Js.truthyStr (PlaceOrderParams.tokenId params)); cbn [negb andb];
    [|split; [split; [intros [? H]; discriminate H | intros [H _]; discriminate H]
             | intros ? H; discriminate H]].
  destruct (TradingClient.sideOk (PlaceOrderParams.side params)); cbn [negb andb];
    [|split; [split; [intros [? H]; discriminate H | intros [H _]; discriminate H]
             | intros ? H; discriminate H]].
  destruct (TradingClient.priceRejected (PlaceOrderParams.price params)); cbn [negb andb];
    [split; [split; [intros [? H]; discriminate H | intros [H _]; discriminate H]
            | intros ? H; discriminate H]|].
  destruct (TradingClient.sizeRejected (PlaceOrderParams.size params)); cbn [negb andb];
    [split; [split; [intros [? H]; discriminate H | intros [H _]; discriminate H]
            | intros ? H; discriminate H]|].
  cbn [snd].
  destruct (Gateway.createAndPostOrder _ _) as [response|e0]; split.
  - split; [intros _; split; [reflexivity | now exists response]
           | intros _; eexists; reflexivity].
  - intros e _ H. discriminate H.
  - split; [intros [? H]; discriminate H | intros [_ [? H]]; discriminate H].
  - intros e _ [= <-]. reflexivity.
Qed.

Lemma X22_placeOrder_succeeds_iff_witness :
  (exists placed,
     snd (TradingClient.placeOrder Sample.client Sample.params Sample.world) = Return placed)
  /\ TradingClient.placeOrder Fixture.client Sample.params Sample.world
     = (called (CallCreateAndPostOrder (TradingClient.wireOrder Sample.params)) Sample.world,
        Throw (Error "Failed to place order: insufficient balance")).
Proof.
  split.
  - apply (proj2 (proj1 (X22_placeOrder_succeeds_iff Sample.client Sample.params
                           Sample.world))).
    split; [reflexivity | eexists; reflexivity].
  - apply (proj2 (X22_placeOrder_succeeds_iff Fixture.client Sample.params Sample.world)
             (Error "insufficient balance")); reflexivity.
Defined.
